(** * The ingestion state store of the news aggregator

    A shallow embedding of [app/database/repository.py]: the [Repository]
    class over its SQLAlchemy session, the four tables it reads and writes,
    and the properties of registration, enrichment, unification and the
    recency read path. *)

From stdpp Require Import base option list strings gmap sorting.
From Stdlib Require Import ZArith Lia.

Local Open Scope Z_scope.

(** ** Exceptions and results *)

(** The exceptions that the modelled statements can raise: the storage
    layer rejecting an INSERT or a LIMIT, and [datetime] arithmetic leaving
    the range of the type. *)
Inductive exn : Type :=
  | IntegrityError
  | DataError
  | OverflowError.

Inductive result (A : Type) : Type :=
  | Ok (a : A)
  | Raise (e : exn).
Global Arguments Ok {A} a.
Global Arguments Raise {A} e.

Global Instance result_ret : MRet result := λ A a, Ok a.
Global Instance result_bind : MBind result := λ A B f r,
  match r with
  | Ok a => f a
  | Raise e => Raise e
  end.

(** [returns r x]: the call answered with a sequence, and [x] is in it. *)
Definition returns {A} (r : result (list A)) (x : A) : Prop :=
  ∃ l, r = Ok l ∧ x ∈ l.

(** ** Python values *)

(** [a or b] on strings: the empty string is falsy. *)
Definition str_or (a b : string) : string :=
  if decide (a = "") then b else a.

(** [a or b] where [a] is an [Optional[str]]: [None] is falsy too. *)
Definition opt_or (a : option string) (b : string) : string :=
  match a with
  | Some x => str_or x b
  | None => b
  end.

(** [if limit:] on an [Optional[int]]: [None] and [0] are falsy. *)
Definition truthy (limit : option Z) : bool :=
  match limit with
  | Some n => bool_decide (n ≠ 0)
  | None => false
  end.

(** [l[:n]]: a negative bound counts from the end of the list. *)
Definition slice_to {A} (n : Z) (l : list A) : list A :=
  if decide (0 ≤ n) then take (Z.to_nat n) l
  else take (length l - Z.to_nat (- n))%nat l.

(** ** Dates and times *)

(** A [datetime]: the wall-clock reading in microseconds since
    0001-01-01T00:00:00, and the UTC offset (in microseconds) of an aware
    value; [tzinfo = None] is a naive value. *)
Record datetime : Type := {
  wall : Z;
  tzinfo : option Z
}.

Global Instance datetime_eq_dec : EqDecision datetime.
Proof. solve_decision. Defined.

Definition microseconds_per_hour : Z := 3600 * 1000000.
Definition microseconds_per_day : Z := 24 * microseconds_per_hour.

(** [datetime.min] and [datetime.max]: years 1 to 9999, that is 3652059
    days. *)
Definition datetime_min : Z := 0.
Definition datetime_max : Z := 3652059 * microseconds_per_day - 1.

Definition datetime_ok (t : Z) : Prop := datetime_min ≤ t ≤ datetime_max.

(** [timedelta.min] and [timedelta.max]: at most 999999999 days either
    way. *)
Definition timedelta_ok (d : Z) : Prop :=
  - 999999999 * microseconds_per_day ≤ d < 1000000000 * microseconds_per_day.

(** [timedelta(hours=hours)] *)
Definition timedelta_hours (hours : Z) : result Z :=
  let d := hours * microseconds_per_hour in
  if decide (timedelta_ok d) then Ok d else Raise OverflowError.

(** [t - d] for a [datetime] reading [t] and a [timedelta] [d] *)
Definition datetime_sub (t d : Z) : result Z :=
  if decide (datetime_ok (t - d)) then Ok (t - d) else Raise OverflowError.

(** [dt.replace(tzinfo=timezone.utc)] *)
Definition replace_tzinfo_utc (dt : datetime) : datetime :=
  {| wall := wall dt; tzinfo := Some 0 |}.

(** [datetime.now(timezone.utc)] for a clock that reads [now]. *)
Definition now_utc (now : Z) : datetime :=
  {| wall := now; tzinfo := Some 0 |}.

(** The instant a stored timestamp denotes, on the UTC time line; this is
    what the storage layer compares and orders by. A naive value is read as
    UTC, as [create_digest] does. *)
Definition instant (dt : datetime) : Z :=
  wall dt - default 0 (tzinfo dt).

(** ** The model classes

    The columns are the ones the repository sets in the constructors and
    reads in its queries, with the types of the signatures of the creating
    methods: a description is a [str], a transcript, a markdown and a
    category are [Optional[str]]. *)

Module YouTubeVideo.
Record t : Type := {
  video_id : string;
  title : string;
  url : string;
  channel_id : string;
  published_at : datetime;
  description : string;
  transcript : option string
}.
Definition set_transcript (v : option string) (r : t) : t :=
  {| video_id := video_id r; title := title r; url := url r;
     channel_id := channel_id r; published_at := published_at r;
     description := description r; transcript := v |}.
End YouTubeVideo.

Module OpenAIArticle.
Record t : Type := {
  guid : string;
  title : string;
  url : string;
  published_at : datetime;
  description : string;
  category : option string
}.
End OpenAIArticle.

Module AnthropicArticle.
Record t : Type := {
  guid : string;
  title : string;
  url : string;
  published_at : datetime;
  description : string;
  category : option string;
  markdown : option string
}.
Definition set_markdown (v : option string) (r : t) : t :=
  {| guid := guid r; title := title r; url := url r;
     published_at := published_at r; description := description r;
     category := category r; markdown := v |}.
End AnthropicArticle.

Module Digest.
Record t : Type := {
  id : string;
  article_type : string;
  article_id : string;
  url : string;
  title : string;
  summary : string;
  created_at : datetime
}.
End Digest.

Global Instance YouTubeVideo_eq_dec : EqDecision YouTubeVideo.t.
Proof. solve_decision. Defined.
Global Instance OpenAIArticle_eq_dec : EqDecision OpenAIArticle.t.
Proof. solve_decision. Defined.
Global Instance AnthropicArticle_eq_dec : EqDecision AnthropicArticle.t.
Proof. solve_decision. Defined.
Global Instance Digest_eq_dec : EqDecision Digest.t.
Proof. solve_decision. Defined.

(** The dicts handed to the bulk operations: the keys read with [v["k"]]
    are fields, the keys read with [v.get("k", ...)] are optional. *)
Module VideoDict.
Record t : Type := {
  video_id : string;
  title : string;
  url : string;
  channel_id : option string;
  published_at : datetime;
  description : option string;
  transcript : option string
}.
End VideoDict.

Module ArticleDict.
Record t : Type := {
  guid : string;
  title : string;
  url : string;
  published_at : datetime;
  description : option string;
  category : option string
}.
End ArticleDict.

(** The dicts that [get_articles_without_digest] returns. *)
Module Article.
Record t : Type := {
  type : string;
  id : string;
  title : string;
  url : string;
  content : string;
  published_at : datetime
}.
End Article.

(** The dicts that [get_recent_digests] returns. *)
Module DigestDict.
Record t : Type := {
  id : string;
  article_type : string;
  article_id : string;
  url : string;
  title : string;
  summary : string;
  created_at : datetime
}.
End DigestDict.

(** ** The session: the four tables, rows in storage order *)

Record Session : Type := {
  youtube_videos : list YouTubeVideo.t;
  openai_articles : list OpenAIArticle.t;
  anthropic_articles : list AnthropicArticle.t;
  digests : list Digest.t
}.

Definition empty_session : Session :=
  {| youtube_videos := []; openai_articles := [];
     anthropic_articles := []; digests := [] |}.

Definition set_youtube_videos (rows : list YouTubeVideo.t) (s : Session) :=
  {| youtube_videos := rows; openai_articles := openai_articles s;
     anthropic_articles := anthropic_articles s; digests := digests s |}.
Definition set_openai_articles (rows : list OpenAIArticle.t) (s : Session) :=
  {| youtube_videos := youtube_videos s; openai_articles := rows;
     anthropic_articles := anthropic_articles s; digests := digests s |}.
Definition set_anthropic_articles (rows : list AnthropicArticle.t) (s : Session) :=
  {| youtube_videos := youtube_videos s; openai_articles := openai_articles s;
     anthropic_articles := rows; digests := digests s |}.
Definition set_digests (rows : list Digest.t) (s : Session) :=
  {| youtube_videos := youtube_videos s; openai_articles := openai_articles s;
     anthropic_articles := anthropic_articles s; digests := rows |}.

(** ** Queries and writes *)

Section table.
Context {A : Type} (key : A → string).

(** [query(M).filter_by(key=k).first()] *)
Definition first_by (k : string) (rows : list A) : option A :=
  head (filter (λ r, key r = k) rows).

(** Modelled from the spec: the declaration of the tables is missing;
    each of the three item tables is unique on its source id and the
    digest table is unique on the digest id. [add_all] followed by
    [commit] sends the pending rows as INSERTs in order, in one
    transaction: a row whose key is already stored makes the storage
    layer reject the transaction, which stores nothing. *)
Fixpoint add_all_commit (pending rows : list A) : result (list A) :=
  match pending with
  | [] => Ok rows
  | r :: pending' =>
      if decide (key r ∈ key <$> rows) then Raise IntegrityError
      else add_all_commit pending' (rows ++ [r])
  end.

(** An assignment to a column of the row [first_by k] found, followed by
    [commit]. *)
Fixpoint update_first (k : string) (f : A → A) (rows : list A) : list A :=
  match rows with
  | [] => []
  | r :: rows' =>
      if decide (key r = k) then f r :: rows'
      else r :: update_first k f rows'
  end.
End table.

(** [query.limit(n)]; the storage layer (PostgreSQL, the dialect of the SQL
    quoted in the repository) rejects a negative LIMIT. *)
Definition query_limit {A} (n : Z) (rows : list A) : result (list A) :=
  if decide (n < 0) then Raise DataError else Ok (take (Z.to_nat n) rows).

(** [if limit: query = query.limit(limit)] and then [query.all()] *)
Definition limit_all {A} (limit : option Z) (query : list A) : result (list A) :=
  match limit with
  | Some n => if truthy limit then query_limit n query else Ok query
  | None => Ok query
  end.


(** ** The repository *)

(** [create_youtube_video]: [None] when a row with this [video_id] exists,
    the stored row otherwise. *)
Definition create_youtube_video (video_id title url channel_id : string)
    (published_at : datetime) (description : string)
    (transcript : option string) (s : Session)
    : result (option YouTubeVideo.t * Session) :=
  let existing := first_by YouTubeVideo.video_id video_id (youtube_videos s) in
  if existing is Some _ then Ok (None, s)
  else
    let video :=
      {| YouTubeVideo.video_id := video_id;
         YouTubeVideo.title := title;
         YouTubeVideo.url := url;
         YouTubeVideo.channel_id := channel_id;
         YouTubeVideo.published_at := published_at;
         YouTubeVideo.description := description;
         YouTubeVideo.transcript := transcript |} in
    rows ← add_all_commit YouTubeVideo.video_id [video] (youtube_videos s);
    Ok (Some video, set_youtube_videos rows s).

Definition create_openai_article (guid title url : string)
    (published_at : datetime) (description : string)
    (category : option string) (s : Session)
    : result (option OpenAIArticle.t * Session) :=
  let existing := first_by OpenAIArticle.guid guid (openai_articles s) in
  if existing is Some _ then Ok (None, s)
  else
    let article :=
      {| OpenAIArticle.guid := guid;
         OpenAIArticle.title := title;
         OpenAIArticle.url := url;
         OpenAIArticle.published_at := published_at;
         OpenAIArticle.description := description;
         OpenAIArticle.category := category |} in
    rows ← add_all_commit OpenAIArticle.guid [article] (openai_articles s);
    Ok (Some article, set_openai_articles rows s).

(** The [markdown] column is not set by the constructor and starts out
    NULL. *)
Definition create_anthropic_article (guid title url : string)
    (published_at : datetime) (description : string)
    (category : option string) (s : Session)
    : result (option AnthropicArticle.t * Session) :=
  let existing := first_by AnthropicArticle.guid guid (anthropic_articles s) in
  if existing is Some _ then Ok (None, s)
  else
    let article :=
      {| AnthropicArticle.guid := guid;
         AnthropicArticle.title := title;
         AnthropicArticle.url := url;
         AnthropicArticle.published_at := published_at;
         AnthropicArticle.description := description;
         AnthropicArticle.category := category;
         AnthropicArticle.markdown := None |} in
    rows ← add_all_commit AnthropicArticle.guid [article] (anthropic_articles s);
    Ok (Some article, set_anthropic_articles rows s).

Definition video_of_dict (v : VideoDict.t) : YouTubeVideo.t :=
  {| YouTubeVideo.video_id := VideoDict.video_id v;
     YouTubeVideo.title := VideoDict.title v;
     YouTubeVideo.url := VideoDict.url v;
     YouTubeVideo.channel_id := default "" (VideoDict.channel_id v);
     YouTubeVideo.published_at := VideoDict.published_at v;
     YouTubeVideo.description := default "" (VideoDict.description v);
     YouTubeVideo.transcript := VideoDict.transcript v |}.

Definition openai_of_dict (a : ArticleDict.t) : OpenAIArticle.t :=
  {| OpenAIArticle.guid := ArticleDict.guid a;
     OpenAIArticle.title := ArticleDict.title a;
     OpenAIArticle.url := ArticleDict.url a;
     OpenAIArticle.published_at := ArticleDict.published_at a;
     OpenAIArticle.description := default "" (ArticleDict.description a);
     OpenAIArticle.category := ArticleDict.category a |}.

Definition anthropic_of_dict (a : ArticleDict.t) : AnthropicArticle.t :=
  {| AnthropicArticle.guid := ArticleDict.guid a;
     AnthropicArticle.title := ArticleDict.title a;
     AnthropicArticle.url := ArticleDict.url a;
     AnthropicArticle.published_at := ArticleDict.published_at a;
     AnthropicArticle.description := default "" (ArticleDict.description a);
     AnthropicArticle.category := ArticleDict.category a;
     AnthropicArticle.markdown := None |}.

(** The loop shared by the three bulk operations: every dict is looked up
    in the stored rows (the rows collected so far are not in the session
    yet, so the lookup does not see them) and collected when absent. *)
Definition collect_new {D A} (key : A → string) (mk : D → A)
    (rows : list A) (batch : list D) : list A :=
  foldl (λ new d,
    let existing := first_by key (key (mk d)) rows in
    if existing is Some _ then new else new ++ [mk d]) [] batch.

(** [bulk_create_youtube_videos]: the number of rows it created. *)
Definition bulk_create_youtube_videos (videos : list VideoDict.t) (s : Session)
    : result (nat * Session) :=
  let new_videos :=
    collect_new YouTubeVideo.video_id video_of_dict (youtube_videos s) videos in
  match new_videos with
  | [] => Ok (length new_videos, s)
  | _ =>
      rows ← add_all_commit YouTubeVideo.video_id new_videos (youtube_videos s);
      Ok (length new_videos, set_youtube_videos rows s)
  end.

Definition bulk_create_openai_articles (articles : list ArticleDict.t)
    (s : Session) : result (nat * Session) :=
  let new_articles :=
    collect_new OpenAIArticle.guid openai_of_dict (openai_articles s) articles in
  match new_articles with
  | [] => Ok (length new_articles, s)
  | _ =>
      rows ← add_all_commit OpenAIArticle.guid new_articles (openai_articles s);
      Ok (length new_articles, set_openai_articles rows s)
  end.

Definition bulk_create_anthropic_articles (articles : list ArticleDict.t)
    (s : Session) : result (nat * Session) :=
  let new_articles :=
    collect_new AnthropicArticle.guid anthropic_of_dict
      (anthropic_articles s) articles in
  match new_articles with
  | [] => Ok (length new_articles, s)
  | _ =>
      rows ← add_all_commit AnthropicArticle.guid new_articles
               (anthropic_articles s);
      Ok (length new_articles, set_anthropic_articles rows s)
  end.

(** [get_anthropic_articles_without_markdown]: [WHERE markdown IS NULL] *)
Definition get_anthropic_articles_without_markdown (limit : option Z)
    (s : Session) : result (list AnthropicArticle.t) :=
  let query :=
    filter (λ r, AnthropicArticle.markdown r = None) (anthropic_articles s) in
  limit_all limit query.

Definition update_anthropic_article_markdown (guid markdown : string)
    (s : Session) : bool * Session :=
  let article := first_by AnthropicArticle.guid guid (anthropic_articles s) in
  if article is Some _ then
    (true,
     set_anthropic_articles
       (update_first AnthropicArticle.guid guid
          (AnthropicArticle.set_markdown (Some markdown))
          (anthropic_articles s)) s)
  else (false, s).

(** [get_youtube_videos_without_transcript]: [WHERE transcript IS NULL] *)
Definition get_youtube_videos_without_transcript (limit : option Z)
    (s : Session) : result (list YouTubeVideo.t) :=
  let query :=
    filter (λ r, YouTubeVideo.transcript r = None) (youtube_videos s) in
  limit_all limit query.

(** The marker for a transcript that was looked for and does not exist. *)
Definition UNAVAILABLE : string := "__UNAVAILABLE__".

Definition update_youtube_video_transcript (video_id transcript : string)
    (s : Session) : bool * Session :=
  let video := first_by YouTubeVideo.video_id video_id (youtube_videos s) in
  if video is Some _ then
    (true,
     set_youtube_videos
       (update_first YouTubeVideo.video_id video_id
          (YouTubeVideo.set_transcript (Some transcript))
          (youtube_videos s)) s)
  else (false, s).

(** The digest id: [f"{article_type}:{article_id}"] *)
Definition digest_key (article_type article_id : string) : string :=
  article_type +:+ ":" +:+ article_id.

Definition youtube_dict (video : YouTubeVideo.t) : Article.t :=
  {| Article.type := "youtube";
     Article.id := YouTubeVideo.video_id video;
     Article.title := YouTubeVideo.title video;
     Article.url := YouTubeVideo.url video;
     Article.content :=
       opt_or (YouTubeVideo.transcript video)
         (str_or (YouTubeVideo.description video) "");
     Article.published_at := YouTubeVideo.published_at video |}.

Definition openai_dict (article : OpenAIArticle.t) : Article.t :=
  {| Article.type := "openai";
     Article.id := OpenAIArticle.guid article;
     Article.title := OpenAIArticle.title article;
     Article.url := OpenAIArticle.url article;
     Article.content := str_or (OpenAIArticle.description article) "";
     Article.published_at := OpenAIArticle.published_at article |}.

Definition anthropic_dict (article : AnthropicArticle.t) : Article.t :=
  {| Article.type := "anthropic";
     Article.id := AnthropicArticle.guid article;
     Article.title := AnthropicArticle.title article;
     Article.url := AnthropicArticle.url article;
     Article.content :=
       opt_or (AnthropicArticle.markdown article)
         (str_or (AnthropicArticle.description article) "");
     Article.published_at := AnthropicArticle.published_at article |}.

(** One of the three loops of [get_articles_without_digest]: the rows whose
    key is not in [seen_ids] are appended to [articles]. *)
Definition append_unseen {A} (seen_ids : gset string) (key : A → string)
    (dict : A → Article.t) (articles : list Article.t) (rows : list A)
    : list Article.t :=
  foldl (λ articles r,
    if decide (key r ∈ seen_ids) then articles else articles ++ [dict r])
    articles rows.

(** [get_articles_without_digest] *)
Definition get_articles_without_digest (limit : option Z) (s : Session)
    : list Article.t :=
  let articles := [] in
  let seen_ids :=
    foldl (λ seen d,
      {[ digest_key (Digest.article_type d) (Digest.article_id d) ]} ∪ seen)
      (∅ : gset string) (digests s) in
  let youtube_videos :=
    filter (λ r, YouTubeVideo.transcript r ≠ None
                 ∧ YouTubeVideo.transcript r ≠ Some UNAVAILABLE)
      (youtube_videos s) in
  let articles :=
    append_unseen seen_ids
      (λ video, digest_key "youtube" (YouTubeVideo.video_id video))
      youtube_dict articles youtube_videos in
  let articles :=
    append_unseen seen_ids
      (λ article, digest_key "openai" (OpenAIArticle.guid article))
      openai_dict articles (openai_articles s) in
  let anthropic_articles :=
    filter (λ r, AnthropicArticle.markdown r ≠ None) (anthropic_articles s) in
  let articles :=
    append_unseen seen_ids
      (λ article, digest_key "anthropic" (AnthropicArticle.guid article))
      anthropic_dict articles anthropic_articles in
  match limit with
  | Some n => if truthy limit then slice_to n articles else articles
  | None => articles
  end.

(** [create_digest]; [now] is the reading of the clock, used when no
    publication time is given. *)
Definition create_digest (article_type article_id url title summary : string)
    (published_at : option datetime) (now : Z) (s : Session)
    : result (option Digest.t * Session) :=
  let digest_id := digest_key article_type article_id in
  let existing := first_by Digest.id digest_id (digests s) in
  if existing is Some _ then Ok (None, s)
  else
    let created_at :=
      match published_at with
      | Some published_at =>
          if tzinfo published_at is Some _ then published_at
          else replace_tzinfo_utc published_at
      | None => now_utc now
      end in
    let digest :=
      {| Digest.id := digest_id;
         Digest.article_type := article_type;
         Digest.article_id := article_id;
         Digest.url := url;
         Digest.title := title;
         Digest.summary := summary;
         Digest.created_at := created_at |} in
    rows ← add_all_commit Digest.id [digest] (digests s);
    Ok (Some digest, set_digests rows s).

Definition digest_dict (d : Digest.t) : DigestDict.t :=
  {| DigestDict.id := Digest.id d;
     DigestDict.article_type := Digest.article_type d;
     DigestDict.article_id := Digest.article_id d;
     DigestDict.url := Digest.url d;
     DigestDict.title := Digest.title d;
     DigestDict.summary := Digest.summary d;
     DigestDict.created_at := Digest.created_at d |}.

(** [ORDER BY created_at DESC]: the later row comes first. *)
Definition newer_first (a b : Digest.t) : Prop :=
  instant (Digest.created_at b) ≤ instant (Digest.created_at a).

Global Instance newer_first_dec : RelDecision newer_first.
Proof. intros a b. unfold newer_first. apply _. Defined.

(** [get_recent_digests]; [now] is the reading of the clock. *)
Definition get_recent_digests (hours : Z) (now : Z) (s : Session)
    : result (list DigestDict.t) :=
  delta ← timedelta_hours hours;
  cutoff_time ← datetime_sub now delta;
  let digests :=
    merge_sort newer_first
      (filter (λ d, cutoff_time ≤ instant (Digest.created_at d)) (digests s)) in
  Ok (digest_dict <$> digests).


(** ** Invariants of the stored state *)

(** The uniqueness constraints of the four tables. *)
Record unique_keys (s : Session) : Prop := {
  unique_video_id : NoDup (YouTubeVideo.video_id <$> youtube_videos s);
  unique_openai_guid : NoDup (OpenAIArticle.guid <$> openai_articles s);
  unique_anthropic_guid :
    NoDup (AnthropicArticle.guid <$> anthropic_articles s);
  unique_digest_id : NoDup (Digest.id <$> digests s)
}.

(** Every digest row carries the id derived from its two key columns. *)
Definition digest_ids_derived (s : Session) : Prop :=
  ∀ d, d ∈ digests s →
    Digest.id d = digest_key (Digest.article_type d) (Digest.article_id d).

(** ** What the unified view is meant to hold *)

(** The ledger has a record under the digest id of the item. *)
Definition digested (s : Session) (a : Article.t) : Prop :=
  ∃ d, d ∈ digests s ∧
    Digest.id d = digest_key (Article.type a) (Article.id a).

(** The ready items as the specification words them: the content of a video
    is its transcript. *)
Inductive ready_spec (s : Session) : Article.t → Prop :=
  | ready_spec_youtube v t :
      v ∈ youtube_videos s →
      YouTubeVideo.transcript v = Some t →
      t ≠ UNAVAILABLE →
      ready_spec s
        {| Article.type := "youtube";
           Article.id := YouTubeVideo.video_id v;
           Article.title := YouTubeVideo.title v;
           Article.url := YouTubeVideo.url v;
           Article.content := t;
           Article.published_at := YouTubeVideo.published_at v |}
  | ready_spec_openai a :
      a ∈ openai_articles s →
      ready_spec s
        {| Article.type := "openai";
           Article.id := OpenAIArticle.guid a;
           Article.title := OpenAIArticle.title a;
           Article.url := OpenAIArticle.url a;
           Article.content := OpenAIArticle.description a;
           Article.published_at := OpenAIArticle.published_at a |}
  | ready_spec_anthropic a m :
      a ∈ anthropic_articles s →
      AnthropicArticle.markdown a = Some m →
      ready_spec s
        {| Article.type := "anthropic";
           Article.id := AnthropicArticle.guid a;
           Article.title := AnthropicArticle.title a;
           Article.url := AnthropicArticle.url a;
           Article.content :=
             if decide (m = "") then AnthropicArticle.description a else m;
           Article.published_at := AnthropicArticle.published_at a |}.

(** The ready items with the fallback of the video content written out: an
    empty transcript gives way to the description, as an empty markdown
    does. *)
Inductive ready (s : Session) : Article.t → Prop :=
  | ready_youtube v t :
      v ∈ youtube_videos s →
      YouTubeVideo.transcript v = Some t →
      t ≠ UNAVAILABLE →
      ready s
        {| Article.type := "youtube";
           Article.id := YouTubeVideo.video_id v;
           Article.title := YouTubeVideo.title v;
           Article.url := YouTubeVideo.url v;
           Article.content :=
             if decide (t = "") then YouTubeVideo.description v else t;
           Article.published_at := YouTubeVideo.published_at v |}
  | ready_openai a :
      a ∈ openai_articles s →
      ready s
        {| Article.type := "openai";
           Article.id := OpenAIArticle.guid a;
           Article.title := OpenAIArticle.title a;
           Article.url := OpenAIArticle.url a;
           Article.content := OpenAIArticle.description a;
           Article.published_at := OpenAIArticle.published_at a |}
  | ready_anthropic a m :
      a ∈ anthropic_articles s →
      AnthropicArticle.markdown a = Some m →
      ready s
        {| Article.type := "anthropic";
           Article.id := AnthropicArticle.guid a;
           Article.title := AnthropicArticle.title a;
           Article.url := AnthropicArticle.url a;
           Article.content :=
             if decide (m = "") then AnthropicArticle.description a else m;
           Article.published_at := AnthropicArticle.published_at a |}.

(** The digest keys collected from the ledger. *)
Definition seen_ids_of (s : Session) : gset string :=
  foldl (λ seen d,
    {[ digest_key (Digest.article_type d) (Digest.article_id d) ]} ∪ seen)
    (∅ : gset string) (digests s).

(** ** Creating a row twice *)

(** A creating call [first] for the key [k], followed by a creating call
    [second] for the same key: the first call answers and leaves [s1]; the
    second call answers [None] and leaves [s1] as it is; [s1] holds one row
    under [k]; and the first call stored [new] and returned it when [k] was
    free, and stored nothing when it was taken. *)
Definition created_once {A} (key : A → string) (table : Session → list A)
    (set : list A → Session → Session) (k : string) (new : A)
    (first second : Session → result (option A * Session)) (s : Session)
    : Prop :=
  ∃ r s1,
    first s = Ok (r, s1)
    ∧ second s1 = Ok (None, s1)
    ∧ length (filter (λ x, key x = k) (table s1)) = 1%nat
    ∧ (k ∉ key <$> table s → r = Some new ∧ s1 = set (table s ++ [new]) s)
    ∧ (k ∈ key <$> table s → r = None ∧ s1 = s).

(** The shape shared by the four creating methods. *)
Definition creates {A} (key : A → string) (table : Session → list A)
    (set : list A → Session → Session) (k : string) (new : A)
    (f : Session → result (option A * Session)) : Prop :=
  ∀ s, f s =
    if first_by key k (table s) is Some _ then Ok (None, s)
    else rows ← add_all_commit key [new] (table s); Ok (Some new, set rows s).

(** ** Enrichment that was attempted *)

(** A video is stored under [video_id], and no row under that id is still
    waiting for a transcript. *)
Definition enriched (video_id : string) (s : Session) : Prop :=
  video_id ∈ YouTubeVideo.video_id <$> youtube_videos s
  ∧ ∀ v, v ∈ youtube_videos s → YouTubeVideo.video_id v = video_id →
      YouTubeVideo.transcript v ≠ None.

(** ** Sequences of calls *)

(** One call of a method of the repository, with its arguments. *)
Inductive op : Type :=
  | CreateYoutubeVideo (video_id title url channel_id : string)
      (published_at : datetime) (description : string)
      (transcript : option string)
  | CreateOpenaiArticle (guid title url : string) (published_at : datetime)
      (description : string) (category : option string)
  | CreateAnthropicArticle (guid title url : string) (published_at : datetime)
      (description : string) (category : option string)
  | BulkCreateYoutubeVideos (videos : list VideoDict.t)
  | BulkCreateOpenaiArticles (articles : list ArticleDict.t)
  | BulkCreateAnthropicArticles (articles : list ArticleDict.t)
  | GetAnthropicArticlesWithoutMarkdown (limit : option Z)
  | UpdateAnthropicArticleMarkdown (guid markdown : string)
  | GetYoutubeVideosWithoutTranscript (limit : option Z)
  | UpdateYoutubeVideoTranscript (video_id transcript : string)
  | GetArticlesWithoutDigest (limit : option Z)
  | CreateDigest (article_type article_id url title summary : string)
      (published_at : option datetime) (now : Z)
  | GetRecentDigests (hours now : Z).

(** The stored state a writing call leaves: a rejected transaction stores
    nothing. *)
Definition state_after {A} (r : result (A * Session)) (s : Session) : Session :=
  match r with
  | Ok (_, s') => s'
  | Raise _ => s
  end.

(** The stored state after one call; the reading methods leave it as it
    is. *)
Definition call (o : op) (s : Session) : Session :=
  match o with
  | CreateYoutubeVideo video_id title url channel_id published_at
      description transcript =>
      state_after
        (create_youtube_video video_id title url channel_id published_at
           description transcript s) s
  | CreateOpenaiArticle guid title url published_at description category =>
      state_after
        (create_openai_article guid title url published_at description
           category s) s
  | CreateAnthropicArticle guid title url published_at description category =>
      state_after
        (create_anthropic_article guid title url published_at description
           category s) s
  | BulkCreateYoutubeVideos videos =>
      state_after (bulk_create_youtube_videos videos s) s
  | BulkCreateOpenaiArticles articles =>
      state_after (bulk_create_openai_articles articles s) s
  | BulkCreateAnthropicArticles articles =>
      state_after (bulk_create_anthropic_articles articles s) s
  | UpdateAnthropicArticleMarkdown guid markdown =>
      (update_anthropic_article_markdown guid markdown s).2
  | UpdateYoutubeVideoTranscript video_id transcript =>
      (update_youtube_video_transcript video_id transcript s).2
  | CreateDigest article_type article_id url title summary published_at now =>
      state_after
        (create_digest article_type article_id url title summary
           published_at now s) s
  | GetAnthropicArticlesWithoutMarkdown _
  | GetYoutubeVideosWithoutTranscript _
  | GetArticlesWithoutDigest _
  | GetRecentDigests _ _ => s
  end.

Definition calls (ops : list op) (s : Session) : Session :=
  foldl (λ s o, call o s) s ops.

(** ** The candidates of the unified view *)

(** The rows that pass the filters of the three scans of
    [get_articles_without_digest], as the dicts it builds, before the
    digested ones are left out. *)
Definition candidates (s : Session) : list Article.t :=
  (youtube_dict <$>
     filter (λ r, YouTubeVideo.transcript r ≠ None
                  ∧ YouTubeVideo.transcript r ≠ Some UNAVAILABLE)
       (youtube_videos s))
  ++ (openai_dict <$> openai_articles s)
  ++ (anthropic_dict <$>
        filter (λ r, AnthropicArticle.markdown r ≠ None)
          (anthropic_articles s)).

(** The key under which [get_articles_without_digest] looks an item up in
    the digested keys. *)
Definition article_key (a : Article.t) : string :=
  digest_key (Article.type a) (Article.id a).

(** The three values of the [type] of an item. *)
Definition source_types : list string := [ "youtube"; "openai"; "anthropic" ].

(** An article is stored under [guid], and no row under that guid is still
    waiting for its markdown. *)
Definition converted (guid : string) (s : Session) : Prop :=
  guid ∈ AnthropicArticle.guid <$> anthropic_articles s
  ∧ ∀ r, r ∈ anthropic_articles s → AnthropicArticle.guid r = guid →
      AnthropicArticle.markdown r ≠ None.

(** The creating call that [bulk_create_youtube_videos] replaces, for one
    dict of the batch. *)
Definition create_of_dict (v : VideoDict.t) : op :=
  CreateYoutubeVideo (VideoDict.video_id v) (VideoDict.title v)
    (VideoDict.url v) (default "" (VideoDict.channel_id v))
    (VideoDict.published_at v) (default "" (VideoDict.description v))
    (VideoDict.transcript v).

(** ** Fixtures *)

(** A reading of the clock in July 2026, and a publication time two hours
    before it. *)
Definition clock_2026 : Z := 63920000000000000.

Definition published_2026 : datetime :=
  {| wall := clock_2026 - 2 * microseconds_per_hour; tzinfo := Some 0 |}.

Definition video_fixture (video_id description : string)
    (transcript : option string) : YouTubeVideo.t :=
  {| YouTubeVideo.video_id := video_id;
     YouTubeVideo.title := "title";
     YouTubeVideo.url := "https://youtu.be/" +:+ video_id;
     YouTubeVideo.channel_id := "channel";
     YouTubeVideo.published_at := published_2026;
     YouTubeVideo.description := description;
     YouTubeVideo.transcript := transcript |}.

Definition openai_fixture (guid : string) : OpenAIArticle.t :=
  {| OpenAIArticle.guid := guid;
     OpenAIArticle.title := "title";
     OpenAIArticle.url := guid;
     OpenAIArticle.published_at := published_2026;
     OpenAIArticle.description := "short description";
     OpenAIArticle.category := None |}.

Definition anthropic_fixture (guid : string) (markdown : option string)
    : AnthropicArticle.t :=
  {| AnthropicArticle.guid := guid;
     AnthropicArticle.title := "title";
     AnthropicArticle.url := guid;
     AnthropicArticle.published_at := published_2026;
     AnthropicArticle.description := "short description";
     AnthropicArticle.category := None;
     AnthropicArticle.markdown := markdown |}.

Definition digest_fixture (article_type article_id : string)
    (created_at : datetime) : Digest.t :=
  {| Digest.id := digest_key article_type article_id;
     Digest.article_type := article_type;
     Digest.article_id := article_id;
     Digest.url := article_id;
     Digest.title := "digest title";
     Digest.summary := "summary";
     Digest.created_at := created_at |}.

Definition video_dict_fixture (video_id : string) : VideoDict.t :=
  {| VideoDict.video_id := video_id;
     VideoDict.title := "title";
     VideoDict.url := "https://youtu.be/" +:+ video_id;
     VideoDict.channel_id := None;
     VideoDict.published_at := published_2026;
     VideoDict.description := None;
     VideoDict.transcript := None |}.

(** Per source an item that is not ready, one that is ready, and one that
    has its digest. *)
Definition readiness_fixture : Session :=
  {| youtube_videos :=
       [ video_fixture "v0" "d" None;
         video_fixture "v1" "d" (Some UNAVAILABLE);
         video_fixture "v2" "d" (Some "transcript text");
         video_fixture "v3" "d" (Some "older transcript") ];
     openai_articles := [ openai_fixture "a1"; openai_fixture "a2" ];
     anthropic_articles :=
       [ anthropic_fixture "b0" None;
         anthropic_fixture "b1" (Some "# document");
         anthropic_fixture "b2" (Some "# older document") ];
     digests :=
       [ digest_fixture "youtube" "v3" published_2026;
         digest_fixture "openai" "a2" published_2026;
         digest_fixture "anthropic" "b2" published_2026 ] |}.

(** A video whose stored transcript is the empty string. *)
Definition empty_transcript_fixture : Session :=
  set_youtube_videos [ video_fixture "v1" "description" (Some "") ]
    empty_session.

(** Calls that follow the marking of video ["v0"]: attempts to register it
    again, alone and in a batch, a late transcript, and reads. *)
Definition later_calls_fixture : list op :=
  [ CreateYoutubeVideo "v0" "title" "https://youtu.be/v0" "channel"
      published_2026 "d" None;
    BulkCreateYoutubeVideos [ video_dict_fixture "v0"; video_dict_fixture "n1" ];
    GetYoutubeVideosWithoutTranscript None;
    CreateDigest "youtube" "v2" "v2" "digest title" "summary" None clock_2026;
    UpdateYoutubeVideoTranscript "v0" "late transcript";
    GetArticlesWithoutDigest (Some 1) ].

(** Two digests, one filed five hours after the reading [clock_2026] of the
    clock and one filed two hours before it. *)
Definition ledger_fixture : Session :=
  set_digests
    [ digest_fixture "youtube" "v2" published_2026;
      digest_fixture "openai" "a1"
        (now_utc (clock_2026 + 5 * microseconds_per_hour)) ]
    empty_session.

(** ** Fixtures of the composed calls *)

Global Instance Article_eq_dec : EqDecision Article.t.
Proof. solve_decision. Defined.
Global Instance DigestDict_eq_dec : EqDecision DigestDict.t.
Proof. solve_decision. Defined.

Definition article_dict_fixture (guid : string) : ArticleDict.t :=
  {| ArticleDict.guid := guid;
     ArticleDict.title := "title";
     ArticleDict.url := guid;
     ArticleDict.published_at := published_2026;
     ArticleDict.description := Some "short description";
     ArticleDict.category := None |}.

(** [readiness_fixture] after the digest of video ["v2"] was stored at
    [clock_2026]. *)
Definition digested_fixture : Session :=
  set_digests
    (digests readiness_fixture
     ++ [ digest_fixture "youtube" "v2" (now_utc clock_2026) ])
    readiness_fixture.

(** Calls that follow the conversion of article ["b0"]: attempts to
    register it again, alone and in a batch, a second markdown, and a
    read. *)
Definition later_markdown_calls_fixture : list op :=
  [ CreateAnthropicArticle "b0" "title" "b0" published_2026
      "short description" None;
    BulkCreateAnthropicArticles
      [ article_dict_fixture "b0"; article_dict_fixture "n1" ];
    UpdateAnthropicArticleMarkdown "b0" "# second document";
    GetAnthropicArticlesWithoutMarkdown (Some 5) ].

(** A batch of a stored video and two new ones. *)
Definition batch_fixture : list VideoDict.t :=
  [ video_dict_fixture "v0"; video_dict_fixture "n1"; video_dict_fixture "n2" ].

(** * The scrapers and the agents

    The parts of [app/scrapers] and [app/agent] that are computed in the
    process itself. What comes from outside (the parsed feeds, the answer of
    the language model, the reading of the clock) is an argument. *)

(** ** Exceptions of the scrapers *)

(** An exception of the repository's arithmetic, a sequence index out of
    range, or a [datetime] field out of range. *)
Inductive scrape_exn : Type :=
  | Arithmetic (e : exn)
  | IndexError
  | ValueError.

Inductive outcome (A : Type) : Type :=
  | Done (a : A)
  | Fails (e : scrape_exn).
Global Arguments Done {A} a.
Global Arguments Fails {A} e.

Global Instance outcome_ret : MRet outcome := λ A a, Done a.
Global Instance outcome_bind : MBind outcome := λ A B f r,
  match r with
  | Done a => f a
  | Fails e => Fails e
  end.

Definition lift {A} (r : result A) : outcome A :=
  match r with
  | Ok a => Done a
  | Raise e => Fails (Arithmetic e)
  end.

(** [l[i]] *)
Definition item {A} (l : list A) (i : nat) : outcome A :=
  match l !! i with
  | Some x => Done x
  | None => Fails IndexError
  end.

(** ** Python strings: searching and splitting *)

(** [s.startswith(p)] *)
Fixpoint starts_with (p s : string) : bool :=
  match p with
  | EmptyString => true
  | String c p' =>
      match s with
      | EmptyString => false
      | String d s' => if Ascii.eqb c d then starts_with p' s' else false
      end
  end.

Fixpoint skip_chars (n : nat) (s : string) : string :=
  match n, s with
  | O, _ => s
  | S n, String _ s' => skip_chars n s'
  | S _, EmptyString => EmptyString
  end.

(** The text before and the text after the first occurrence of [sep] in
    [s]; [None] when [sep] does not occur. *)
Fixpoint cut (sep s : string) : option (string * string) :=
  if starts_with sep s then Some ("", skip_chars (String.length sep) s)
  else
    match s with
    | EmptyString => None
    | String c s' => (λ p, (String c p.1, p.2)) <$> cut sep s'
    end.

(** [sub in s] *)
Definition contains (sub s : string) : bool :=
  if cut sub s is Some _ then true else false.

(** [s.split(sep)], for a separator that is not empty: [s] is cut at the
    occurrences of [sep] from the left; [fuel] bounds the number of cuts,
    and the length of [s] is enough of it. *)
Fixpoint split_fuel (fuel : nat) (sep s : string) : list string :=
  match fuel with
  | O => [s]
  | S fuel =>
      match cut sep s with
      | None => [s]
      | Some (before, after) => before :: split_fuel fuel sep after
      end
  end.

Definition split (sep s : string) : list string :=
  split_fuel (S (String.length s)) sep s.

(** ** The [datetime] constructor *)

Definition is_leap (year : Z) : bool :=
  bool_decide (year `mod` 4 = 0
               ∧ (year `mod` 100 ≠ 0 ∨ year `mod` 400 = 0)).

Definition days_in_month (year month : Z) : Z :=
  if decide (month = 2) then (if is_leap year then 29 else 28)
  else if decide (month ∈ [4; 6; 9; 11]) then 30 else 31.

Definition days_before_year (year : Z) : Z :=
  let y := year - 1 in y * 365 + y `div` 4 - y `div` 100 + y `div` 400.

Definition days_before_month (year month : Z) : Z :=
  default 0
    ([0; 31; 59; 90; 120; 151; 181; 212; 243; 273; 304; 334]
       !! Z.to_nat (month - 1))
  + (if decide (2 < month) then (if is_leap year then 1 else 0) else 0).

(** The first six fields of a [time.struct_time]. *)
Module StructTime.
Record t : Type := {
  tm_year : Z;
  tm_mon : Z;
  tm_mday : Z;
  tm_hour : Z;
  tm_min : Z;
  tm_sec : Z
}.
End StructTime.

(** The [datetime] built from the first six fields of [published_parsed]
    with [tzinfo=timezone.utc], as the reading in microseconds since
    0001-01-01T00:00:00; a field out of range is a [ValueError]. *)
Definition datetime_utc (p : StructTime.t) : outcome Z :=
  let year := StructTime.tm_year p in
  let month := StructTime.tm_mon p in
  let day := StructTime.tm_mday p in
  if decide (1 ≤ year ≤ 9999 ∧ 1 ≤ month ≤ 12
             ∧ 1 ≤ day ≤ days_in_month year month
             ∧ 0 ≤ StructTime.tm_hour p ≤ 23
             ∧ 0 ≤ StructTime.tm_min p ≤ 59
             ∧ 0 ≤ StructTime.tm_sec p ≤ 59)
  then
    let ordinal := days_before_year year + days_before_month year month + day in
    Done (((ordinal - 1) * 86400 + StructTime.tm_hour p * 3600
           + StructTime.tm_min p * 60 + StructTime.tm_sec p) * 1000000)
  else Fails ValueError.

(** ** The YouTube scraper *)

Module YouTubeScraper.

(** An entry of the parsed channel feed: [link], [title] and
    [published_parsed] are read as attributes, [summary] with [get]. *)
Module Entry.
Record t : Type := {
  link : string;
  title : string;
  published_parsed : StructTime.t;
  summary : option string
}.
End Entry.

Module ChannelVideo.
Record t : Type := {
  title : string;
  url : string;
  video_id : string;
  published_at : Z;
  description : string;
  transcript : option string
}.
End ChannelVideo.

Definition _get_rss_url (channel_id : string) : string :=
  "https://www.youtube.com/feeds/videos.xml?channel_id=" +:+ channel_id.

Definition _extract_video_id (video_url : string) : outcome string :=
  if contains "youtube.com/watch?v=" video_url then
    part ← item (split "v=" video_url) 1;
    item (split "&" part) 0
  else if contains "youtube.com/shorts/" video_url then
    part ← item (split "shorts/" video_url) 1;
    item (split "?" part) 0
  else if contains "youtu.be/" video_url then
    part ← item (split "youtu.be/" video_url) 1;
    item (split "?" part) 0
  else Done video_url.

(** The loop of [get_latest_videos] over the entries of the feed. *)
Fixpoint scan (cutoff_time : Z) (entries : list Entry.t)
    (videos : list ChannelVideo.t) : outcome (list ChannelVideo.t) :=
  match entries with
  | [] => Done videos
  | entry :: entries =>
      if contains "/shorts/" (Entry.link entry) then
        scan cutoff_time entries videos
      else
        published_time ← datetime_utc (Entry.published_parsed entry);
        if decide (cutoff_time ≤ published_time) then
          video_id ← _extract_video_id (Entry.link entry);
          scan cutoff_time entries
            (videos ++
             [ {| ChannelVideo.title := Entry.title entry;
                  ChannelVideo.url := Entry.link entry;
                  ChannelVideo.video_id := video_id;
                  ChannelVideo.published_at := published_time;
                  ChannelVideo.description := default "" (Entry.summary entry);
                  ChannelVideo.transcript := None |} ])
        else scan cutoff_time entries videos
  end.

(** [get_latest_videos], for the entries of the parsed feed of the channel
    and the reading [now] of the clock. *)
Definition get_latest_videos (entries : list Entry.t) (hours now : Z)
    : outcome (list ChannelVideo.t) :=
  match entries with
  | [] => Done []
  | _ =>
      delta ← lift (timedelta_hours hours);
      cutoff_time ← lift (datetime_sub now delta);
      scan cutoff_time entries []
  end.

End YouTubeScraper.

(** ** The Anthropic scraper *)

Module AnthropicScraper.

(** An entry of a parsed feed: every field is read with [get] or
    [getattr]; [tags] holds the [term] of each tag. *)
Module Entry.
Record t : Type := {
  published_parsed : option StructTime.t;
  id : option string;
  link : option string;
  title : option string;
  description : option string;
  tags : list (option string)
}.
End Entry.

Module AnthropicArticle.
Record t : Type := {
  title : string;
  description : string;
  url : string;
  guid : string;
  published_at : Z;
  category : option string
}.
End AnthropicArticle.

(** The loop over the entries of one feed; the state is the list
    [articles] and the set [seen_guids]. *)
Fixpoint scan (cutoff_time : Z) (entries : list Entry.t)
    (st : list AnthropicArticle.t * gset string)
    : outcome (list AnthropicArticle.t * gset string) :=
  match entries with
  | [] => Done st
  | entry :: entries =>
      match Entry.published_parsed entry with
      | None => scan cutoff_time entries st
      | Some published_parsed =>
          published_time ← datetime_utc published_parsed;
          if decide (cutoff_time ≤ published_time) then
            let guid :=
              default (default "" (Entry.link entry)) (Entry.id entry) in
            if decide (guid ∈ st.2) then scan cutoff_time entries st
            else
              scan cutoff_time entries
                (st.1 ++
                 [ {| AnthropicArticle.title := default "" (Entry.title entry);
                      AnthropicArticle.description :=
                        default "" (Entry.description entry);
                      AnthropicArticle.url := default "" (Entry.link entry);
                      AnthropicArticle.guid := guid;
                      AnthropicArticle.published_at := published_time;
                      AnthropicArticle.category :=
                        match Entry.tags entry with
                        | term :: _ => term
                        | [] => None
                        end |} ],
                 {[ guid ]} ∪ st.2)
          else scan cutoff_time entries st
      end
  end.

(** The loop over the feeds, one per URL. *)
Fixpoint scan_feeds (cutoff_time : Z) (feeds : list (list Entry.t))
    (st : list AnthropicArticle.t * gset string)
    : outcome (list AnthropicArticle.t * gset string) :=
  match feeds with
  | [] => Done st
  | entries :: feeds =>
      st ← scan cutoff_time entries st;
      scan_feeds cutoff_time feeds st
  end.

(** [get_articles], for the parsed feeds in the order of [rss_urls] and the
    reading [now] of the clock. *)
Definition get_articles (feeds : list (list Entry.t)) (hours now : Z)
    : outcome (list AnthropicArticle.t) :=
  delta ← lift (timedelta_hours hours);
  cutoff_time ← lift (datetime_sub now delta);
  st ← scan_feeds cutoff_time feeds ([], ∅);
  Done st.1.

End AnthropicScraper.

(** ** The curator agent *)

Module CuratorAgent.

(** A ranked article as the model validates it; the score, a [float], is
    carried as a rational. *)
Module RankedArticle.
Record t : Type := {
  digest_id : string;
  relevance_score : Qcanon.Qc;
  rank : Z;
  reasoning : string
}.
End RankedArticle.

(** The constraints of the fields: a score from 0 to 10 and a rank of at
    least 1. *)
Definition valid (a : RankedArticle.t) : Prop :=
  (Qc_of_Z 0 ≤ RankedArticle.relevance_score a)%Qc
  ∧ (RankedArticle.relevance_score a ≤ Qc_of_Z 10)%Qc
  ∧ 1 ≤ RankedArticle.rank a.

Global Instance valid_dec (a : RankedArticle.t) : Decision (valid a).
Proof. unfold valid. apply _. Defined.

Definition by_rank (a b : RankedArticle.t) : Prop :=
  RankedArticle.rank a ≤ RankedArticle.rank b.

(** [articles.sort(key=lambda x: x.rank)]: the sort keeps the articles of
    one rank in the order they had. *)
Fixpoint insert_by_rank (x : RankedArticle.t) (l : list RankedArticle.t)
    : list RankedArticle.t :=
  match l with
  | [] => [x]
  | y :: l' =>
      if decide (RankedArticle.rank x ≤ RankedArticle.rank y) then x :: y :: l'
      else y :: insert_by_rank x l'
  end.

Definition sort_by_rank (l : list RankedArticle.t) : list RankedArticle.t :=
  foldr insert_by_rank [] l.

(** [rank_digests], for a user profile and digests that have the keys the
    prompt is built from; [result] is what the chain answered, as the
    values of its ["articles"], and [None] when the chain raised or the
    answer has not that shape. *)
Definition rank_digests {D} (result : option (list RankedArticle.t))
    (digests : list D) : list RankedArticle.t :=
  match digests with
  | [] => []
  | _ =>
      match result with
      | Some articles =>
          if decide (Forall valid articles) then sort_by_rank articles else []
      | None => []
      end
  end.

End CuratorAgent.

(** ** The email agent *)

Module EmailAgent.

(** The line feed. *)
Definition nl : string := String (Ascii.ascii_of_nat 10) "".

Module EmailIntroduction.
Record t : Type := {
  greeting : string;
  introduction : string
}.
End EmailIntroduction.

Module RankedArticleDetail.
Record t : Type := {
  digest_id : string;
  rank : Z;
  relevance_score : Qcanon.Qc;
  title : string;
  summary : string;
  url : string;
  article_type : string;
  reasoning : option string
}.
End RankedArticleDetail.

Module EmailDigestResponse.
Record t : Type := {
  introduction : EmailIntroduction.t;
  articles : list RankedArticleDetail.t;
  total_ranked : Z;
  top_n : Z
}.
End EmailDigestResponse.

(** The part of the markdown that one article adds. *)
Definition section (article : RankedArticleDetail.t) : string :=
  ("## " +:+ RankedArticleDetail.title article +:+ nl +:+ nl)
  +:+ (RankedArticleDetail.summary article +:+ nl +:+ nl)
  +:+ ("[Read more →](" +:+ RankedArticleDetail.url article +:+ ")"
       +:+ nl +:+ nl)
  +:+ ("---" +:+ nl +:+ nl).

(** [EmailDigestResponse.to_markdown] *)
Definition to_markdown (self : EmailDigestResponse.t) : string :=
  let markdown :=
    EmailIntroduction.greeting (EmailDigestResponse.introduction self)
    +:+ nl +:+ nl in
  let markdown :=
    markdown
    +:+ (EmailIntroduction.introduction (EmailDigestResponse.introduction self)
         +:+ nl +:+ nl) in
  let markdown := markdown +:+ ("---" +:+ nl +:+ nl) in
  foldl (λ markdown article, markdown +:+ section article) markdown
    (EmailDigestResponse.articles self).

(** The greeting the agent falls back on. *)
Definition standard_greeting (name current_date : string) : string :=
  "Hey " +:+ name +:+ ", here is your daily digest of AI news for "
  +:+ current_date +:+ ".".

(** A dict of [ranked_articles], as the summary lines read it with [get]:
    either key may be missing. *)
Module RankedDict.
Record t : Type := {
  title : option string;
  relevance_score : option Qcanon.Qc
}.
End RankedDict.

(** The elements that the summary lines of [generate_introduction] can
    read: an object with the attributes [title] and [relevance_score], or a
    value with [get]. On an element that has neither the attribute nor
    [get] the lines raise, before the [try]; such an element is of no type
    of this class. [title_of] and [relevance_score_of] are what the two
    expressions of a line give. *)
Class Summarised (A : Type) : Type := {
  title_of : A → string;
  relevance_score_of : A → Qcanon.Qc
}.

(** [hasattr] holds: the attributes are read. *)
Global Instance detail_summarised : Summarised RankedArticleDetail.t := {|
  title_of := RankedArticleDetail.title;
  relevance_score_of := RankedArticleDetail.relevance_score
|}.

(** [hasattr] fails: [get('title', 'N/A')] and [get('relevance_score', 0)]
    are read. *)
Global Instance dict_summarised : Summarised RankedDict.t := {|
  title_of article := default "N/A" (RankedDict.title article);
  relevance_score_of article :=
    default (Qc_of_Z 0) (RankedDict.relevance_score article)
|}.

(** What the summary line of the article at [idx] prints: its position
    from 1, its title and its score. *)
Definition summary_line {A} `{Summarised A} (idx : nat) (article : A)
    : nat * string * Qcanon.Qc :=
  (S idx, title_of article, relevance_score_of article).

(** [generate_introduction]; [name] is the name of the user profile,
    [current_date] the formatted date of the day, and [answer] what the
    chain answered, for [current_date] and the summary lines, as a
    validated introduction, [None] when the chain or the validation
    raised. *)
Definition generate_introduction {A} `{Summarised A}
    (name current_date : string) (answer : option EmailIntroduction.t)
    (ranked_articles : list A) : EmailIntroduction.t :=
  match ranked_articles with
  | [] =>
      {| EmailIntroduction.greeting := standard_greeting name current_date;
         EmailIntroduction.introduction := "No articles were ranked today." |}
  | _ =>
      let top_articles := take 10 ranked_articles in
      let article_summaries := imap summary_line top_articles in
      match answer with
      | Some intro =>
          if negb (starts_with ("Hey " +:+ name)
                     (EmailIntroduction.greeting intro))
          then
            {| EmailIntroduction.greeting :=
                 standard_greeting name current_date;
               EmailIntroduction.introduction :=
                 EmailIntroduction.introduction intro |}
          else intro
      | None =>
          {| EmailIntroduction.greeting := standard_greeting name current_date;
             EmailIntroduction.introduction :=
               "Here are the top 10 AI news articles ranked by relevance to your interests." |}
      end
  end.

(** [create_email_digest_response] *)
Definition create_email_digest_response (name current_date : string)
    (answer : option EmailIntroduction.t)
    (ranked_articles : list RankedArticleDetail.t) (total_ranked limit : Z)
    : EmailDigestResponse.t :=
  let top_articles := slice_to limit ranked_articles in
  let introduction :=
    generate_introduction name current_date answer top_articles in
  {| EmailDigestResponse.introduction := introduction;
     EmailDigestResponse.articles := top_articles;
     EmailDigestResponse.total_ranked := total_ranked;
     EmailDigestResponse.top_n := limit |}.

End EmailAgent.

(** ** Fixtures of the scrapers and the agents *)

(** The hour [hour] of 18 July 2026, and of the 10th. *)
Definition struct_time_fixture (day hour : Z) : StructTime.t :=
  {| StructTime.tm_year := 2026; StructTime.tm_mon := 7;
     StructTime.tm_mday := day; StructTime.tm_hour := hour;
     StructTime.tm_min := 0; StructTime.tm_sec := 0 |}.

(** A channel feed: a video of the day, a short of the day, and a video
    that is eight days old. *)
Definition channel_feed_fixture : list YouTubeScraper.Entry.t :=
  [ {| YouTubeScraper.Entry.link :=
         "https://www.youtube.com/watch?v=abc123&t=10s";
       YouTubeScraper.Entry.title := "a video";
       YouTubeScraper.Entry.published_parsed := struct_time_fixture 18 12;
       YouTubeScraper.Entry.summary := Some "summary" |};
    {| YouTubeScraper.Entry.link := "https://www.youtube.com/shorts/xyz";
       YouTubeScraper.Entry.title := "a short";
       YouTubeScraper.Entry.published_parsed := struct_time_fixture 18 13;
       YouTubeScraper.Entry.summary := None |};
    {| YouTubeScraper.Entry.link := "https://www.youtube.com/watch?v=old";
       YouTubeScraper.Entry.title := "an old video";
       YouTubeScraper.Entry.published_parsed := struct_time_fixture 10 12;
       YouTubeScraper.Entry.summary := None |} ].

Definition feed_entry_fixture (id link : option string) (day : Z)
    : AnthropicScraper.Entry.t :=
  {| AnthropicScraper.Entry.published_parsed := Some (struct_time_fixture day 12);
     AnthropicScraper.Entry.id := id;
     AnthropicScraper.Entry.link := link;
     AnthropicScraper.Entry.title := Some "title";
     AnthropicScraper.Entry.description := None;
     AnthropicScraper.Entry.tags := [ Some "news" ] |}.

(** Two feeds that share an article; an entry without an id; an old
    entry. *)
Definition feeds_fixture : list (list AnthropicScraper.Entry.t) :=
  [ [ feed_entry_fixture (Some "g1") (Some "https://a/1") 18 ];
    [ feed_entry_fixture (Some "g1") (Some "https://a/1") 18;
      feed_entry_fixture None (Some "https://a/2") 18;
      feed_entry_fixture (Some "g3") (Some "https://a/3") 10 ] ].

Definition scraped_fixture : list AnthropicScraper.AnthropicArticle.t :=
  [ {| AnthropicScraper.AnthropicArticle.title := "title";
       AnthropicScraper.AnthropicArticle.description := "";
       AnthropicScraper.AnthropicArticle.url := "https://a/1";
       AnthropicScraper.AnthropicArticle.guid := "g1";
       AnthropicScraper.AnthropicArticle.published_at :=
         clock_2026 - 27200 * 1000000;
       AnthropicScraper.AnthropicArticle.category := Some "news" |};
    {| AnthropicScraper.AnthropicArticle.title := "title";
       AnthropicScraper.AnthropicArticle.description := "";
       AnthropicScraper.AnthropicArticle.url := "https://a/2";
       AnthropicScraper.AnthropicArticle.guid := "https://a/2";
       AnthropicScraper.AnthropicArticle.published_at :=
         clock_2026 - 27200 * 1000000;
       AnthropicScraper.AnthropicArticle.category := Some "news" |} ].

Definition detail_fixture (title : string) (rank : Z)
    : EmailAgent.RankedArticleDetail.t :=
  {| EmailAgent.RankedArticleDetail.digest_id := "openai:" +:+ title;
     EmailAgent.RankedArticleDetail.rank := rank;
     EmailAgent.RankedArticleDetail.relevance_score := Qc_of_Z 7;
     EmailAgent.RankedArticleDetail.title := title;
     EmailAgent.RankedArticleDetail.summary := "summary";
     EmailAgent.RankedArticleDetail.url := "https://openai.com/" +:+ title;
     EmailAgent.RankedArticleDetail.article_type := "openai";
     EmailAgent.RankedArticleDetail.reasoning := None |}.

Definition response_fixture : EmailAgent.EmailDigestResponse.t :=
  EmailAgent.create_email_digest_response "Ada" "July 18, 2026" None
    [ detail_fixture "first" 1; detail_fixture "second" 2;
      detail_fixture "third" 3 ] 3 2.

(** [readiness_fixture] with one more video, stored under the empty id. *)
Definition empty_key_fixture : Session :=
  set_youtube_videos
    (youtube_videos readiness_fixture ++ [ video_fixture "" "d" None ])
    readiness_fixture.

(** ** Python values: facts *)

Lemma str_or_empty_r (a : string) : str_or a "" = a.
Proof. unfold str_or. by case_decide. Qed.

Lemma slice_to_subseteq {A} (n : Z) (l : list A) : slice_to n l ⊆ l.
Proof. unfold slice_to. case_decide; apply subseteq_take. Qed.

(** ** The unified view *)

Lemma append_unseen_filter {A} (seen_ids : gset string) (key : A → string)
    (dict : A → Article.t) (rows : list A) (articles : list Article.t) :
  append_unseen seen_ids key dict articles rows
  = articles ++ (dict <$> filter (λ r, key r ∉ seen_ids) rows).
Proof.
  unfold append_unseen. revert articles.
  induction rows as [|r rows IH]; intros articles; simpl.
  - by rewrite app_nil_r.
  - rewrite IH, filter_cons. case_decide as Hseen.
    + by rewrite decide_False by tauto.
    + rewrite decide_True by done. by rewrite <- app_assoc.
Qed.

Lemma seen_ids_elem_of {A} (f : A → string) (l : list A) (X : gset string)
    (x : string) :
  x ∈ foldl (λ seen d, {[ f d ]} ∪ seen) X l ↔ x ∈ X ∨ ∃ d, d ∈ l ∧ f d = x.
Proof.
  revert X. induction l as [|d l IH]; intros X; simpl.
  - split; [by left|]. intros [?|(d & Hd & _)]; [done|]. by apply elem_of_nil in Hd.
  - rewrite IH, elem_of_union, elem_of_singleton. split.
    + intros [[->|?]|(d' & Hd' & <-)]; [right|by left|right].
      * exists d. split; [apply elem_of_cons; by left|done].
      * exists d'. split; [apply elem_of_cons; by right|done].
    + intros [?|(d' & Hd' & <-)]; [left; by right|].
      apply elem_of_cons in Hd' as [->|?]; [left; by left|].
      right. by exists d'.
Qed.

Lemma seen_ids_of_digested (s : Session) (a : Article.t) :
  digest_ids_derived s →
  digest_key (Article.type a) (Article.id a) ∈ seen_ids_of s ↔ digested s a.
Proof.
  intros Hids. unfold seen_ids_of, digested. rewrite seen_ids_elem_of. split.
  - intros [Hin|(d & Hd & Heq)]; [by apply elem_of_empty in Hin|].
    exists d. split; [done|]. by rewrite (Hids d Hd).
  - intros (d & Hd & Heq). right. exists d. split; [done|].
    by rewrite <- (Hids d Hd).
Qed.

(** The view without a limit: the three scans one after the other. *)
Lemma get_articles_without_digest_all (s : Session) :
  get_articles_without_digest None s
  = (youtube_dict <$>
       filter (λ r, digest_key "youtube" (YouTubeVideo.video_id r)
                    ∉ seen_ids_of s)
         (filter (λ r, YouTubeVideo.transcript r ≠ None
                       ∧ YouTubeVideo.transcript r ≠ Some UNAVAILABLE)
            (youtube_videos s)))
    ++ (openai_dict <$>
          filter (λ r, digest_key "openai" (OpenAIArticle.guid r)
                       ∉ seen_ids_of s)
            (openai_articles s))
    ++ (anthropic_dict <$>
          filter (λ r, digest_key "anthropic" (AnthropicArticle.guid r)
                       ∉ seen_ids_of s)
            (filter (λ r, AnthropicArticle.markdown r ≠ None)
               (anthropic_articles s))).
Proof.
  unfold get_articles_without_digest. fold (seen_ids_of s).
  rewrite !append_unseen_filter. simpl. by rewrite <- app_assoc.
Qed.

Lemma get_articles_without_digest_subseteq (limit : option Z) (s : Session) :
  get_articles_without_digest limit s ⊆ get_articles_without_digest None s.
Proof.
  unfold get_articles_without_digest. destruct limit as [n|]; [|done].
  destruct (truthy (Some n)); [apply slice_to_subseteq|done].
Qed.

Lemma youtube_dict_ready (s : Session) (v : YouTubeVideo.t) :
  v ∈ youtube_videos s →
  YouTubeVideo.transcript v ≠ None →
  YouTubeVideo.transcript v ≠ Some UNAVAILABLE →
  ready s (youtube_dict v).
Proof.
  intros Hv Hnone Hun. destruct (YouTubeVideo.transcript v) as [t|] eqn:Ht; [|done].
  unfold youtube_dict. rewrite Ht. simpl. rewrite str_or_empty_r.
  unfold str_or. apply ready_youtube; [done..|]. congruence.
Qed.

Lemma openai_dict_ready (s : Session) (a : OpenAIArticle.t) :
  a ∈ openai_articles s → ready s (openai_dict a).
Proof.
  intros Ha. unfold openai_dict. rewrite str_or_empty_r. by apply ready_openai.
Qed.

Lemma anthropic_dict_ready (s : Session) (a : AnthropicArticle.t) :
  a ∈ anthropic_articles s →
  AnthropicArticle.markdown a ≠ None →
  ready s (anthropic_dict a).
Proof.
  intros Ha Hnone. destruct (AnthropicArticle.markdown a) as [m|] eqn:Hm; [|done].
  unfold anthropic_dict. rewrite Hm. simpl. rewrite str_or_empty_r.
  unfold str_or. by apply ready_anthropic.
Qed.

Lemma get_articles_without_digest_elem_of (s : Session) (a : Article.t) :
  digest_ids_derived s →
  a ∈ get_articles_without_digest None s ↔ ready s a ∧ ¬ digested s a.
Proof.
  intros Hids. rewrite get_articles_without_digest_all, !elem_of_app.
  rewrite !list_elem_of_fmap. split.
  - intros [(v & -> & Hv)|[(r & -> & Hr)|(r & -> & Hr)]];
      rewrite !list_elem_of_filter in *.
    + destruct Hv as (Hseen & (Hnone & Hun) & Hv). split.
      * by apply youtube_dict_ready.
      * by rewrite <- seen_ids_of_digested.
    + destruct Hr as (Hseen & Hr). split.
      * by apply openai_dict_ready.
      * by rewrite <- seen_ids_of_digested.
    + destruct Hr as (Hseen & Hnone & Hr). split.
      * by apply anthropic_dict_ready.
      * by rewrite <- seen_ids_of_digested.
  - intros [Hready Hdig]. rewrite <- seen_ids_of_digested in Hdig by done.
    destruct Hready as [v t Hv Ht Hun|r Hr|r m Hr Hm]; simpl in Hdig.
    + left. exists v. split.
      * unfold youtube_dict. rewrite Ht. simpl. by rewrite str_or_empty_r.
      * rewrite !list_elem_of_filter. rewrite Ht. repeat split; [done|done|congruence|done].
    + right. left. exists r. split.
      * unfold openai_dict. by rewrite str_or_empty_r.
      * by rewrite list_elem_of_filter.
    + right. right. exists r. split.
      * unfold anthropic_dict. rewrite Hm. simpl. by rewrite str_or_empty_r.
      * rewrite !list_elem_of_filter. rewrite Hm. done.
Qed.

Lemma readiness_fixture_ids : digest_ids_derived readiness_fixture.
Proof.
  intros d Hd. simpl in Hd.
  repeat (apply elem_of_cons in Hd as [->|Hd]; [reflexivity|]).
  by apply elem_of_nil in Hd.
Qed.

(** C1 (as amended): whatever the limit, every item of
    [get_articles_without_digest] is a ready item without a record under its
    digest id in the ledger, and without a limit every such item is
    returned. The readiness and the content are per source: a video with a
    transcript other than the marker, its content the transcript, or the
    description when the transcript is the empty string; every OpenAI
    article, its content the description; an Anthropic article with a
    markdown, its content the markdown, or the description when the markdown
    is the empty string. *)
Theorem get_articles_without_digest_ready_undigested (s : Session) :
  digest_ids_derived s →
  (∀ limit a, a ∈ get_articles_without_digest limit s →
     ready s a ∧ ¬ digested s a)
  ∧ (∀ a, ready s a → ¬ digested s a →
       a ∈ get_articles_without_digest None s).
Proof.
  intros Hids. split.
  - intros limit a Ha.
    apply (get_articles_without_digest_subseteq limit s a) in Ha.
    by apply get_articles_without_digest_elem_of in Ha.
  - intros a Hready Hdig. by apply get_articles_without_digest_elem_of.
Qed.

Lemma get_articles_without_digest_ready_undigested_witness :
  digest_ids_derived readiness_fixture
  ∧ (∀ limit a, a ∈ get_articles_without_digest limit readiness_fixture →
       ready readiness_fixture a ∧ ¬ digested readiness_fixture a)
  ∧ (∀ a, ready readiness_fixture a → ¬ digested readiness_fixture a →
       a ∈ get_articles_without_digest None readiness_fixture).
Proof.
  split; [exact readiness_fixture_ids|].
  apply (get_articles_without_digest_ready_undigested readiness_fixture).
  exact readiness_fixture_ids.
Defined.

(** The fixture, evaluated: the three ready items, one per source. *)
Example readiness_fixture_pending :
  get_articles_without_digest None readiness_fixture
  = [ youtube_dict (video_fixture "v2" "d" (Some "transcript text"));
      openai_dict (openai_fixture "a1");
      anthropic_dict (anthropic_fixture "b1" (Some "# document")) ].
Proof. vm_compute. reflexivity. Qed.

(** C1 (as stated) fails: a video whose transcript is the empty string is
    returned with its description as content, not with the transcript. *)
Lemma get_articles_without_digest_content_counterexample :
  ¬ (∀ a, a ∈ get_articles_without_digest None empty_transcript_fixture ↔
          ready_spec empty_transcript_fixture a
          ∧ ¬ digested empty_transcript_fixture a).
Proof.
  intros Hspec.
  pose (a := youtube_dict (video_fixture "v1" "description" (Some ""))).
  assert (Ha : a ∈ get_articles_without_digest None empty_transcript_fixture).
  { vm_compute. apply list_elem_of_here. }
  apply Hspec in Ha as [Hready _].
  assert (Hcontent : ∃ v, v ∈ youtube_videos empty_transcript_fixture
            ∧ YouTubeVideo.transcript v = Some (Article.content a)).
  { assert (Htype : Article.type a = "youtube") by reflexivity.
    destruct Hready as [v t Hv Ht Hun|r Hr|r m Hr Hm]; simpl in *;
      [eauto|discriminate Htype..]. }
  destruct Hcontent as (v & Hv & Ht). simpl in Hv.
  apply list_elem_of_singleton in Hv as ->. vm_compute in Ht.
  discriminate Ht.
Qed.

(** C10: a limit of [0] is no limit, for the two lists of pending
    enrichments and for the unified view. *)
Theorem limit_zero_is_no_limit (s : Session) :
  get_youtube_videos_without_transcript (Some 0) s
  = get_youtube_videos_without_transcript None s
  ∧ get_anthropic_articles_without_markdown (Some 0) s
    = get_anthropic_articles_without_markdown None s
  ∧ get_articles_without_digest (Some 0) s
    = get_articles_without_digest None s.
Proof. repeat split. Qed.


(** ** Tables: lookups, inserts and updates *)

Section table_facts.
Context {A : Type} (key : A → string).

Lemma first_by_None (k : string) (rows : list A) :
  first_by key k rows = None ↔ k ∉ key <$> rows.
Proof.
  unfold first_by. rewrite head_None. split.
  - intros Hnil (r & -> & Hr)%list_elem_of_fmap.
    by apply (filter_nil_not_elem_of _ _ r Hnil).
  - intros Hk. apply elem_of_nil_inv. intros r (Hr & Hin)%list_elem_of_filter.
    apply Hk. apply list_elem_of_fmap. by exists r.
Qed.

Lemma first_by_Some (k : string) (rows : list A) (r : A) :
  first_by key k rows = Some r → r ∈ rows ∧ key r = k.
Proof.
  unfold first_by. intros Hhead%head_Some_elem_of.
  apply list_elem_of_filter in Hhead. tauto.
Qed.

Lemma first_by_is_Some (k : string) (rows : list A) :
  k ∈ key <$> rows → ∃ r, first_by key k rows = Some r.
Proof.
  intros Hk. destruct (first_by key k rows) as [r|] eqn:Hfirst; [by exists r|].
  by apply first_by_None in Hfirst.
Qed.

Lemma add_all_commit_Ok (pending rows rows' : list A) :
  add_all_commit key pending rows = Ok rows' →
  rows' = rows ++ pending ∧ ∀ r, r ∈ pending → key r ∉ key <$> rows.
Proof.
  revert rows. induction pending as [|p pending IH]; intros rows; simpl.
  - intros [= <-]. split; [by rewrite app_nil_r|]. intros r Hr.
    by apply elem_of_nil in Hr.
  - case_decide as Hp; [done|]. intros [-> Hfresh]%IH. split.
    + by rewrite <- app_assoc.
    + intros r [->|Hr]%elem_of_cons; [done|].
      intros Hin. apply (Hfresh r Hr). rewrite fmap_app, elem_of_app. by left.
Qed.

Lemma add_all_commit_distinct (pending rows : list A) :
  NoDup (key <$> pending) →
  (∀ r, r ∈ pending → key r ∉ key <$> rows) →
  add_all_commit key pending rows = Ok (rows ++ pending).
Proof.
  revert rows. induction pending as [|p pending IH]; intros rows; simpl.
  - intros _ _. by rewrite app_nil_r.
  - rewrite NoDup_cons. intros [Hp Hnodup] Hfresh.
    rewrite decide_False by (apply Hfresh, list_elem_of_here).
    rewrite IH, <- app_assoc; [done..|].
    intros r Hr. rewrite fmap_app, elem_of_app. intros [Hin|Hin].
    + apply (Hfresh r); [by apply list_elem_of_further|done].
    + apply list_elem_of_singleton in Hin. apply Hp. rewrite <- Hin.
      by apply list_elem_of_fmap_2.
Qed.

Lemma add_all_commit_fresh (r : A) (rows : list A) :
  key r ∉ key <$> rows → add_all_commit key [r] rows = Ok (rows ++ [r]).
Proof. intros Hr. simpl. by rewrite decide_False. Qed.

Lemma add_all_commit_NoDup (pending rows rows' : list A) :
  NoDup (key <$> rows) →
  add_all_commit key pending rows = Ok rows' →
  NoDup (key <$> rows').
Proof.
  revert rows. induction pending as [|p pending IH]; intros rows Hnodup; simpl.
  - by intros [= <-].
  - case_decide as Hp; [done|]. apply IH.
    rewrite fmap_app. apply NoDup_app. split; [done|]. split.
    + intros k Hk ->%list_elem_of_singleton. done.
    + apply NoDup_singleton.
Qed.

Lemma filter_key_absent (k : string) (rows : list A) :
  k ∉ key <$> rows → filter (λ r, key r = k) rows = [].
Proof.
  intros Hk. apply elem_of_nil_inv. intros r (Hr & Hin)%list_elem_of_filter.
  apply Hk. apply list_elem_of_fmap. by exists r.
Qed.

Lemma one_row_per_key (k : string) (rows : list A) :
  NoDup (key <$> rows) → k ∈ key <$> rows →
  length (filter (λ r, key r = k) rows) = 1%nat.
Proof.
  induction rows as [|r rows IH]; simpl.
  - intros _ Hk. by apply elem_of_nil in Hk.
  - rewrite NoDup_cons, filter_cons. intros [Hr Hnodup] Hk.
    case_decide as Heq.
    + subst k. by rewrite filter_key_absent.
    + apply elem_of_cons in Hk as [?|Hk]; [done|]. by apply IH.
Qed.

Lemma update_first_keys (k : string) (f : A → A) (rows : list A) :
  (∀ r, key (f r) = key r) →
  key <$> update_first key k f rows = key <$> rows.
Proof.
  intros Hf. induction rows as [|r rows IH]; [done|].
  cbn [update_first]. case_decide; rewrite !fmap_cons; [by rewrite Hf|].
  by rewrite IH.
Qed.

Lemma update_first_absent (k : string) (f : A → A) (rows : list A) :
  k ∉ key <$> rows → update_first key k f rows = rows.
Proof.
  induction rows as [|r rows IH]; simpl; [done|].
  rewrite not_elem_of_cons. intros [Hne Hk].
  rewrite decide_False by done. by rewrite IH.
Qed.

Lemma update_first_unique (k : string) (f : A → A) (rows : list A) :
  NoDup (key <$> rows) →
  update_first key k f rows
  = (λ r, if decide (key r = k) then f r else r) <$> rows.
Proof.
  induction rows as [|r rows IH]; simpl; [done|].
  rewrite NoDup_cons. intros [Hr Hnodup]. case_decide as Heq.
  - f_equal. subst k. clear IH.
    induction rows as [|r' rows IH]; simpl in *; [done|].
    apply not_elem_of_cons in Hr as [Hne Hr]. apply NoDup_cons in Hnodup as [_ ?].
    rewrite decide_False by done. f_equal. by apply IH.
  - f_equal. by apply IH.
Qed.

Lemma update_first_elem_of (k : string) (f : A → A) (rows : list A) (r : A) :
  r ∈ update_first key k f rows →
  r ∈ rows ∨ ∃ r0, r0 ∈ rows ∧ key r0 = k ∧ r = f r0.
Proof.
  induction rows as [|r' rows IH]; simpl; [by left|].
  case_decide as Heq.
  - intros [->|Hr]%elem_of_cons.
    + right. exists r'. split; [apply list_elem_of_here|done].
    + left. by apply list_elem_of_further.
  - intros [->|Hr]%elem_of_cons; [left; apply list_elem_of_here|].
    destruct (IH Hr) as [?|(r0 & ? & ? & ?)].
    + left. by apply list_elem_of_further.
    + right. exists r0. split; [by apply list_elem_of_further|done].
Qed.

Lemma created_once_intro (table : Session → list A)
    (set : list A → Session → Session) (k : string) (new new' : A)
    (first second : Session → result (option A * Session)) (s : Session) :
  creates key table set k new first →
  creates key table set k new' second →
  key new = k →
  (∀ rows s', table (set rows s') = rows) →
  NoDup (key <$> table s) →
  created_once key table set k new first second s.
Proof.
  intros Hfirst Hsecond Hkey Htable Hnodup. unfold created_once.
  rewrite Hfirst. destruct (first_by key k (table s)) as [r|] eqn:Hlook.
  - apply first_by_Some in Hlook as [Hr <-].
    assert (Hin : key r ∈ key <$> table s) by by apply list_elem_of_fmap_2.
    exists None, s. rewrite Hsecond.
    destruct (first_by_is_Some _ _ Hin) as [r' ->].
    repeat split; [by apply one_row_per_key|done..].
  - apply first_by_None in Hlook. rewrite add_all_commit_fresh by by rewrite Hkey.
    exists (Some new), (set (table s ++ [new]) s). simpl.
    assert (Hin : k ∈ key <$> table s ++ [new]).
    { rewrite fmap_app, elem_of_app. right. simpl. rewrite Hkey.
      apply list_elem_of_here. }
    rewrite Hsecond, Htable.
    destruct (first_by_is_Some _ _ Hin) as [r' ->].
    repeat split; [|done..].
    apply one_row_per_key; [|done].
    rewrite fmap_app. apply NoDup_app. split; [done|]. split.
    + intros k' Hk' ->%list_elem_of_singleton. by rewrite Hkey in Hk'.
    + apply NoDup_singleton.
Qed.

End table_facts.

Lemma creates_eq {A} (key : A → string) (table : Session → list A)
    (set : list A → Session → Session) (k : string) (new : A)
    (f : Session → result (option A * Session)) (s : Session) :
  creates key table set k new f →
  key new = k →
  f s = if decide (k ∈ key <$> table s) then Ok (None, s)
        else Ok (Some new, set (table s ++ [new]) s).
Proof.
  intros Hf Hkey. rewrite Hf.
  destruct (first_by key k (table s)) as [r|] eqn:Hlook.
  - apply first_by_Some in Hlook as [Hr <-].
    rewrite decide_True; [done|]. by apply list_elem_of_fmap_2.
  - apply first_by_None in Hlook. rewrite decide_False by done.
    by rewrite add_all_commit_fresh by by rewrite Hkey.
Qed.

Lemma set_youtube_videos_id (s : Session) :
  set_youtube_videos (youtube_videos s) s = s.
Proof. by destruct s. Qed.

Lemma set_anthropic_articles_id (s : Session) :
  set_anthropic_articles (anthropic_articles s) s = s.
Proof. by destruct s. Qed.

(** ** Registration *)

Lemma create_youtube_video_creates
    (video_id title url channel_id : string) (published_at : datetime)
    (description : string) (transcript : option string) :
  creates YouTubeVideo.video_id youtube_videos set_youtube_videos video_id
    {| YouTubeVideo.video_id := video_id;
       YouTubeVideo.title := title;
       YouTubeVideo.url := url;
       YouTubeVideo.channel_id := channel_id;
       YouTubeVideo.published_at := published_at;
       YouTubeVideo.description := description;
       YouTubeVideo.transcript := transcript |}
    (create_youtube_video video_id title url channel_id published_at
       description transcript).
Proof. intros s. reflexivity. Qed.

Lemma create_openai_article_creates (guid title url : string)
    (published_at : datetime) (description : string)
    (category : option string) :
  creates OpenAIArticle.guid openai_articles set_openai_articles guid
    {| OpenAIArticle.guid := guid;
       OpenAIArticle.title := title;
       OpenAIArticle.url := url;
       OpenAIArticle.published_at := published_at;
       OpenAIArticle.description := description;
       OpenAIArticle.category := category |}
    (create_openai_article guid title url published_at description category).
Proof. intros s. reflexivity. Qed.

Lemma create_anthropic_article_creates (guid title url : string)
    (published_at : datetime) (description : string)
    (category : option string) :
  creates AnthropicArticle.guid anthropic_articles set_anthropic_articles guid
    {| AnthropicArticle.guid := guid;
       AnthropicArticle.title := title;
       AnthropicArticle.url := url;
       AnthropicArticle.published_at := published_at;
       AnthropicArticle.description := description;
       AnthropicArticle.category := category;
       AnthropicArticle.markdown := None |}
    (create_anthropic_article guid title url published_at description
       category).
Proof. intros s. reflexivity. Qed.

(** The time a new digest is filed under. *)
Lemma create_digest_creates (article_type article_id url title summary : string)
    (published_at : option datetime) (now : Z) :
  creates Digest.id digests set_digests (digest_key article_type article_id)
    {| Digest.id := digest_key article_type article_id;
       Digest.article_type := article_type;
       Digest.article_id := article_id;
       Digest.url := url;
       Digest.title := title;
       Digest.summary := summary;
       Digest.created_at :=
         match published_at with
         | Some published_at =>
             if tzinfo published_at is Some _ then published_at
             else replace_tzinfo_utc published_at
         | None => now_utc now
         end |}
    (create_digest article_type article_id url title summary published_at now).
Proof. intros s. reflexivity. Qed.

Lemma readiness_fixture_unique : unique_keys readiness_fixture.
Proof. split; by apply (bool_decide_unpack _). Qed.

(** C2: registering an item and registering the same key again. The first
    call returns the row it stored (the key being free), the second call
    returns [None] and leaves every table as it was, and one row is stored
    under the key — per source. *)
Theorem register_twice (s : Session) (id title url channel_id : string)
    (published_at : datetime) (description : string)
    (transcript category : option string)
    (title' url' channel_id' : string) (published_at' : datetime)
    (description' : string) (transcript' category' : option string) :
  unique_keys s →
  created_once YouTubeVideo.video_id youtube_videos set_youtube_videos id
    {| YouTubeVideo.video_id := id;
       YouTubeVideo.title := title;
       YouTubeVideo.url := url;
       YouTubeVideo.channel_id := channel_id;
       YouTubeVideo.published_at := published_at;
       YouTubeVideo.description := description;
       YouTubeVideo.transcript := transcript |}
    (create_youtube_video id title url channel_id published_at description
       transcript)
    (create_youtube_video id title' url' channel_id' published_at'
       description' transcript') s
  ∧ created_once OpenAIArticle.guid openai_articles set_openai_articles id
      {| OpenAIArticle.guid := id;
         OpenAIArticle.title := title;
         OpenAIArticle.url := url;
         OpenAIArticle.published_at := published_at;
         OpenAIArticle.description := description;
         OpenAIArticle.category := category |}
      (create_openai_article id title url published_at description category)
      (create_openai_article id title' url' published_at' description'
         category') s
  ∧ created_once AnthropicArticle.guid anthropic_articles
      set_anthropic_articles id
      {| AnthropicArticle.guid := id;
         AnthropicArticle.title := title;
         AnthropicArticle.url := url;
         AnthropicArticle.published_at := published_at;
         AnthropicArticle.description := description;
         AnthropicArticle.category := category;
         AnthropicArticle.markdown := None |}
      (create_anthropic_article id title url published_at description
         category)
      (create_anthropic_article id title' url' published_at' description'
         category') s.
Proof.
  intros [Hv Ho Ha _]. split; [|split].
  - eapply created_once_intro;
      [apply create_youtube_video_creates..|done|done|done].
  - eapply created_once_intro;
      [apply create_openai_article_creates..|done|done|done].
  - eapply created_once_intro;
      [apply create_anthropic_article_creates..|done|done|done].
Qed.

Lemma register_twice_witness :
  unique_keys readiness_fixture
  ∧ created_once YouTubeVideo.video_id youtube_videos set_youtube_videos "n1"
      (video_fixture "n1" "d" None)
      (create_youtube_video "n1" "title" "https://youtu.be/n1" "channel"
         published_2026 "d" None)
      (create_youtube_video "n1" "other title" "https://youtu.be/n1" "channel"
         published_2026 "other" (Some "text")) readiness_fixture
  ∧ created_once OpenAIArticle.guid openai_articles set_openai_articles "n1"
      {| OpenAIArticle.guid := "n1";
         OpenAIArticle.title := "title";
         OpenAIArticle.url := "https://youtu.be/n1";
         OpenAIArticle.published_at := published_2026;
         OpenAIArticle.description := "d";
         OpenAIArticle.category := None |}
      (create_openai_article "n1" "title" "https://youtu.be/n1" published_2026
         "d" None)
      (create_openai_article "n1" "other title" "https://youtu.be/n1"
         published_2026 "other" None) readiness_fixture
  ∧ created_once AnthropicArticle.guid anthropic_articles
      set_anthropic_articles "n1"
      {| AnthropicArticle.guid := "n1";
         AnthropicArticle.title := "title";
         AnthropicArticle.url := "https://youtu.be/n1";
         AnthropicArticle.published_at := published_2026;
         AnthropicArticle.description := "d";
         AnthropicArticle.category := None;
         AnthropicArticle.markdown := None |}
      (create_anthropic_article "n1" "title" "https://youtu.be/n1"
         published_2026 "d" None)
      (create_anthropic_article "n1" "other title" "https://youtu.be/n1"
         published_2026 "other" None) readiness_fixture.
Proof.
  split; [exact readiness_fixture_unique|].
  apply (register_twice readiness_fixture "n1" "title" "https://youtu.be/n1"
           "channel" published_2026 "d" None None
           "other title" "https://youtu.be/n1" "channel" published_2026
           "other" (Some "text") None).
  exact readiness_fixture_unique.
Defined.

(** The two calls of C2 on the empty store, evaluated. *)
Example create_youtube_video_again :
  create_youtube_video "v1" "title" "https://youtu.be/v1" "channel"
    published_2026 "d" None empty_session
  = Ok (Some (video_fixture "v1" "d" None),
        set_youtube_videos [video_fixture "v1" "d" None] empty_session)
  ∧ create_youtube_video "v1" "changed" "https://youtu.be/v1" "channel"
      published_2026 "changed" (Some "text")
      (set_youtube_videos [video_fixture "v1" "d" None] empty_session)
    = Ok (None, set_youtube_videos [video_fixture "v1" "d" None] empty_session).
Proof. split; vm_compute; reflexivity. Qed.

(** ** The digest ledger: writing *)

(** C3: [create_digest] called twice for one [(article_type, article_id)].
    The first call answers; the second call returns [None] and leaves every
    table as it was; and one digest is stored under the digest id. The first
    call stored the digest and returned it when the id was free. *)
Theorem create_digest_twice (s : Session)
    (article_type article_id url title summary : string)
    (published_at : option datetime) (now : Z)
    (url' title' summary' : string) (published_at' : option datetime)
    (now' : Z) :
  unique_keys s →
  created_once Digest.id digests set_digests
    (digest_key article_type article_id)
    {| Digest.id := digest_key article_type article_id;
       Digest.article_type := article_type;
       Digest.article_id := article_id;
       Digest.url := url;
       Digest.title := title;
       Digest.summary := summary;
       Digest.created_at :=
         match published_at with
         | Some published_at =>
             if tzinfo published_at is Some _ then published_at
             else replace_tzinfo_utc published_at
         | None => now_utc now
         end |}
    (create_digest article_type article_id url title summary published_at now)
    (create_digest article_type article_id url' title' summary' published_at'
       now') s.
Proof.
  intros [_ _ _ Hd].
  eapply created_once_intro; [apply create_digest_creates..|done|done|done].
Qed.

Lemma create_digest_twice_witness :
  unique_keys readiness_fixture
  ∧ created_once Digest.id digests set_digests (digest_key "youtube" "v2")
      (digest_fixture "youtube" "v2" (now_utc clock_2026))
      (create_digest "youtube" "v2" "v2" "digest title" "summary" None
         clock_2026)
      (create_digest "youtube" "v2" "v2" "second title" "second summary"
         (Some published_2026) (clock_2026 + 1)) readiness_fixture.
Proof.
  split; [exact readiness_fixture_unique|].
  apply (create_digest_twice readiness_fixture "youtube" "v2" "v2"
           "digest title" "summary" None clock_2026
           "v2" "second title" "second summary" (Some published_2026)
           (clock_2026 + 1)).
  exact readiness_fixture_unique.
Defined.

(** ** Enrichment *)

Lemma update_youtube_video_transcript_eq (video_id transcript : string)
    (s : Session) :
  NoDup (YouTubeVideo.video_id <$> youtube_videos s) →
  update_youtube_video_transcript video_id transcript s
  = (bool_decide (video_id ∈ YouTubeVideo.video_id <$> youtube_videos s),
     set_youtube_videos
       ((λ r, if decide (YouTubeVideo.video_id r = video_id)
              then YouTubeVideo.set_transcript (Some transcript) r else r)
          <$> youtube_videos s) s).
Proof.
  intros Hnodup. unfold update_youtube_video_transcript.
  rewrite <- (update_first_unique YouTubeVideo.video_id) by done.
  destruct (first_by _ _ _) as [r|] eqn:Hlook.
  - apply first_by_Some in Hlook as [Hr <-].
    rewrite bool_decide_eq_true_2; [done|]. by apply list_elem_of_fmap_2.
  - apply first_by_None in Hlook. rewrite bool_decide_eq_false_2 by done.
    by rewrite update_first_absent, set_youtube_videos_id.
Qed.

Lemma update_anthropic_article_markdown_eq (guid markdown : string)
    (s : Session) :
  NoDup (AnthropicArticle.guid <$> anthropic_articles s) →
  update_anthropic_article_markdown guid markdown s
  = (bool_decide (guid ∈ AnthropicArticle.guid <$> anthropic_articles s),
     set_anthropic_articles
       ((λ r, if decide (AnthropicArticle.guid r = guid)
              then AnthropicArticle.set_markdown (Some markdown) r else r)
          <$> anthropic_articles s) s).
Proof.
  intros Hnodup. unfold update_anthropic_article_markdown.
  rewrite <- (update_first_unique AnthropicArticle.guid) by done.
  destruct (first_by _ _ _) as [r|] eqn:Hlook.
  - apply first_by_Some in Hlook as [Hr <-].
    rewrite bool_decide_eq_true_2; [done|]. by apply list_elem_of_fmap_2.
  - apply first_by_None in Hlook. rewrite bool_decide_eq_false_2 by done.
    by rewrite update_first_absent, set_anthropic_articles_id.
Qed.

(** C5 (as amended): [update_youtube_video_transcript] and
    [update_anthropic_article_markdown] set the enrichment of the row under
    the key whenever that row exists, whatever the enrichment it holds
    (NULL, a text or the marker); no other row and no other table changes;
    and the result is [True] exactly when a row under the key exists. *)
Theorem update_enrichment_overwrites (s : Session) (id value : string) :
  unique_keys s →
  update_youtube_video_transcript id value s
  = (bool_decide (id ∈ YouTubeVideo.video_id <$> youtube_videos s),
     set_youtube_videos
       ((λ r, if decide (YouTubeVideo.video_id r = id)
              then YouTubeVideo.set_transcript (Some value) r else r)
          <$> youtube_videos s) s)
  ∧ update_anthropic_article_markdown id value s
    = (bool_decide (id ∈ AnthropicArticle.guid <$> anthropic_articles s),
       set_anthropic_articles
         ((λ r, if decide (AnthropicArticle.guid r = id)
                then AnthropicArticle.set_markdown (Some value) r else r)
            <$> anthropic_articles s) s).
Proof.
  intros [Hv _ Ha _]. split.
  - by apply update_youtube_video_transcript_eq.
  - by apply update_anthropic_article_markdown_eq.
Qed.

Lemma update_enrichment_overwrites_witness :
  unique_keys readiness_fixture
  ∧ update_youtube_video_transcript "v0" UNAVAILABLE readiness_fixture
    = (bool_decide
         ("v0" ∈ YouTubeVideo.video_id <$> youtube_videos readiness_fixture),
       set_youtube_videos
         ((λ r, if decide (YouTubeVideo.video_id r = "v0")
                then YouTubeVideo.set_transcript (Some UNAVAILABLE) r else r)
            <$> youtube_videos readiness_fixture) readiness_fixture)
  ∧ update_anthropic_article_markdown "v0" UNAVAILABLE readiness_fixture
    = (bool_decide
         ("v0" ∈ AnthropicArticle.guid <$> anthropic_articles readiness_fixture),
       set_anthropic_articles
         ((λ r, if decide (AnthropicArticle.guid r = "v0")
                then AnthropicArticle.set_markdown (Some UNAVAILABLE) r else r)
            <$> anthropic_articles readiness_fixture) readiness_fixture).
Proof.
  split; [exact readiness_fixture_unique|].
  apply (update_enrichment_overwrites readiness_fixture "v0" UNAVAILABLE).
  exact readiness_fixture_unique.
Defined.

(** C5 (as stated) fails: a stored transcript, and a stored marker, are
    replaced by a later call, which returns [True]. *)
Lemma update_enrichment_counterexample :
  first_by YouTubeVideo.video_id "v2" (youtube_videos readiness_fixture)
  = Some (video_fixture "v2" "d" (Some "transcript text"))
  ∧ (update_youtube_video_transcript "v2" "replacement" readiness_fixture).1
    = true
  ∧ first_by YouTubeVideo.video_id "v2"
      (youtube_videos
         (update_youtube_video_transcript "v2" "replacement"
            readiness_fixture).2)
    = Some (video_fixture "v2" "d" (Some "replacement"))
  ∧ first_by YouTubeVideo.video_id "v1" (youtube_videos readiness_fixture)
    = Some (video_fixture "v1" "d" (Some UNAVAILABLE))
  ∧ first_by YouTubeVideo.video_id "v1"
      (youtube_videos
         (update_youtube_video_transcript "v1" "late transcript"
            readiness_fixture).2)
    = Some (video_fixture "v1" "d" (Some "late transcript")).
Proof. repeat split; vm_compute; reflexivity. Qed.

(** C9 (as amended): the empty string is a key like any other. A creating
    call with the empty key, of any of the three sources, returns [None]
    when a row is stored under it and stores and returns the new row
    otherwise; an updating call with the empty key sets the enrichment of
    the row stored under it and returns whether there is one. No call
    raises. *)
Theorem empty_key_is_accepted (s : Session) (title url channel_id : string)
    (published_at : datetime) (description : string)
    (transcript category : option string) (value : string) :
  unique_keys s →
  create_youtube_video "" title url channel_id published_at description
    transcript s
  = (let video :=
       {| YouTubeVideo.video_id := "";
          YouTubeVideo.title := title;
          YouTubeVideo.url := url;
          YouTubeVideo.channel_id := channel_id;
          YouTubeVideo.published_at := published_at;
          YouTubeVideo.description := description;
          YouTubeVideo.transcript := transcript |} in
     if decide ("" ∈ YouTubeVideo.video_id <$> youtube_videos s)
     then Ok (None, s)
     else Ok (Some video, set_youtube_videos (youtube_videos s ++ [video]) s))
  ∧ create_openai_article "" title url published_at description category s
    = (let article :=
         {| OpenAIArticle.guid := "";
            OpenAIArticle.title := title;
            OpenAIArticle.url := url;
            OpenAIArticle.published_at := published_at;
            OpenAIArticle.description := description;
            OpenAIArticle.category := category |} in
       if decide ("" ∈ OpenAIArticle.guid <$> openai_articles s)
       then Ok (None, s)
       else Ok (Some article,
                set_openai_articles (openai_articles s ++ [article]) s))
  ∧ create_anthropic_article "" title url published_at description category s
    = (let article :=
         {| AnthropicArticle.guid := "";
            AnthropicArticle.title := title;
            AnthropicArticle.url := url;
            AnthropicArticle.published_at := published_at;
            AnthropicArticle.description := description;
            AnthropicArticle.category := category;
            AnthropicArticle.markdown := None |} in
       if decide ("" ∈ AnthropicArticle.guid <$> anthropic_articles s)
       then Ok (None, s)
       else Ok (Some article,
                set_anthropic_articles (anthropic_articles s ++ [article]) s))
  ∧ update_youtube_video_transcript "" value s
    = (bool_decide ("" ∈ YouTubeVideo.video_id <$> youtube_videos s),
       set_youtube_videos
         ((λ r, if decide (YouTubeVideo.video_id r = "")
                then YouTubeVideo.set_transcript (Some value) r else r)
            <$> youtube_videos s) s)
  ∧ update_anthropic_article_markdown "" value s
    = (bool_decide ("" ∈ AnthropicArticle.guid <$> anthropic_articles s),
       set_anthropic_articles
         ((λ r, if decide (AnthropicArticle.guid r = "")
                then AnthropicArticle.set_markdown (Some value) r else r)
            <$> anthropic_articles s) s).
Proof.
  intros [Hv _ Ha _]. repeat split.
  - by apply (creates_eq _ _ _ _ _ _ s (create_youtube_video_creates _ _ _ _ _ _ _)).
  - by apply (creates_eq _ _ _ _ _ _ s (create_openai_article_creates _ _ _ _ _ _)).
  - by apply (creates_eq _ _ _ _ _ _ s
                (create_anthropic_article_creates _ _ _ _ _ _)).
  - by apply update_youtube_video_transcript_eq.
  - by apply update_anthropic_article_markdown_eq.
Qed.

Lemma empty_key_is_accepted_witness :
  unique_keys empty_key_fixture
  ∧ create_youtube_video "" "title" "https://youtu.be/" "channel"
      published_2026 "other" (Some "text") empty_key_fixture
    = Ok (None, empty_key_fixture)
  ∧ create_openai_article "" "title" "https://youtu.be/" published_2026
      "other" None empty_key_fixture
    = Ok (Some
            {| OpenAIArticle.guid := "";
               OpenAIArticle.title := "title";
               OpenAIArticle.url := "https://youtu.be/";
               OpenAIArticle.published_at := published_2026;
               OpenAIArticle.description := "other";
               OpenAIArticle.category := None |},
          set_openai_articles
            (openai_articles empty_key_fixture
             ++ [ {| OpenAIArticle.guid := "";
                     OpenAIArticle.title := "title";
                     OpenAIArticle.url := "https://youtu.be/";
                     OpenAIArticle.published_at := published_2026;
                     OpenAIArticle.description := "other";
                     OpenAIArticle.category := None |} ]) empty_key_fixture)
  ∧ create_anthropic_article "" "title" "https://youtu.be/" published_2026
      "other" None empty_key_fixture
    = Ok (Some
            {| AnthropicArticle.guid := "";
               AnthropicArticle.title := "title";
               AnthropicArticle.url := "https://youtu.be/";
               AnthropicArticle.published_at := published_2026;
               AnthropicArticle.description := "other";
               AnthropicArticle.category := None;
               AnthropicArticle.markdown := None |},
          set_anthropic_articles
            (anthropic_articles empty_key_fixture
             ++ [ {| AnthropicArticle.guid := "";
                     AnthropicArticle.title := "title";
                     AnthropicArticle.url := "https://youtu.be/";
                     AnthropicArticle.published_at := published_2026;
                     AnthropicArticle.description := "other";
                     AnthropicArticle.category := None;
                     AnthropicArticle.markdown := None |} ])
            empty_key_fixture)
  ∧ update_youtube_video_transcript "" "text" empty_key_fixture
    = (true,
       set_youtube_videos
         (youtube_videos readiness_fixture
          ++ [ video_fixture "" "d" (Some "text") ]) readiness_fixture)
  ∧ update_anthropic_article_markdown "" "text" empty_key_fixture
    = (false, empty_key_fixture).
Proof.
  assert (Hunique : unique_keys empty_key_fixture)
    by (split; by apply (bool_decide_unpack _)).
  split; [exact Hunique|].
  exact (empty_key_is_accepted empty_key_fixture "title" "https://youtu.be/"
           "channel" published_2026 "other" (Some "text") None "text"
           Hunique).
Defined.

(** C9 (as stated) fails: on the empty store a video is registered under
    the empty id and returned, and its transcript is then attached, with
    result [True]. *)
Lemma empty_key_counterexample :
  create_youtube_video "" "title" "https://youtu.be/" "channel"
    published_2026 "d" None empty_session
  = Ok (Some (video_fixture "" "d" None),
        set_youtube_videos [video_fixture "" "d" None] empty_session)
  ∧ update_youtube_video_transcript "" "text"
      (set_youtube_videos [video_fixture "" "d" None] empty_session)
    = (true,
       set_youtube_videos [video_fixture "" "d" (Some "text")] empty_session).
Proof. split; vm_compute; reflexivity. Qed.


(** ** Enrichment is not undone *)

Lemma limit_all_subseteq {A} (limit : option Z) (query l : list A) :
  limit_all limit query = Ok l → l ⊆ query.
Proof.
  unfold limit_all, query_limit. destruct limit as [n|]; [|by intros [= <-]].
  destruct (truthy (Some n)); [|by intros [= <-]].
  case_decide; [done|]. intros [= <-]. apply subseteq_take.
Qed.

(** What one call does to the table of videos: no key leaves it, and a row
    that is in it afterwards was there before, or is stored under a key that
    was free, or has a transcript. *)
Lemma call_youtube_videos (o : op) (s : Session) :
  (∀ k, k ∈ YouTubeVideo.video_id <$> youtube_videos s →
        k ∈ YouTubeVideo.video_id <$> youtube_videos (call o s))
  ∧ (∀ r, r ∈ youtube_videos (call o s) →
          r ∈ youtube_videos s
          ∨ YouTubeVideo.video_id r ∉ YouTubeVideo.video_id <$> youtube_videos s
          ∨ YouTubeVideo.transcript r ≠ None).
Proof.
  assert (Hsame : ∀ s', youtube_videos s' = youtube_videos s →
    (∀ k, k ∈ YouTubeVideo.video_id <$> youtube_videos s →
          k ∈ YouTubeVideo.video_id <$> youtube_videos s')
    ∧ (∀ r, r ∈ youtube_videos s' →
            r ∈ youtube_videos s
            ∨ YouTubeVideo.video_id r
              ∉ YouTubeVideo.video_id <$> youtube_videos s
            ∨ YouTubeVideo.transcript r ≠ None)).
  { intros s' ->. split; [done|]. intros r Hr. by left. }
  assert (Hmore : ∀ new : list YouTubeVideo.t,
    (∀ r, r ∈ new →
       YouTubeVideo.video_id r ∉ YouTubeVideo.video_id <$> youtube_videos s) →
    (∀ k, k ∈ YouTubeVideo.video_id <$> youtube_videos s →
          k ∈ YouTubeVideo.video_id <$> youtube_videos s ++ new)
    ∧ (∀ r, r ∈ youtube_videos s ++ new →
            r ∈ youtube_videos s
            ∨ YouTubeVideo.video_id r
              ∉ YouTubeVideo.video_id <$> youtube_videos s
            ∨ YouTubeVideo.transcript r ≠ None)).
  { intros new Hfresh. split.
    - intros k Hk. rewrite fmap_app, elem_of_app. by left.
    - intros r [Hr|Hr]%elem_of_app; [by left|]. right. left. by apply Hfresh. }
  destruct o; unfold call.
  - rewrite (creates_eq _ _ _ _ _ _ s
               (create_youtube_video_creates _ _ _ _ _ _ _)) by done.
    case_decide as Hin; simpl; [by apply Hsame|]. apply Hmore.
    by intros r ->%list_elem_of_singleton.
  - rewrite (creates_eq _ _ _ _ _ _ s
               (create_openai_article_creates _ _ _ _ _ _)) by done.
    case_decide; by apply Hsame.
  - rewrite (creates_eq _ _ _ _ _ _ s
               (create_anthropic_article_creates _ _ _ _ _ _)) by done.
    case_decide; by apply Hsame.
  - unfold bulk_create_youtube_videos.
    destruct (collect_new _ _ _ _) as [|n new] eqn:Hnew; [by apply Hsame|].
    destruct (add_all_commit _ _ _) as [rows|e] eqn:Hadd; simpl;
      [|by apply Hsame].
    apply add_all_commit_Ok in Hadd as [-> Hfresh]. by apply Hmore.
  - unfold bulk_create_openai_articles.
    destruct (collect_new _ _ _ _) as [|n new]; [by apply Hsame|].
    destruct (add_all_commit _ _ _); by apply Hsame.
  - unfold bulk_create_anthropic_articles.
    destruct (collect_new _ _ _ _) as [|n new]; [by apply Hsame|].
    destruct (add_all_commit _ _ _); by apply Hsame.
  - by apply Hsame.
  - unfold update_anthropic_article_markdown.
    destruct (first_by _ _ _); by apply Hsame.
  - by apply Hsame.
  - unfold update_youtube_video_transcript.
    destruct (first_by _ _ _); simpl; [|by apply Hsame]. split.
    + intros k Hk. by rewrite update_first_keys.
    + intros r [Hr|(r0 & Hr0 & _ & ->)]%update_first_elem_of; [by left|].
      right. right. done.
  - by apply Hsame.
  - rewrite (creates_eq _ _ _ _ _ _ s
               (create_digest_creates _ _ _ _ _ _ _)) by done.
    case_decide; by apply Hsame.
  - by apply Hsame.
Qed.

Lemma call_enriched (video_id : string) (o : op) (s : Session) :
  enriched video_id s → enriched video_id (call o s).
Proof.
  intros [Hin Hrows]. destruct (call_youtube_videos o s) as [Hkeys Hnew].
  split; [by apply Hkeys|]. intros v Hv Hid.
  destruct (Hnew v Hv) as [Hold|[Hfresh|Hsome]]; [by apply Hrows| |done].
  by rewrite Hid in Hfresh.
Qed.

Lemma calls_enriched (video_id : string) (ops : list op) (s : Session) :
  enriched video_id s → enriched video_id (calls ops s).
Proof.
  unfold calls. revert s. induction ops as [|o ops IH]; intros s Hs; [done|].
  simpl. by apply IH, call_enriched.
Qed.

Lemma update_youtube_video_transcript_enriched (video_id transcript : string)
    (s : Session) :
  NoDup (YouTubeVideo.video_id <$> youtube_videos s) →
  (update_youtube_video_transcript video_id transcript s).1 = true →
  enriched video_id (update_youtube_video_transcript video_id transcript s).2.
Proof.
  intros Hnodup. rewrite update_youtube_video_transcript_eq by done.
  cbn [fst snd]. intros Hin%bool_decide_eq_true_1.
  unfold enriched. cbn [youtube_videos set_youtube_videos]. split.
  - rewrite <- list_fmap_compose.
    apply list_elem_of_fmap in Hin as (r & -> & Hr).
    apply list_elem_of_fmap. exists r. split; [|done].
    simpl. by rewrite decide_True.
  - intros v (r & -> & Hr)%list_elem_of_fmap. case_decide; [done|].
    by intros ?.
Qed.

(** C4: once [update_youtube_video_transcript] has stored the marker for a
    video, [get_youtube_videos_without_transcript] does not return that
    video, whatever calls of the repository come in between and whatever
    the limit; and the call without a limit does answer. *)
Theorem unavailable_is_permanent (s : Session) (video_id : string)
    (ops : list op) :
  unique_keys s →
  (update_youtube_video_transcript video_id UNAVAILABLE s).1 = true →
  let s' :=
    calls ops (update_youtube_video_transcript video_id UNAVAILABLE s).2 in
  (∃ l, get_youtube_videos_without_transcript None s' = Ok l)
  ∧ ∀ limit v,
      returns (get_youtube_videos_without_transcript limit s') v →
      YouTubeVideo.video_id v ≠ video_id.
Proof.
  intros [Hnodup _ _ _] Hupdated s'.
  assert (Hs' : enriched video_id s').
  { by apply calls_enriched, update_youtube_video_transcript_enriched. }
  split; [by eexists|].
  intros limit v (l & Hl & Hv) Hid.
  apply limit_all_subseteq in Hl. apply Hl in Hv.
  apply list_elem_of_filter in Hv as [Hnone Hv].
  by apply (proj2 Hs' v Hv Hid).
Qed.

Lemma unavailable_is_permanent_witness :
  unique_keys readiness_fixture
  ∧ (update_youtube_video_transcript "v0" UNAVAILABLE readiness_fixture).1
    = true
  ∧ (∃ l,
       get_youtube_videos_without_transcript None
         (calls later_calls_fixture
            (update_youtube_video_transcript "v0" UNAVAILABLE
               readiness_fixture).2)
       = Ok l)
  ∧ ∀ limit v,
      returns
        (get_youtube_videos_without_transcript limit
           (calls later_calls_fixture
              (update_youtube_video_transcript "v0" UNAVAILABLE
                 readiness_fixture).2)) v →
      YouTubeVideo.video_id v ≠ "v0".
Proof.
  split; [exact readiness_fixture_unique|]. split; [reflexivity|].
  apply (unavailable_is_permanent readiness_fixture "v0" later_calls_fixture);
    [exact readiness_fixture_unique|reflexivity].
Defined.

(** The fixture, evaluated: before the marker ["v0"] is the one pending
    video; after it and the later calls only the video of the batch is. *)
Example pending_transcripts_after_marker :
  get_youtube_videos_without_transcript None readiness_fixture
  = Ok [ video_fixture "v0" "d" None ]
  ∧ get_youtube_videos_without_transcript None
      (calls later_calls_fixture
         (update_youtube_video_transcript "v0" UNAVAILABLE
            readiness_fixture).2)
    = Ok [ video_of_dict (video_dict_fixture "n1") ].
Proof. split; vm_compute; reflexivity. Qed.

(** ** Bulk registration *)

Lemma collect_new_filter {D A} (key : A → string) (mk : D → A)
    (rows : list A) (batch : list D) :
  collect_new key mk rows batch
  = mk <$> filter (λ d, key (mk d) ∉ key <$> rows) batch.
Proof.
  unfold collect_new.
  enough (Hacc : ∀ new,
    foldl (λ new d,
      if first_by key (key (mk d)) rows is Some _ then new else new ++ [mk d])
      new batch
    = new ++ (mk <$> filter (λ d, key (mk d) ∉ key <$> rows) batch))
    by apply (Hacc []).
  induction batch as [|d batch IH]; intros new; simpl.
  - by rewrite app_nil_r.
  - rewrite IH, filter_cons.
    destruct (first_by key (key (mk d)) rows) as [r|] eqn:Hlook.
    + apply first_by_Some in Hlook as [Hr Hkey].
      rewrite decide_False; [done|]. intros Hout. apply Hout.
      rewrite <- Hkey. by apply list_elem_of_fmap_2.
    + apply first_by_None in Hlook. rewrite decide_True by done.
      by rewrite fmap_cons, <- app_assoc.
Qed.

(** A batch whose video ids differ from one another: the rows of the ids
    that are free are stored after the rows that were there, which stay as
    they were, the result is their number, and the ids stay unique. *)
Lemma bulk_create_youtube_videos_distinct (videos : list VideoDict.t)
    (s : Session) :
  NoDup (VideoDict.video_id <$> videos) →
  let new :=
    video_of_dict <$>
      filter (λ v, VideoDict.video_id v
                   ∉ YouTubeVideo.video_id <$> youtube_videos s) videos in
  bulk_create_youtube_videos videos s
  = Ok (length new, set_youtube_videos (youtube_videos s ++ new) s).
Proof.
  intros Hnodup. cbv zeta. unfold bulk_create_youtube_videos.
  rewrite collect_new_filter.
  change (λ d, YouTubeVideo.video_id (video_of_dict d)
               ∉ YouTubeVideo.video_id <$> youtube_videos s)
    with (λ v, VideoDict.video_id v
               ∉ YouTubeVideo.video_id <$> youtube_videos s).
  remember (video_of_dict <$>
              filter (λ v, VideoDict.video_id v
                           ∉ YouTubeVideo.video_id <$> youtube_videos s)
                videos) as new eqn:Hnew.
  assert (Hadd : add_all_commit YouTubeVideo.video_id new (youtube_videos s)
                 = Ok (youtube_videos s ++ new)).
  { apply add_all_commit_distinct.
    - rewrite Hnew, <- list_fmap_compose.
      eapply sublist_NoDup; [exact Hnodup|].
      apply fmap_sublist, sublist_filter.
    - rewrite Hnew. intros r (v & -> & Hv)%list_elem_of_fmap.
      by apply list_elem_of_filter in Hv as [Hfree _]. }
  clear Hnew. destruct new as [|n new].
  - by rewrite app_nil_r, set_youtube_videos_id.
  - by rewrite Hadd.
Qed.

(** The scenario of five items of which two are stored: three rows are
    created and all five ids are found afterwards. *)
Example bulk_create_five_two_existing :
  ∃ s',
    bulk_create_youtube_videos
      [ video_dict_fixture "v0"; video_dict_fixture "n1";
        video_dict_fixture "n2"; video_dict_fixture "v2";
        video_dict_fixture "n3" ] readiness_fixture
    = Ok (3%nat, s')
    ∧ first_by YouTubeVideo.video_id "v0" (youtube_videos s')
      = Some (video_fixture "v0" "d" None)
    ∧ first_by YouTubeVideo.video_id "v2" (youtube_videos s')
      = Some (video_fixture "v2" "d" (Some "transcript text"))
    ∧ Forall (λ k, is_Some (first_by YouTubeVideo.video_id k (youtube_videos s')))
        [ "v0"; "n1"; "n2"; "v2"; "n3" ].
Proof.
  eexists. split; [vm_compute; reflexivity|].
  split; [reflexivity|]. split; [reflexivity|].
  repeat constructor; by eexists.
Qed.

(** C6 at the failing input: a batch that names one new video id twice.
    Neither item is found in the table, both rows are handed to the storage
    layer, and the transaction is rejected: no count is returned and no row
    is stored. Registering the same two items one call at a time stores the
    first and skips the second. *)
Theorem bulk_create_repeated_key :
  bulk_create_youtube_videos
    [ video_dict_fixture "n1"; video_dict_fixture "n1" ] empty_session
  = Raise IntegrityError
  ∧ collect_new YouTubeVideo.video_id video_of_dict
      (youtube_videos empty_session)
      [ video_dict_fixture "n1"; video_dict_fixture "n1" ]
    = [ video_of_dict (video_dict_fixture "n1");
        video_of_dict (video_dict_fixture "n1") ]
  ∧ calls
      [ CreateYoutubeVideo "n1" "title" "https://youtu.be/n1" "" published_2026
          "" None;
        CreateYoutubeVideo "n1" "title" "https://youtu.be/n1" "" published_2026
          "" None ] empty_session
    = set_youtube_videos [ video_of_dict (video_dict_fixture "n1") ]
        empty_session.
Proof. repeat split; vm_compute; reflexivity. Qed.

(** ** The recency read path *)

Global Instance newer_first_transitive : Transitive newer_first.
Proof. unfold newer_first. intros a b c Hab Hbc. lia. Qed.

Global Instance newer_first_total : Total newer_first.
Proof. unfold newer_first. intros a b. lia. Qed.

(** A window that stays within the range of [datetime]: the rows at or
    after the cutoff, sorted. *)
Lemma get_recent_digests_in_range (hours now : Z) (s : Session) :
  datetime_ok now →
  datetime_ok (now - hours * microseconds_per_hour) →
  get_recent_digests hours now s
  = Ok (digest_dict <$>
          merge_sort newer_first
            (filter (λ d, now - hours * microseconds_per_hour
                          ≤ instant (Digest.created_at d)) (digests s))).
Proof.
  intros Hnow Hcutoff. unfold get_recent_digests, timedelta_hours, datetime_sub.
  rewrite decide_True.
  - simpl. by rewrite decide_True.
  - revert Hnow Hcutoff.
    unfold timedelta_ok, datetime_ok, datetime_min, datetime_max,
      microseconds_per_day, microseconds_per_hour.
    lia.
Qed.

(** A window whose cutoff leaves the range of [datetime]. *)
Lemma get_recent_digests_out_of_range (hours now : Z) (s : Session) :
  ¬ datetime_ok (now - hours * microseconds_per_hour) →
  get_recent_digests hours now s = Raise OverflowError.
Proof.
  intros Hcutoff. unfold get_recent_digests, timedelta_hours, datetime_sub.
  case_decide; [|done]. simpl. by rewrite decide_False.
Qed.

(** C7 (as amended): for every ledger and every window whose cutoff
    [now - hours] is a [datetime] (a year from 1 to 9999),
    [get_recent_digests] returns the digests with [created_at] at or after
    the cutoff, each as often as it is stored, the later ones first. *)
Theorem get_recent_digests_window_sorted (hours now : Z) (s : Session) :
  datetime_ok now →
  datetime_ok (now - hours * microseconds_per_hour) →
  ∃ ds,
    get_recent_digests hours now s = Ok (digest_dict <$> ds)
    ∧ ds ≡ₚ filter (λ d, now - hours * microseconds_per_hour
                         ≤ instant (Digest.created_at d)) (digests s)
    ∧ StronglySorted newer_first ds.
Proof.
  intros Hnow Hcutoff. eexists. split; [|split].
  - by apply get_recent_digests_in_range.
  - apply merge_sort_Permutation.
  - apply StronglySorted_merge_sort; apply _.
Qed.

Lemma clock_2026_ok : datetime_ok clock_2026.
Proof. by apply (bool_decide_unpack _). Qed.

Lemma get_recent_digests_window_sorted_witness :
  datetime_ok clock_2026
  ∧ datetime_ok (clock_2026 - 24 * microseconds_per_hour)
  ∧ ∃ ds,
      get_recent_digests 24 clock_2026 ledger_fixture
      = Ok (digest_dict <$> ds)
      ∧ ds ≡ₚ filter (λ d, clock_2026 - 24 * microseconds_per_hour
                           ≤ instant (Digest.created_at d))
                (digests ledger_fixture)
      ∧ StronglySorted newer_first ds.
Proof.
  split; [exact clock_2026_ok|].
  split; [by apply (bool_decide_unpack _)|].
  apply (get_recent_digests_window_sorted 24 clock_2026 ledger_fixture);
    [exact clock_2026_ok|by apply (bool_decide_unpack _)].
Defined.

(** The fixture, evaluated: the stored order is reversed. *)
Example ledger_fixture_recent :
  get_recent_digests 24 clock_2026 ledger_fixture
  = Ok [ digest_dict
           (digest_fixture "openai" "a1"
              (now_utc (clock_2026 + 5 * microseconds_per_hour)));
         digest_dict (digest_fixture "youtube" "v2" published_2026) ].
Proof. vm_compute. reflexivity. Qed.

(** C7 (as stated) fails: a window of twenty million hours, read in 2026,
    has its cutoff before year 1; the subtraction raises and no sequence is
    returned. *)
Lemma get_recent_digests_window_counterexample :
  datetime_ok clock_2026
  ∧ timedelta_hours 20000000 = Ok (20000000 * microseconds_per_hour)
  ∧ get_recent_digests 20000000 clock_2026 ledger_fixture
    = Raise OverflowError.
Proof.
  split; [exact clock_2026_ok|]. split; vm_compute; reflexivity.
Qed.

(** C8 (as amended): a window of zero or fewer hours is not rejected. The
    cutoff [now - hours] is then the reading of the clock or later, and the
    call returns the digests with [created_at] at or after it, each as often
    as it is stored, the later ones first; only a cutoff past the last
    [datetime] makes the call raise, and what it raises is the overflow of
    the subtraction. *)
Theorem get_recent_digests_nonpositive_window (hours now : Z) (s : Session) :
  hours ≤ 0 →
  datetime_ok now →
  (now - hours * microseconds_per_hour ≤ datetime_max →
     ∃ ds,
       get_recent_digests hours now s = Ok (digest_dict <$> ds)
       ∧ ds ≡ₚ filter (λ d, now - hours * microseconds_per_hour
                            ≤ instant (Digest.created_at d)) (digests s)
       ∧ StronglySorted newer_first ds)
  ∧ (datetime_max < now - hours * microseconds_per_hour →
       get_recent_digests hours now s = Raise OverflowError).
Proof.
  intros Hhours Hnow. split.
  - intros Hcutoff. eexists. split; [|split].
    + apply get_recent_digests_in_range; [done|].
      revert Hhours Hnow Hcutoff.
      unfold datetime_ok, datetime_min, microseconds_per_hour. lia.
    + apply merge_sort_Permutation.
    + apply StronglySorted_merge_sort; apply _.
  - intros Hcutoff. apply get_recent_digests_out_of_range.
    unfold datetime_ok. lia.
Qed.

Lemma get_recent_digests_nonpositive_window_witness :
  -3 ≤ 0
  ∧ datetime_ok clock_2026
  ∧ clock_2026 - -3 * microseconds_per_hour ≤ datetime_max
  ∧ ∃ ds,
      get_recent_digests (-3) clock_2026 ledger_fixture
      = Ok (digest_dict <$> ds)
      ∧ ds ≡ₚ filter (λ d, clock_2026 - -3 * microseconds_per_hour
                           ≤ instant (Digest.created_at d))
                (digests ledger_fixture)
      ∧ StronglySorted newer_first ds.
Proof.
  assert (Hcutoff : clock_2026 - -3 * microseconds_per_hour ≤ datetime_max)
    by by apply (bool_decide_unpack _).
  split; [lia|]. split; [exact clock_2026_ok|]. split; [exact Hcutoff|].
  apply (get_recent_digests_nonpositive_window (-3) clock_2026 ledger_fixture);
    [lia|exact clock_2026_ok|exact Hcutoff].
Defined.

(** C8 (as stated) fails: with a window of zero hours, and with a window of
    minus three hours, the call returns a sequence, here the digest that is
    dated five hours after the reading of the clock. *)
Lemma get_recent_digests_nonpositive_counterexample :
  get_recent_digests 0 clock_2026 ledger_fixture
  = Ok [ digest_dict
           (digest_fixture "openai" "a1"
              (now_utc (clock_2026 + 5 * microseconds_per_hour))) ]
  ∧ get_recent_digests (-3) clock_2026 ledger_fixture
    = Ok [ digest_dict
             (digest_fixture "openai" "a1"
                (now_utc (clock_2026 + 5 * microseconds_per_hour))) ].
Proof. split; vm_compute; reflexivity. Qed.


(** ** The invariants hold in every state the repository reaches *)

Lemma NoDup_snoc_key {A} (key : A → string) (rows : list A) (r : A) :
  NoDup (key <$> rows) → key r ∉ key <$> rows →
  NoDup (key <$> rows ++ [r]).
Proof.
  intros Hnodup Hfresh. rewrite fmap_app. apply NoDup_app.
  split; [done|]. split; [|apply NoDup_singleton].
  by intros k Hk ->%list_elem_of_singleton.
Qed.

Lemma call_unique_keys (o : op) (s : Session) :
  unique_keys s → unique_keys (call o s).
Proof.
  intros [Hv Ho Ha Hd]. destruct o; unfold call; try by split.
  - rewrite (creates_eq _ _ _ _ _ _ s
               (create_youtube_video_creates _ _ _ _ _ _ _)) by done.
    case_decide; simpl; split; try done. by apply NoDup_snoc_key.
  - rewrite (creates_eq _ _ _ _ _ _ s
               (create_openai_article_creates _ _ _ _ _ _)) by done.
    case_decide; simpl; split; try done. by apply NoDup_snoc_key.
  - rewrite (creates_eq _ _ _ _ _ _ s
               (create_anthropic_article_creates _ _ _ _ _ _)) by done.
    case_decide; simpl; split; try done. by apply NoDup_snoc_key.
  - unfold bulk_create_youtube_videos.
    destruct (collect_new _ _ _ _) as [|n new]; [by split|].
    destruct (add_all_commit _ _ _) as [rows|e] eqn:Hadd; simpl; split;
      try done.
    by apply (add_all_commit_NoDup _ _ _ _ Hv Hadd).
  - unfold bulk_create_openai_articles.
    destruct (collect_new _ _ _ _) as [|n new]; [by split|].
    destruct (add_all_commit _ _ _) as [rows|e] eqn:Hadd; simpl; split;
      try done.
    by apply (add_all_commit_NoDup _ _ _ _ Ho Hadd).
  - unfold bulk_create_anthropic_articles.
    destruct (collect_new _ _ _ _) as [|n new]; [by split|].
    destruct (add_all_commit _ _ _) as [rows|e] eqn:Hadd; simpl; split;
      try done.
    by apply (add_all_commit_NoDup _ _ _ _ Ha Hadd).
  - unfold update_anthropic_article_markdown.
    destruct (first_by _ _ _); simpl; split; try done.
    cbn [anthropic_articles set_anthropic_articles].
    by rewrite update_first_keys.
  - unfold update_youtube_video_transcript.
    destruct (first_by _ _ _); simpl; split; try done.
    cbn [youtube_videos set_youtube_videos].
    by rewrite update_first_keys.
  - rewrite (creates_eq _ _ _ _ _ _ s
               (create_digest_creates _ _ _ _ _ _ _)) by done.
    case_decide; simpl; split; try done. by apply NoDup_snoc_key.
Qed.

Lemma call_digest_ids_derived (o : op) (s : Session) :
  digest_ids_derived s → digest_ids_derived (call o s).
Proof.
  intros Hids.
  assert (Hsame : ∀ s', digests s' = digests s → digest_ids_derived s').
  { intros s' Heq d. rewrite Heq. apply Hids. }
  destruct o; unfold call; try by apply Hsame.
  - rewrite (creates_eq _ _ _ _ _ _ s
               (create_youtube_video_creates _ _ _ _ _ _ _)) by done.
    case_decide; by apply Hsame.
  - rewrite (creates_eq _ _ _ _ _ _ s
               (create_openai_article_creates _ _ _ _ _ _)) by done.
    case_decide; by apply Hsame.
  - rewrite (creates_eq _ _ _ _ _ _ s
               (create_anthropic_article_creates _ _ _ _ _ _)) by done.
    case_decide; by apply Hsame.
  - unfold bulk_create_youtube_videos.
    destruct (collect_new _ _ _ _) as [|n new]; [by apply Hsame|].
    destruct (add_all_commit _ _ _); by apply Hsame.
  - unfold bulk_create_openai_articles.
    destruct (collect_new _ _ _ _) as [|n new]; [by apply Hsame|].
    destruct (add_all_commit _ _ _); by apply Hsame.
  - unfold bulk_create_anthropic_articles.
    destruct (collect_new _ _ _ _) as [|n new]; [by apply Hsame|].
    destruct (add_all_commit _ _ _); by apply Hsame.
  - unfold update_anthropic_article_markdown.
    destruct (first_by _ _ _); by apply Hsame.
  - unfold update_youtube_video_transcript.
    destruct (first_by _ _ _); by apply Hsame.
  - rewrite (creates_eq _ _ _ _ _ _ s
               (create_digest_creates _ _ _ _ _ _ _)) by done.
    case_decide; [by apply Hsame|]. simpl.
    intros d [Hd|Hd]%elem_of_app; [by apply Hids|].
    by apply list_elem_of_singleton in Hd as ->.
Qed.

(** Every state reached from the empty store by calls of the repository
    has unique keys and derived digest ids. *)
Lemma calls_invariants (ops : list op) (s : Session) :
  unique_keys s → digest_ids_derived s →
  unique_keys (calls ops s) ∧ digest_ids_derived (calls ops s).
Proof.
  unfold calls. revert s. induction ops as [|o ops IH]; intros s Hu Hd; [done|].
  simpl. apply IH; [by apply call_unique_keys|by apply call_digest_ids_derived].
Qed.

Lemma calls_empty_session_invariants (ops : list op) :
  unique_keys (calls ops empty_session)
  ∧ digest_ids_derived (calls ops empty_session).
Proof.
  apply calls_invariants.
  - split; apply NoDup_nil_2.
  - intros d Hd. by apply elem_of_nil in Hd.
Qed.

(** ** The unified view, the ledger and the enrichment together *)

Lemma get_articles_without_digest_candidates (s : Session) (a : Article.t) :
  a ∈ get_articles_without_digest None s ↔
  a ∈ candidates s ∧ article_key a ∉ seen_ids_of s.
Proof.
  rewrite get_articles_without_digest_all. unfold candidates.
  rewrite !elem_of_app, !list_elem_of_fmap. split.
  - intros [(v & -> & Hv)|[(r & -> & Hr)|(r & -> & Hr)]];
      apply list_elem_of_filter in Hv || apply list_elem_of_filter in Hr.
    + destruct Hv as [Hseen Hv]. split; [|done]. left. by exists v.
    + destruct Hr as [Hseen Hr]. split; [|done]. right. left. by exists r.
    + destruct Hr as [Hseen Hr]. split; [|done]. right. right. by exists r.
  - intros [[(v & -> & Hv)|[(r & -> & Hr)|(r & -> & Hr)]] Hseen].
    + left. exists v. split; [done|]. by apply list_elem_of_filter.
    + right. left. exists r. split; [done|]. by apply list_elem_of_filter.
    + right. right. exists r. split; [done|]. by apply list_elem_of_filter.
Qed.

Lemma candidates_type (s : Session) (a : Article.t) :
  a ∈ candidates s → Article.type a ∈ source_types.
Proof.
  unfold candidates, source_types. rewrite !elem_of_app, !list_elem_of_fmap.
  intros [(v & -> & _)|[(r & -> & _)|(r & -> & _)]]; simpl; set_solver.
Qed.

Lemma seen_ids_of_elem_of (s : Session) (k : string) :
  k ∈ seen_ids_of s ↔
  ∃ d, d ∈ digests s
       ∧ digest_key (Digest.article_type d) (Digest.article_id d) = k.
Proof.
  unfold seen_ids_of. rewrite seen_ids_elem_of. split; [|by right].
  intros [Hin|?]; [|done]. by apply elem_of_empty in Hin.
Qed.

(** The colon that ends a source type is the first one of the key, so the
    keys of two items of the three sources agree only for the same source
    and the same id. *)
Lemma digest_key_source_inj (t t' i i' : string) :
  t ∈ source_types → t' ∈ source_types →
  digest_key t i = digest_key t' i' → t = t' ∧ i = i'.
Proof.
  unfold source_types. rewrite !elem_of_cons, !elem_of_nil.
  intros [->|[->|[->|[]]]] [->|[->|[->|[]]]] Heq;
    vm_compute in Heq; by simplify_eq.
Qed.

Lemma call_digests_mono (o : op) (s : Session) (d : Digest.t) :
  d ∈ digests s → d ∈ digests (call o s).
Proof.
  intros Hd.
  assert (Hsame : ∀ s', digests s' = digests s → d ∈ digests s')
    by (by intros s' ->).
  destruct o; unfold call; try by apply Hsame.
  - rewrite (creates_eq _ _ _ _ _ _ s
               (create_youtube_video_creates _ _ _ _ _ _ _)) by done.
    case_decide; by apply Hsame.
  - rewrite (creates_eq _ _ _ _ _ _ s
               (create_openai_article_creates _ _ _ _ _ _)) by done.
    case_decide; by apply Hsame.
  - rewrite (creates_eq _ _ _ _ _ _ s
               (create_anthropic_article_creates _ _ _ _ _ _)) by done.
    case_decide; by apply Hsame.
  - unfold bulk_create_youtube_videos.
    destruct (collect_new _ _ _ _) as [|n new]; [by apply Hsame|].
    destruct (add_all_commit _ _ _); by apply Hsame.
  - unfold bulk_create_openai_articles.
    destruct (collect_new _ _ _ _) as [|n new]; [by apply Hsame|].
    destruct (add_all_commit _ _ _); by apply Hsame.
  - unfold bulk_create_anthropic_articles.
    destruct (collect_new _ _ _ _) as [|n new]; [by apply Hsame|].
    destruct (add_all_commit _ _ _); by apply Hsame.
  - unfold update_anthropic_article_markdown.
    destruct (first_by _ _ _); by apply Hsame.
  - unfold update_youtube_video_transcript.
    destruct (first_by _ _ _); by apply Hsame.
  - rewrite (creates_eq _ _ _ _ _ _ s
               (create_digest_creates _ _ _ _ _ _ _)) by done.
    case_decide; [by apply Hsame|]. simpl. apply elem_of_app. by left.
Qed.

Lemma calls_digests_mono (ops : list op) (s : Session) (d : Digest.t) :
  d ∈ digests s → d ∈ digests (calls ops s).
Proof.
  unfold calls. revert s. induction ops as [|o ops IH]; intros s Hd; [done|].
  simpl. by apply IH, call_digests_mono.
Qed.

(** After [create_digest], whatever it returned, the key is among the
    digested keys. *)
Lemma create_digest_seen (s s1 : Session) (r : option Digest.t)
    (article_type article_id url title summary : string)
    (published_at : option datetime) (now : Z) :
  digest_ids_derived s →
  create_digest article_type article_id url title summary published_at now s
  = Ok (r, s1) →
  ∃ d, d ∈ digests s1
       ∧ digest_key (Digest.article_type d) (Digest.article_id d)
         = digest_key article_type article_id.
Proof.
  intros Hids.
  rewrite (creates_eq _ _ _ _ _ _ s
             (create_digest_creates _ _ _ _ _ _ _)) by done.
  case_decide as Hin; intros [= <- <-].
  - apply list_elem_of_fmap in Hin as (d & Hkey & Hd). exists d.
    split; [done|]. by rewrite <- (Hids d Hd).
  - eexists. split; [apply elem_of_app; right; apply list_elem_of_here|done].
Qed.

(** X1: once [create_digest] was called for an item, the item is never in
    the unified view again, whatever calls follow and whatever the limit. *)
Theorem digest_is_permanent (s s1 : Session) (r : option Digest.t)
    (article_type article_id url title summary : string)
    (published_at : option datetime) (now : Z) (ops : list op)
    (limit : option Z) (a : Article.t) :
  digest_ids_derived s →
  create_digest article_type article_id url title summary published_at now s
  = Ok (r, s1) →
  a ∈ get_articles_without_digest limit (calls ops s1) →
  article_key a ≠ digest_key article_type article_id.
Proof.
  intros Hids Hcreate Ha Hkey.
  destruct (create_digest_seen _ _ _ _ _ _ _ _ _ _ Hids Hcreate)
    as (d & Hd & Hdkey).
  apply (get_articles_without_digest_subseteq limit _ a) in Ha.
  apply get_articles_without_digest_candidates in Ha as [_ Hseen].
  apply Hseen. rewrite Hkey. apply seen_ids_of_elem_of.
  exists d. split; [by apply calls_digests_mono|done].
Qed.

Lemma create_digest_candidates (s s1 : Session) (r : option Digest.t)
    (article_type article_id url title summary : string)
    (published_at : option datetime) (now : Z) :
  create_digest article_type article_id url title summary published_at now s
  = Ok (r, s1) →
  candidates s1 = candidates s.
Proof.
  rewrite (creates_eq _ _ _ _ _ _ s
             (create_digest_creates _ _ _ _ _ _ _)) by done.
  case_decide; by intros [= <- <-].
Qed.

(** X2: a call of [create_digest] for an item of one of the three sources
    takes that item out of the unified view and nothing else: the view
    afterwards holds the items it held before, but for the one with this
    source type and this id. *)
Theorem create_digest_removes_one (s s1 : Session) (r : option Digest.t)
    (article_type article_id url title summary : string)
    (published_at : option datetime) (now : Z) (a : Article.t) :
  digest_ids_derived s →
  article_type ∈ source_types →
  create_digest article_type article_id url title summary published_at now s
  = Ok (r, s1) →
  a ∈ get_articles_without_digest None s1 ↔
  a ∈ get_articles_without_digest None s
  ∧ ¬ (Article.type a = article_type ∧ Article.id a = article_id).
Proof.
  intros Hids Htype Hcreate.
  rewrite !get_articles_without_digest_candidates.
  rewrite (create_digest_candidates _ _ _ _ _ _ _ _ _ _ Hcreate).
  assert (Hkey : a ∈ candidates s →
    article_key a = digest_key article_type article_id ↔
    Article.type a = article_type ∧ Article.id a = article_id).
  { intros Ha%candidates_type. split.
    - by apply digest_key_source_inj.
    - unfold article_key. by intros [-> ->]. }
  assert (Hseen : ∀ k, k ∈ seen_ids_of s1 ↔
    k ∈ seen_ids_of s ∨ k = digest_key article_type article_id).
  { intros k. rewrite !seen_ids_of_elem_of.
    destruct (create_digest_seen _ _ _ _ _ _ _ _ _ _ Hids Hcreate)
      as (d0 & Hd0 & Hd0key).
    revert Hcreate Hd0.
    rewrite (creates_eq _ _ _ _ _ _ s
               (create_digest_creates _ _ _ _ _ _ _)) by done.
    case_decide as Hin; intros [= <- <-] Hd0.
    - split; [by left|]. intros [?| ->]; [done|]. by exists d0.
    - simpl. split.
      + intros (d & [Hd|Hd]%elem_of_app & <-); [left; by exists d|].
        apply list_elem_of_singleton in Hd as ->. by right.
      + intros [(d & Hd & <-)| ->].
        * exists d. split; [apply elem_of_app; by left|done].
        * eexists. split; [apply elem_of_app; right; apply list_elem_of_here|].
          done. }
  rewrite Hseen. split.
  - intros [Ha Hout]. split; [split; [done|tauto]|].
    rewrite <- (Hkey Ha). tauto.
  - intros [[Ha Hout] Hne]. split; [done|].
    rewrite (Hkey Ha). tauto.
Qed.

Lemma NoDup_key_inj {A} (key : A → string) (rows : list A) (x y : A) :
  NoDup (key <$> rows) → x ∈ rows → y ∈ rows → key x = key y → x = y.
Proof.
  induction rows as [|r rows IH]; [by intros _ ?%elem_of_nil|].
  rewrite fmap_cons, NoDup_cons.
  intros [Hr Hnodup] [->|Hx]%elem_of_cons [->|Hy]%elem_of_cons Hkey;
    [done| | |by apply IH].
  - destruct Hr. rewrite Hkey. by apply list_elem_of_fmap_2.
  - destruct Hr. rewrite <- Hkey. by apply list_elem_of_fmap_2.
Qed.

(** X3: no video is at the same time waiting for its transcript and
    offered for a digest. *)
Theorem waiting_video_is_not_offered (s : Session) (limit limit' : option Z)
    (a : Article.t) (v : YouTubeVideo.t) :
  unique_keys s →
  a ∈ get_articles_without_digest limit s →
  Article.type a = "youtube" →
  returns (get_youtube_videos_without_transcript limit' s) v →
  YouTubeVideo.video_id v ≠ Article.id a.
Proof.
  intros [Hnodup _ _ _] Ha Htype (l & Hl & Hv) Hid.
  apply limit_all_subseteq in Hl. apply Hl in Hv.
  apply list_elem_of_filter in Hv as [Hnone Hv].
  apply (get_articles_without_digest_subseteq limit _ a) in Ha.
  apply get_articles_without_digest_candidates in Ha as [Ha _].
  unfold candidates in Ha. rewrite !elem_of_app, !list_elem_of_fmap in Ha.
  destruct Ha as [(v0 & -> & Hv0)|[(r & -> & _)|(r & -> & _)]];
    [|discriminate Htype..].
  apply list_elem_of_filter in Hv0 as [[Hsome _] Hv0].
  by rewrite (NoDup_key_inj _ _ v v0 Hnodup Hv Hv0 Hid) in Hnone.
Qed.

(** X4: attaching a transcript that is a text (not empty, not the marker)
    to a stored video without a digest puts the video into the unified
    view, with the transcript as its content. *)
Theorem transcript_makes_video_pending (s : Session)
    (video_id transcript : string) :
  unique_keys s →
  digest_ids_derived s →
  (update_youtube_video_transcript video_id transcript s).1 = true →
  transcript ≠ "" →
  transcript ≠ UNAVAILABLE →
  digest_key "youtube" video_id ∉ Digest.id <$> digests s →
  ∃ a,
    a ∈ get_articles_without_digest None
          (update_youtube_video_transcript video_id transcript s).2
    ∧ Article.type a = "youtube"
    ∧ Article.id a = video_id
    ∧ Article.content a = transcript.
Proof.
  intros [Hnodup _ _ _] Hids Hupdated Hempty Hmarker Hfree. revert Hupdated.
  rewrite update_youtube_video_transcript_eq by done. cbn [fst snd].
  intros (v & -> & Hv)%bool_decide_eq_true_1%list_elem_of_fmap.
  exists (youtube_dict (YouTubeVideo.set_transcript (Some transcript) v)).
  split; [|repeat split].
  - apply get_articles_without_digest_candidates. split.
    + unfold candidates. cbn [youtube_videos set_youtube_videos].
      apply elem_of_app. left. apply list_elem_of_fmap_2.
      apply list_elem_of_filter. split.
      * simpl. split; [done|congruence].
      * apply list_elem_of_fmap. exists v. split; [|done].
        by rewrite decide_True.
    + rewrite seen_ids_of_elem_of. cbn [digests set_youtube_videos].
      intros (d & Hd & Hkey). apply Hfree. apply list_elem_of_fmap.
      exists d. split; [|done]. by rewrite (Hids d Hd), Hkey.
  - simpl. unfold str_or. by rewrite decide_False.
Qed.

(** X5: a limit makes [get_articles_without_digest] return a prefix of the
    whole view: its first [n] items for a positive [n], and all but its
    last [-n] items for a negative [n]. *)
Theorem get_articles_without_digest_limit (n : Z) (s : Session) :
  get_articles_without_digest (Some n) s
    `prefix_of` get_articles_without_digest None s
  ∧ length (get_articles_without_digest (Some n) s)
    = (let whole := length (get_articles_without_digest None s) in
       if decide (n = 0) then whole
       else if decide (0 < n) then (Z.to_nat n `min` whole)%nat
       else (whole - Z.to_nat (- n))%nat).
Proof.
  unfold get_articles_without_digest at 1 3. cbv zeta.
  fold (get_articles_without_digest None s).
  unfold truthy, slice_to. destruct (decide (n = 0)) as [->|Hzero].
  - change (bool_decide (0 ≠ 0)) with false. by cbv iota.
  - rewrite bool_decide_eq_true_2 by done. destruct (decide (0 < n)) as [Hpos|Hneg].
    + rewrite decide_True by lia. split; [apply prefix_take|].
      apply length_take.
    + rewrite decide_False by lia. split; [apply prefix_take|].
      rewrite length_take. lia.
Qed.

(** ** Enrichment: the missing row and the markdown *)

(** X6: an update for a key under which no row is stored returns [False]
    and leaves every table as it was. *)
Theorem update_missing_row (s : Session) (id value : string) :
  id ∉ YouTubeVideo.video_id <$> youtube_videos s →
  id ∉ AnthropicArticle.guid <$> anthropic_articles s →
  update_youtube_video_transcript id value s = (false, s)
  ∧ update_anthropic_article_markdown id value s = (false, s).
Proof.
  intros Hv%first_by_None Ha%first_by_None.
  unfold update_youtube_video_transcript, update_anthropic_article_markdown.
  by rewrite Hv, Ha.
Qed.

Lemma call_anthropic_articles (o : op) (s : Session) :
  (∀ k, k ∈ AnthropicArticle.guid <$> anthropic_articles s →
        k ∈ AnthropicArticle.guid <$> anthropic_articles (call o s))
  ∧ (∀ r, r ∈ anthropic_articles (call o s) →
          r ∈ anthropic_articles s
          ∨ AnthropicArticle.guid r
            ∉ AnthropicArticle.guid <$> anthropic_articles s
          ∨ AnthropicArticle.markdown r ≠ None).
Proof.
  assert (Hsame : ∀ s', anthropic_articles s' = anthropic_articles s →
    (∀ k, k ∈ AnthropicArticle.guid <$> anthropic_articles s →
          k ∈ AnthropicArticle.guid <$> anthropic_articles s')
    ∧ (∀ r, r ∈ anthropic_articles s' →
            r ∈ anthropic_articles s
            ∨ AnthropicArticle.guid r
              ∉ AnthropicArticle.guid <$> anthropic_articles s
            ∨ AnthropicArticle.markdown r ≠ None)).
  { intros s' ->. split; [done|]. intros r Hr. by left. }
  assert (Hmore : ∀ new : list AnthropicArticle.t,
    (∀ r, r ∈ new →
       AnthropicArticle.guid r
       ∉ AnthropicArticle.guid <$> anthropic_articles s) →
    (∀ k, k ∈ AnthropicArticle.guid <$> anthropic_articles s →
          k ∈ AnthropicArticle.guid <$> anthropic_articles s ++ new)
    ∧ (∀ r, r ∈ anthropic_articles s ++ new →
            r ∈ anthropic_articles s
            ∨ AnthropicArticle.guid r
              ∉ AnthropicArticle.guid <$> anthropic_articles s
            ∨ AnthropicArticle.markdown r ≠ None)).
  { intros new Hfresh. split.
    - intros k Hk. rewrite fmap_app, elem_of_app. by left.
    - intros r [Hr|Hr]%elem_of_app; [by left|]. right. left. by apply Hfresh. }
  destruct o; unfold call.
  - rewrite (creates_eq _ _ _ _ _ _ s
               (create_youtube_video_creates _ _ _ _ _ _ _)) by done.
    case_decide; by apply Hsame.
  - rewrite (creates_eq _ _ _ _ _ _ s
               (create_openai_article_creates _ _ _ _ _ _)) by done.
    case_decide; by apply Hsame.
  - rewrite (creates_eq _ _ _ _ _ _ s
               (create_anthropic_article_creates _ _ _ _ _ _)) by done.
    case_decide as Hin; simpl; [by apply Hsame|]. apply Hmore.
    by intros r ->%list_elem_of_singleton.
  - unfold bulk_create_youtube_videos.
    destruct (collect_new _ _ _ _) as [|n new]; [by apply Hsame|].
    destruct (add_all_commit _ _ _); by apply Hsame.
  - unfold bulk_create_openai_articles.
    destruct (collect_new _ _ _ _) as [|n new]; [by apply Hsame|].
    destruct (add_all_commit _ _ _); by apply Hsame.
  - unfold bulk_create_anthropic_articles.
    destruct (collect_new _ _ _ _) as [|n new] eqn:Hnew; [by apply Hsame|].
    destruct (add_all_commit _ _ _) as [rows|e] eqn:Hadd; simpl;
      [|by apply Hsame].
    apply add_all_commit_Ok in Hadd as [-> Hfresh]. by apply Hmore.
  - by apply Hsame.
  - unfold update_anthropic_article_markdown.
    destruct (first_by _ _ _); simpl; [|by apply Hsame]. split.
    + intros k Hk. by rewrite update_first_keys.
    + intros r [Hr|(r0 & Hr0 & _ & ->)]%update_first_elem_of; [by left|].
      right. right. done.
  - by apply Hsame.
  - unfold update_youtube_video_transcript.
    destruct (first_by _ _ _); by apply Hsame.
  - by apply Hsame.
  - rewrite (creates_eq _ _ _ _ _ _ s
               (create_digest_creates _ _ _ _ _ _ _)) by done.
    case_decide; by apply Hsame.
  - by apply Hsame.
Qed.

Lemma calls_converted (guid : string) (ops : list op) (s : Session) :
  converted guid s → converted guid (calls ops s).
Proof.
  unfold calls. revert s. induction ops as [|o ops IH]; intros s Hs; [done|].
  simpl. apply IH. destruct Hs as [Hin Hrows].
  destruct (call_anthropic_articles o s) as [Hkeys Hnew].
  split; [by apply Hkeys|]. intros r Hr Hid.
  destruct (Hnew r Hr) as [Hold|[Hfresh|Hsome]]; [by apply Hrows| |done].
  by rewrite Hid in Hfresh.
Qed.

(** X7: once [update_anthropic_article_markdown] has stored a markdown for
    an article, [get_anthropic_articles_without_markdown] does not return
    that article, whatever calls of the repository come in between and
    whatever the limit. *)
Theorem markdown_is_permanent (s : Session) (guid markdown : string)
    (ops : list op) (limit : option Z) (r : AnthropicArticle.t) :
  unique_keys s →
  (update_anthropic_article_markdown guid markdown s).1 = true →
  returns
    (get_anthropic_articles_without_markdown limit
       (calls ops (update_anthropic_article_markdown guid markdown s).2)) r →
  AnthropicArticle.guid r ≠ guid.
Proof.
  intros [_ _ Hnodup _] Hupdated (l & Hl & Hr) Hid.
  assert (Hconv : converted guid
            (calls ops (update_anthropic_article_markdown guid markdown s).2)).
  { apply calls_converted. revert Hupdated.
    rewrite update_anthropic_article_markdown_eq by done. cbn [fst snd].
    intros Hin%bool_decide_eq_true_1.
    unfold converted. cbn [anthropic_articles set_anthropic_articles]. split.
    - rewrite <- list_fmap_compose.
      apply list_elem_of_fmap in Hin as (r0 & -> & Hr0).
      apply list_elem_of_fmap. exists r0. split; [|done].
      simpl. by rewrite decide_True.
    - intros r' (r0 & -> & Hr0)%list_elem_of_fmap. case_decide; [done|].
      by intros ?. }
  apply limit_all_subseteq in Hl. apply Hl in Hr.
  apply list_elem_of_filter in Hr as [Hnone Hr].
  by apply (proj2 Hconv r Hr Hid).
Qed.

(** ** Bulk registration: composition *)

Lemma collect_new_twice {D A} (key : A → string) (mk : D → A)
    (rows : list A) (batch : list D) :
  collect_new key mk (rows ++ collect_new key mk rows batch) batch = [].
Proof.
  rewrite !collect_new_filter.
  match goal with |- mk <$> ?l = [] => assert (Hnil : l = []) end;
    [|by rewrite Hnil].
  apply elem_of_nil_inv. intros d [Hfresh Hd]%list_elem_of_filter.
  apply Hfresh. rewrite fmap_app, elem_of_app.
  destruct (decide (key (mk d) ∈ key <$> rows)) as [Hin|Hout]; [by left|].
  right. apply list_elem_of_fmap_2, list_elem_of_fmap_2.
  by apply list_elem_of_filter.
Qed.

(** X8: a batch that was registered registers nothing when it is handed in
    again: the second call returns [0] and leaves every table as it was. *)
Theorem bulk_create_again (s s1 s2 s3 : Session) (n1 n2 n3 : nat)
    (videos : list VideoDict.t) (articles : list ArticleDict.t) :
  bulk_create_youtube_videos videos s = Ok (n1, s1) →
  bulk_create_openai_articles articles s = Ok (n2, s2) →
  bulk_create_anthropic_articles articles s = Ok (n3, s3) →
  bulk_create_youtube_videos videos s1 = Ok (0%nat, s1)
  ∧ bulk_create_openai_articles articles s2 = Ok (0%nat, s2)
  ∧ bulk_create_anthropic_articles articles s3 = Ok (0%nat, s3).
Proof.
  unfold bulk_create_youtube_videos, bulk_create_openai_articles,
    bulk_create_anthropic_articles.
  intros H1 H2 H3. split; [|split].
  - clear H2 H3.
    destruct (collect_new _ _ (youtube_videos s) _) as [|n new] eqn:Hnew.
    + injection H1 as <- <-. by rewrite Hnew.
    + destruct (add_all_commit _ _ _) as [rows|e] eqn:Hadd; [|done].
      apply add_all_commit_Ok in Hadd as [-> _]. injection H1 as <- <-.
      cbn [youtube_videos set_youtube_videos].
      by rewrite <- Hnew, collect_new_twice.
  - clear H1 H3.
    destruct (collect_new _ _ (openai_articles s) _) as [|n new] eqn:Hnew.
    + injection H2 as <- <-. by rewrite Hnew.
    + destruct (add_all_commit _ _ _) as [rows|e] eqn:Hadd; [|done].
      apply add_all_commit_Ok in Hadd as [-> _]. injection H2 as <- <-.
      cbn [openai_articles set_openai_articles].
      by rewrite <- Hnew, collect_new_twice.
  - clear H1 H2.
    destruct (collect_new _ _ (anthropic_articles s) _) as [|n new] eqn:Hnew.
    + injection H3 as <- <-. by rewrite Hnew.
    + destruct (add_all_commit _ _ _) as [rows|e] eqn:Hadd; [|done].
      apply add_all_commit_Ok in Hadd as [-> _]. injection H3 as <- <-.
      cbn [anthropic_articles set_anthropic_articles].
      by rewrite <- Hnew, collect_new_twice.
Qed.

Lemma filter_ext_elem_of {A} (P Q : A → Prop) `{!∀ x, Decision (P x)}
    `{!∀ x, Decision (Q x)} (l : list A) :
  (∀ x, x ∈ l → P x ↔ Q x) → filter P l = filter Q l.
Proof.
  induction l as [|x l IH]; intros Hext; [done|].
  rewrite !filter_cons, IH.
  - destruct (decide (P x)) as [HP|HP], (decide (Q x)) as [HQ|HQ];
      try done; destruct (Hext x (list_elem_of_here _ _)); tauto.
  - intros y Hy. apply Hext. by apply list_elem_of_further.
Qed.

Lemma calls_create_of_dict (videos : list VideoDict.t) (s : Session) :
  NoDup (VideoDict.video_id <$> videos) →
  calls (create_of_dict <$> videos) s
  = set_youtube_videos
      (youtube_videos s
       ++ (video_of_dict <$>
             filter (λ v, VideoDict.video_id v
                          ∉ YouTubeVideo.video_id <$> youtube_videos s)
               videos)) s.
Proof.
  revert s. induction videos as [|v videos IH]; intros s.
  - intros _. unfold calls. simpl.
    by rewrite app_nil_r, set_youtube_videos_id.
  - rewrite fmap_cons, NoDup_cons. intros [Hv Hnodup].
    unfold calls in *. rewrite fmap_cons. cbn [foldl]. rewrite (IH _ Hnodup).
    unfold call, create_of_dict.
    rewrite (creates_eq _ _ _ _ _ _ s
               (create_youtube_video_creates _ _ _ _ _ _ _)) by done.
    rewrite filter_cons. case_decide as Hin.
    + cbn [state_after]. by rewrite decide_False by tauto.
    + cbn [state_after]. rewrite decide_True by done.
      cbn [youtube_videos set_youtube_videos]. destruct s as [rows o a d].
      unfold set_youtube_videos. simpl. f_equal.
      rewrite <- app_assoc. f_equal. simpl. f_equal. f_equal.
      apply filter_ext_elem_of. intros v' Hv'.
      rewrite fmap_app, elem_of_app. simpl. rewrite list_elem_of_singleton.
      split; [tauto|]. intros Hout [?|Heq]; [done|].
      apply Hv. rewrite <- Heq. by apply list_elem_of_fmap_2.
Qed.

(** X9: a batch whose video ids differ from one another leaves the store
    as the calls of [create_youtube_video] for its items, one after the
    other, leave it. *)
Theorem bulk_create_is_sequential (videos : list VideoDict.t) (s : Session) :
  NoDup (VideoDict.video_id <$> videos) →
  ∃ n, bulk_create_youtube_videos videos s
       = Ok (n, calls (create_of_dict <$> videos) s).
Proof.
  intros Hnodup. eexists.
  rewrite (bulk_create_youtube_videos_distinct videos s Hnodup).
  by rewrite calls_create_of_dict.
Qed.

(** ** The recency read path: composition *)

Global Instance digest_dict_inj : Inj (=) (=) digest_dict.
Proof.
  intros [] []. unfold digest_dict. simpl. by intros [= -> -> -> -> -> -> ->].
Qed.

Lemma get_recent_digests_returns (hours now : Z) (s : Session)
    (d : Digest.t) :
  datetime_ok now →
  datetime_ok (now - hours * microseconds_per_hour) →
  returns (get_recent_digests hours now s) (digest_dict d) ↔
  d ∈ digests s
  ∧ now - hours * microseconds_per_hour ≤ instant (Digest.created_at d).
Proof.
  intros Hnow Hcutoff. unfold returns.
  rewrite get_recent_digests_in_range by done. split.
  - intros (l & [= <-] & Hd).
    apply (list_elem_of_fmap_inj digest_dict) in Hd.
    rewrite merge_sort_Permutation in Hd.
    apply list_elem_of_filter in Hd. tauto.
  - intros [Hd Hle]. eexists. split; [done|].
    apply list_elem_of_fmap_2. rewrite merge_sort_Permutation.
    by apply list_elem_of_filter.
Qed.

(** X11: a longer window returns every digest that a shorter window
    returns, for the same reading of the clock. *)
Theorem get_recent_digests_monotone (hours hours' now : Z) (s : Session)
    (d : DigestDict.t) :
  hours ≤ hours' →
  datetime_ok now →
  datetime_ok (now - hours * microseconds_per_hour) →
  datetime_ok (now - hours' * microseconds_per_hour) →
  returns (get_recent_digests hours now s) d →
  returns (get_recent_digests hours' now s) d.
Proof.
  intros Hle Hnow Hcutoff Hcutoff' Hd.
  assert (∃ d0, d = digest_dict d0) as [d0 ->].
  { destruct Hd as (l & Hl & Hd).
    rewrite get_recent_digests_in_range in Hl by done. injection Hl as <-.
    apply list_elem_of_fmap in Hd as (d0 & -> & _). by exists d0. }
  apply get_recent_digests_returns in Hd as [Hd Hin]; [|done..].
  apply get_recent_digests_returns; [done..|]. split; [done|].
  unfold microseconds_per_hour in *. lia.
Qed.

(** X12: with unique digest ids in the ledger, [get_recent_digests]
    returns no digest id twice, and no more digests than are stored. *)
Theorem get_recent_digests_no_duplicates (hours now : Z) (s : Session)
    (l : list DigestDict.t) :
  unique_keys s →
  get_recent_digests hours now s = Ok l →
  NoDup (DigestDict.id <$> l) ∧ (length l ≤ length (digests s))%nat.
Proof.
  intros [_ _ _ Hnodup]. unfold get_recent_digests.
  destruct (timedelta_hours hours) as [delta|e]; [|done].
  cbn [mbind result_bind].
  destruct (datetime_sub now delta) as [cutoff_time|e]; [|done].
  cbn [mbind result_bind]. intros [= <-]. split.
  - rewrite <- list_fmap_compose.
    change (DigestDict.id ∘ digest_dict) with Digest.id.
    rewrite merge_sort_Permutation.
    eapply sublist_NoDup; [exact Hnodup|]. apply fmap_sublist, sublist_filter.
  - rewrite length_fmap, merge_sort_Permutation. apply length_filter.
Qed.

Lemma instant_replace_tzinfo_utc (dt : datetime) :
  tzinfo dt = None → instant (replace_tzinfo_utc dt) = instant dt.
Proof. unfold instant, replace_tzinfo_utc. simpl. by intros ->. Qed.

(** X13: a digest that [create_digest] has just stored is returned by
    [get_recent_digests] exactly when the publication time it was given
    (read as UTC when it is naive), or else the reading of the clock at its
    creation, is at or after the cutoff of the window. *)
Theorem created_digest_is_recent (s s1 : Session) (d : Digest.t)
    (article_type article_id url title summary : string)
    (published_at : option datetime) (now hours now' : Z) :
  create_digest article_type article_id url title summary published_at now s
  = Ok (Some d, s1) →
  datetime_ok now' →
  datetime_ok (now' - hours * microseconds_per_hour) →
  returns (get_recent_digests hours now' s1) (digest_dict d) ↔
  now' - hours * microseconds_per_hour
  ≤ match published_at with
    | Some published_at => instant published_at
    | None => now
    end.
Proof.
  rewrite (creates_eq _ _ _ _ _ _ s
             (create_digest_creates _ _ _ _ _ _ _)) by done.
  case_decide as Hin; [done|]. intros [= <- <-] Hnow Hcutoff.
  rewrite get_recent_digests_returns by done.
  cbn [digests set_digests Digest.created_at].
  assert (Hinstant :
    instant
      match published_at with
      | Some published_at =>
          if tzinfo published_at is Some _ then published_at
          else replace_tzinfo_utc published_at
      | None => now_utc now
      end
    = match published_at with
      | Some published_at => instant published_at
      | None => now
      end).
  { destruct published_at as [p|].
    - destruct (tzinfo p) eqn:Htz; [done|]. by apply instant_replace_tzinfo_utc.
    - unfold instant, now_utc. simpl. lia. }
  rewrite Hinstant. split; [tauto|]. intros Hle. split; [|done].
  apply elem_of_app. right. apply list_elem_of_here.
Qed.

(** ** The composed calls on the fixtures *)

Lemma digested_fixture_created :
  create_digest "youtube" "v2" "v2" "digest title" "summary" None clock_2026
    readiness_fixture
  = Ok (Some (digest_fixture "youtube" "v2" (now_utc clock_2026)),
        digested_fixture).
Proof. vm_compute. reflexivity. Qed.

Lemma digest_is_permanent_witness :
  digest_ids_derived readiness_fixture
  ∧ create_digest "youtube" "v2" "v2" "digest title" "summary" None
      clock_2026 readiness_fixture
    = Ok (Some (digest_fixture "youtube" "v2" (now_utc clock_2026)),
          digested_fixture)
  ∧ openai_dict (openai_fixture "a1")
    ∈ get_articles_without_digest None
        (calls later_calls_fixture digested_fixture)
  ∧ article_key (openai_dict (openai_fixture "a1"))
    ≠ digest_key "youtube" "v2".
Proof.
  assert (Hin : openai_dict (openai_fixture "a1")
                ∈ get_articles_without_digest None
                    (calls later_calls_fixture digested_fixture))
    by (apply (bool_decide_unpack _); vm_compute; exact I).
  split; [exact readiness_fixture_ids|].
  split; [exact digested_fixture_created|]. split; [exact Hin|].
  exact (digest_is_permanent readiness_fixture digested_fixture
           (Some (digest_fixture "youtube" "v2" (now_utc clock_2026)))
           "youtube" "v2" "v2" "digest title" "summary" None clock_2026
           later_calls_fixture None (openai_dict (openai_fixture "a1"))
           readiness_fixture_ids digested_fixture_created Hin).
Defined.

Lemma create_digest_removes_one_witness :
  digest_ids_derived readiness_fixture
  ∧ "youtube" ∈ source_types
  ∧ create_digest "youtube" "v2" "v2" "digest title" "summary" None
      clock_2026 readiness_fixture
    = Ok (Some (digest_fixture "youtube" "v2" (now_utc clock_2026)),
          digested_fixture)
  ∧ (youtube_dict (video_fixture "v2" "d" (Some "transcript text"))
     ∈ get_articles_without_digest None digested_fixture ↔
     youtube_dict (video_fixture "v2" "d" (Some "transcript text"))
     ∈ get_articles_without_digest None readiness_fixture
     ∧ ¬ (Article.type
            (youtube_dict (video_fixture "v2" "d" (Some "transcript text")))
          = "youtube"
          ∧ Article.id
              (youtube_dict (video_fixture "v2" "d" (Some "transcript text")))
            = "v2")).
Proof.
  assert (Htype : "youtube" ∈ source_types) by apply list_elem_of_here.
  split; [exact readiness_fixture_ids|]. split; [exact Htype|].
  split; [exact digested_fixture_created|].
  exact (create_digest_removes_one readiness_fixture digested_fixture
           (Some (digest_fixture "youtube" "v2" (now_utc clock_2026)))
           "youtube" "v2" "v2" "digest title" "summary" None clock_2026
           (youtube_dict (video_fixture "v2" "d" (Some "transcript text")))
           readiness_fixture_ids Htype digested_fixture_created).
Defined.

Lemma waiting_video_is_not_offered_witness :
  unique_keys readiness_fixture
  ∧ youtube_dict (video_fixture "v2" "d" (Some "transcript text"))
    ∈ get_articles_without_digest None readiness_fixture
  ∧ Article.type
      (youtube_dict (video_fixture "v2" "d" (Some "transcript text")))
    = "youtube"
  ∧ returns (get_youtube_videos_without_transcript None readiness_fixture)
      (video_fixture "v0" "d" None)
  ∧ YouTubeVideo.video_id (video_fixture "v0" "d" None)
    ≠ Article.id
        (youtube_dict (video_fixture "v2" "d" (Some "transcript text"))).
Proof.
  assert (Hin : youtube_dict (video_fixture "v2" "d" (Some "transcript text"))
                ∈ get_articles_without_digest None readiness_fixture)
    by (apply (bool_decide_unpack _); vm_compute; exact I).
  assert (Hret : returns
            (get_youtube_videos_without_transcript None readiness_fixture)
            (video_fixture "v0" "d" None)).
  { eexists. split; [reflexivity|]. apply list_elem_of_here. }
  split; [exact readiness_fixture_unique|]. split; [exact Hin|].
  split; [reflexivity|]. split; [exact Hret|].
  exact (waiting_video_is_not_offered readiness_fixture None None
           (youtube_dict (video_fixture "v2" "d" (Some "transcript text")))
           (video_fixture "v0" "d" None)
           readiness_fixture_unique Hin eq_refl Hret).
Defined.

Lemma transcript_makes_video_pending_witness :
  unique_keys readiness_fixture
  ∧ digest_ids_derived readiness_fixture
  ∧ (update_youtube_video_transcript "v0" "fresh transcript"
       readiness_fixture).1 = true
  ∧ "fresh transcript" ≠ ""
  ∧ "fresh transcript" ≠ UNAVAILABLE
  ∧ (digest_key "youtube" "v0" ∉ Digest.id <$> digests readiness_fixture)
  ∧ ∃ a,
      a ∈ get_articles_without_digest None
            (update_youtube_video_transcript "v0" "fresh transcript"
               readiness_fixture).2
      ∧ Article.type a = "youtube"
      ∧ Article.id a = "v0"
      ∧ Article.content a = "fresh transcript".
Proof.
  assert (Hempty : "fresh transcript" ≠ "") by discriminate.
  assert (Hmarker : "fresh transcript" ≠ UNAVAILABLE) by discriminate.
  assert (Hfree : digest_key "youtube" "v0"
                  ∉ Digest.id <$> digests readiness_fixture)
    by (apply (bool_decide_unpack _); vm_compute; exact I).
  split; [exact readiness_fixture_unique|].
  split; [exact readiness_fixture_ids|]. split; [reflexivity|].
  split; [exact Hempty|]. split; [exact Hmarker|]. split; [exact Hfree|].
  exact (transcript_makes_video_pending readiness_fixture "v0"
           "fresh transcript" readiness_fixture_unique readiness_fixture_ids
           eq_refl Hempty Hmarker Hfree).
Defined.

Lemma update_missing_row_witness :
  ("zz" ∉ YouTubeVideo.video_id <$> youtube_videos readiness_fixture)
  ∧ ("zz" ∉ AnthropicArticle.guid <$> anthropic_articles readiness_fixture)
  ∧ update_youtube_video_transcript "zz" "text" readiness_fixture
    = (false, readiness_fixture)
  ∧ update_anthropic_article_markdown "zz" "text" readiness_fixture
    = (false, readiness_fixture).
Proof.
  assert (Hv : "zz" ∉ YouTubeVideo.video_id <$> youtube_videos readiness_fixture)
    by (apply (bool_decide_unpack _); vm_compute; exact I).
  assert (Ha : "zz"
               ∉ AnthropicArticle.guid <$> anthropic_articles readiness_fixture)
    by (apply (bool_decide_unpack _); vm_compute; exact I).
  split; [exact Hv|]. split; [exact Ha|].
  exact (update_missing_row readiness_fixture "zz" "text" Hv Ha).
Defined.

Lemma markdown_is_permanent_witness :
  unique_keys readiness_fixture
  ∧ (update_anthropic_article_markdown "b0" "# document" readiness_fixture).1
    = true
  ∧ returns
      (get_anthropic_articles_without_markdown None
         (calls later_markdown_calls_fixture
            (update_anthropic_article_markdown "b0" "# document"
               readiness_fixture).2))
      (anthropic_of_dict (article_dict_fixture "n1"))
  ∧ AnthropicArticle.guid (anthropic_of_dict (article_dict_fixture "n1"))
    ≠ "b0".
Proof.
  assert (Hret : returns
            (get_anthropic_articles_without_markdown None
               (calls later_markdown_calls_fixture
                  (update_anthropic_article_markdown "b0" "# document"
                     readiness_fixture).2))
            (anthropic_of_dict (article_dict_fixture "n1"))).
  { eexists. split; [vm_compute; reflexivity|]. apply list_elem_of_here. }
  split; [exact readiness_fixture_unique|]. split; [reflexivity|].
  split; [exact Hret|].
  exact (markdown_is_permanent readiness_fixture "b0" "# document"
           later_markdown_calls_fixture None
           (anthropic_of_dict (article_dict_fixture "n1"))
           readiness_fixture_unique eq_refl Hret).
Defined.

Lemma bulk_create_again_witness :
  bulk_create_youtube_videos batch_fixture readiness_fixture
  = Ok (2%nat,
        set_youtube_videos
          (youtube_videos readiness_fixture
           ++ [ video_of_dict (video_dict_fixture "n1");
                video_of_dict (video_dict_fixture "n2") ]) readiness_fixture)
  ∧ bulk_create_openai_articles
      [ article_dict_fixture "a1"; article_dict_fixture "n1" ]
      readiness_fixture
    = Ok (1%nat,
          set_openai_articles
            (openai_articles readiness_fixture
             ++ [ openai_of_dict (article_dict_fixture "n1") ])
            readiness_fixture)
  ∧ bulk_create_anthropic_articles
      [ article_dict_fixture "a1"; article_dict_fixture "n1" ]
      readiness_fixture
    = Ok (2%nat,
          set_anthropic_articles
            (anthropic_articles readiness_fixture
             ++ [ anthropic_of_dict (article_dict_fixture "a1");
                  anthropic_of_dict (article_dict_fixture "n1") ])
            readiness_fixture)
  ∧ bulk_create_youtube_videos batch_fixture
      (set_youtube_videos
         (youtube_videos readiness_fixture
          ++ [ video_of_dict (video_dict_fixture "n1");
               video_of_dict (video_dict_fixture "n2") ]) readiness_fixture)
    = Ok (0%nat,
          set_youtube_videos
            (youtube_videos readiness_fixture
             ++ [ video_of_dict (video_dict_fixture "n1");
                  video_of_dict (video_dict_fixture "n2") ]) readiness_fixture)
  ∧ bulk_create_openai_articles
      [ article_dict_fixture "a1"; article_dict_fixture "n1" ]
      (set_openai_articles
         (openai_articles readiness_fixture
          ++ [ openai_of_dict (article_dict_fixture "n1") ])
         readiness_fixture)
    = Ok (0%nat,
          set_openai_articles
            (openai_articles readiness_fixture
             ++ [ openai_of_dict (article_dict_fixture "n1") ])
            readiness_fixture)
  ∧ bulk_create_anthropic_articles
      [ article_dict_fixture "a1"; article_dict_fixture "n1" ]
      (set_anthropic_articles
         (anthropic_articles readiness_fixture
          ++ [ anthropic_of_dict (article_dict_fixture "a1");
               anthropic_of_dict (article_dict_fixture "n1") ])
         readiness_fixture)
    = Ok (0%nat,
          set_anthropic_articles
            (anthropic_articles readiness_fixture
             ++ [ anthropic_of_dict (article_dict_fixture "a1");
                  anthropic_of_dict (article_dict_fixture "n1") ])
            readiness_fixture).
Proof.
  split; [vm_compute; reflexivity|]. split; [vm_compute; reflexivity|].
  split; [vm_compute; reflexivity|].
  apply (bulk_create_again readiness_fixture _ _ _ 2 1 2 batch_fixture
           [ article_dict_fixture "a1"; article_dict_fixture "n1" ]);
    vm_compute; reflexivity.
Defined.

Lemma batch_fixture_distinct : NoDup (VideoDict.video_id <$> batch_fixture).
Proof. by apply (bool_decide_unpack _). Qed.

Lemma bulk_create_is_sequential_witness :
  NoDup (VideoDict.video_id <$> batch_fixture)
  ∧ ∃ n, bulk_create_youtube_videos batch_fixture readiness_fixture
         = Ok (n, calls (create_of_dict <$> batch_fixture) readiness_fixture).
Proof.
  split; [exact batch_fixture_distinct|].
  exact (bulk_create_is_sequential batch_fixture readiness_fixture
           batch_fixture_distinct).
Defined.

Lemma ledger_fixture_day_ok :
  datetime_ok (clock_2026 - 24 * microseconds_per_hour).
Proof. by apply (bool_decide_unpack _). Qed.

Lemma get_recent_digests_monotone_witness :
  1 ≤ 24
  ∧ datetime_ok clock_2026
  ∧ datetime_ok (clock_2026 - 1 * microseconds_per_hour)
  ∧ datetime_ok (clock_2026 - 24 * microseconds_per_hour)
  ∧ returns (get_recent_digests 1 clock_2026 ledger_fixture)
      (digest_dict
         (digest_fixture "openai" "a1"
            (now_utc (clock_2026 + 5 * microseconds_per_hour))))
  ∧ returns (get_recent_digests 24 clock_2026 ledger_fixture)
      (digest_dict
         (digest_fixture "openai" "a1"
            (now_utc (clock_2026 + 5 * microseconds_per_hour)))).
Proof.
  assert (Hhour : datetime_ok (clock_2026 - 1 * microseconds_per_hour))
    by by apply (bool_decide_unpack _).
  assert (Hret : returns (get_recent_digests 1 clock_2026 ledger_fixture)
            (digest_dict
               (digest_fixture "openai" "a1"
                  (now_utc (clock_2026 + 5 * microseconds_per_hour))))).
  { eexists. split; [vm_compute; reflexivity|]. apply list_elem_of_here. }
  split; [lia|]. split; [exact clock_2026_ok|]. split; [exact Hhour|].
  split; [exact ledger_fixture_day_ok|]. split; [exact Hret|].
  apply (get_recent_digests_monotone 1 24 clock_2026 ledger_fixture);
    [lia|exact clock_2026_ok|exact Hhour|exact ledger_fixture_day_ok
    |exact Hret].
Defined.

Lemma ledger_fixture_unique : unique_keys ledger_fixture.
Proof. split; by apply (bool_decide_unpack _). Qed.

Lemma get_recent_digests_no_duplicates_witness :
  unique_keys ledger_fixture
  ∧ get_recent_digests 24 clock_2026 ledger_fixture
    = Ok [ digest_dict
             (digest_fixture "openai" "a1"
                (now_utc (clock_2026 + 5 * microseconds_per_hour)));
           digest_dict (digest_fixture "youtube" "v2" published_2026) ]
  ∧ NoDup
      (DigestDict.id <$>
         [ digest_dict
             (digest_fixture "openai" "a1"
                (now_utc (clock_2026 + 5 * microseconds_per_hour)));
           digest_dict (digest_fixture "youtube" "v2" published_2026) ])
  ∧ (length
       [ digest_dict
           (digest_fixture "openai" "a1"
              (now_utc (clock_2026 + 5 * microseconds_per_hour)));
         digest_dict (digest_fixture "youtube" "v2" published_2026) ]
     ≤ length (digests ledger_fixture))%nat.
Proof.
  split; [exact ledger_fixture_unique|]. split; [exact ledger_fixture_recent|].
  exact (get_recent_digests_no_duplicates 24 clock_2026 ledger_fixture _
           ledger_fixture_unique ledger_fixture_recent).
Defined.

Lemma created_digest_is_recent_witness :
  create_digest "youtube" "v2" "v2" "digest title" "summary" None clock_2026
    readiness_fixture
  = Ok (Some (digest_fixture "youtube" "v2" (now_utc clock_2026)),
        digested_fixture)
  ∧ datetime_ok clock_2026
  ∧ datetime_ok (clock_2026 - 24 * microseconds_per_hour)
  ∧ (returns (get_recent_digests 24 clock_2026 digested_fixture)
       (digest_dict (digest_fixture "youtube" "v2" (now_utc clock_2026))) ↔
     clock_2026 - 24 * microseconds_per_hour ≤ clock_2026).
Proof.
  split; [exact digested_fixture_created|]. split; [exact clock_2026_ok|].
  split; [exact ledger_fixture_day_ok|].
  exact (created_digest_is_recent readiness_fixture digested_fixture
           (digest_fixture "youtube" "v2" (now_utc clock_2026))
           "youtube" "v2" "v2" "digest title" "summary" None clock_2026 24
           clock_2026 digested_fixture_created clock_2026_ok
           ledger_fixture_day_ok).
Defined.

(** * The scrapers *)

(** ** Strings *)

Lemma append_nil (b : string) : "" +:+ b = b.
Proof. reflexivity. Qed.

Lemma append_cons (c : Ascii.ascii) (a b : string) :
  String c a +:+ b = String c (a +:+ b).
Proof. reflexivity. Qed.

Lemma append_assoc (a b c : string) : (a +:+ b) +:+ c = a +:+ (b +:+ c).
Proof.
  induction a as [|x a IH]; [done|]. rewrite !append_cons. by f_equal.
Qed.

Lemma prefix_app (a b : string) : starts_with a (a +:+ b) = true.
Proof.
  induction a as [|x a IH]; [done|]. rewrite append_cons. simpl.
  by rewrite Ascii.eqb_refl.
Qed.

Lemma prefix_app_r (p x y : string) :
  starts_with p x = true → starts_with p (x +:+ y) = true.
Proof.
  revert x. induction p as [|c p IH]; intros x; [done|].
  destruct x as [|d x]; [done|]. rewrite append_cons. simpl.
  destruct (Ascii.eqb c d); [apply IH|done].
Qed.

Lemma prefix_skip_chars (p s : string) :
  starts_with p s = true → s = p +:+ skip_chars (String.length p) s.
Proof.
  revert s. induction p as [|c p IH]; intros s; [done|].
  destruct s as [|d s]; [done|]. simpl.
  destruct (Ascii.eqb_spec c d) as [->|]; [|done].
  intros Hp. rewrite append_cons. by rewrite <- (IH s Hp).
Qed.

Lemma cut_Some_app (sep s a b : string) :
  cut sep s = Some (a, b) → s = a +:+ sep +:+ b.
Proof.
  revert a. induction s as [|c s IH]; intros a; simpl.
  - destruct (starts_with sep "") eqn:Hp; [|done].
    intros [= <- <-]. by apply prefix_skip_chars in Hp.
  - destruct (starts_with sep (String c s)) eqn:Hp.
    + intros [= <- <-]. by apply prefix_skip_chars in Hp.
    + destruct (cut sep s) as [[a' b']|] eqn:Hcut; [|done].
      intros [= <- <-]. simpl. rewrite append_cons. by rewrite <- (IH a').
Qed.

Lemma contains_occurrence (sep p y : string) :
  contains sep (p +:+ sep +:+ y) = true.
Proof.
  unfold contains. induction p as [|c p IH].
  - rewrite append_nil. destruct (sep +:+ y) as [|d r] eqn:Heq; simpl.
    + destruct sep; [done|discriminate Heq].
    + rewrite <- Heq, prefix_app. done.
  - rewrite append_cons. simpl.
    destruct (starts_with sep (String c (p +:+ sep +:+ y))); [done|].
    by destruct (cut sep (p +:+ sep +:+ y)).
Qed.

(** A text that holds [a +:+ b] holds [b]. *)
Lemma contains_app_r (a b s : string) :
  contains (a +:+ b) s = true → contains b s = true.
Proof.
  unfold contains at 1.
  destruct (cut (a +:+ b) s) as [[x y]|] eqn:Hcut; [|done]. intros _.
  apply cut_Some_app in Hcut as ->.
  rewrite append_assoc, <- (append_assoc x a). apply contains_occurrence.
Qed.

(** The text before the first occurrence of a separator does not hold the
    separator. *)
Lemma cut_before (sep s a b : string) :
  sep ≠ "" → cut sep s = Some (a, b) → contains sep a = false.
Proof.
  intros Hsep. unfold contains. revert a.
  induction s as [|c s IH]; intros a; simpl.
  - destruct (starts_with sep "") eqn:Hp; [|done].
    by destruct sep.
  - destruct (starts_with sep (String c s)) eqn:Hp.
    + intros [= <- <-]. simpl. by destruct sep.
    + destruct (cut sep s) as [[a' b']|] eqn:Hcut; [|done].
      intros [= <- <-]. simpl.
      destruct (starts_with sep (String c a')) eqn:Hp'.
      * apply cut_Some_app in Hcut as ->.
        apply (prefix_app_r _ _ (sep +:+ b')) in Hp'.
        rewrite append_cons in Hp'. congruence.
      * specialize (IH a' eq_refl). by destruct (cut sep a').
Qed.

Lemma split_fuel_head (fuel : nat) (sep s : string) :
  ∃ x l, split_fuel fuel sep s = x :: l.
Proof.
  destruct fuel as [|fuel]; simpl; [by eexists _, _|].
  destruct (cut sep s) as [[a b]|]; by eexists _, _.
Qed.

Lemma item_split_0 (sep s : string) :
  item (split sep s) 0
  = Done (match cut sep s with Some (a, _) => a | None => s end).
Proof. unfold split, item. simpl. by destruct (cut sep s) as [[a b]|]. Qed.

Lemma item_split_1 (sep s a b : string) :
  sep ≠ "" → cut sep s = Some (a, b) →
  item (split sep s) 1
  = Done (match cut sep b with Some (x, _) => x | None => b end).
Proof.
  intros Hsep Hcut. unfold split, item.
  destruct s as [|c s]; [simpl in Hcut; by destruct sep|].
  cbn [String.length split_fuel]. rewrite Hcut. simpl.
  by destruct (cut sep b) as [[x y]|].
Qed.

Lemma item_split_0_no_sep (sep s x : string) :
  sep ≠ "" → item (split sep s) 0 = Done x → contains sep x = false.
Proof.
  intros Hsep. rewrite item_split_0.
  destruct (cut sep s) as [[a b]|] eqn:Hcut; intros [= <-].
  - by apply (cut_before sep s a b).
  - unfold contains. by rewrite Hcut.
Qed.

(** ** The video id *)

Lemma second_part_total (p sep url : string) :
  sep ≠ "" → contains (p +:+ sep) url = true →
  ∃ part, item (split sep url) 1 = Done part.
Proof.
  intros Hsep Hin%contains_app_r. unfold contains in Hin.
  destruct (cut sep url) as [[a b]|] eqn:Hcut; [|done].
  eexists. by apply (item_split_1 sep url a b).
Qed.

(** X14: [_extract_video_id] answers for every URL: the index [1] it takes
    of a split is never out of range. *)
Theorem extract_video_id_total (video_url : string) :
  ∃ video_id, YouTubeScraper._extract_video_id video_url = Done video_id.
Proof.
  unfold YouTubeScraper._extract_video_id.
  destruct (contains "youtube.com/watch?v=" video_url) eqn:Hwatch.
  { destruct (second_part_total "youtube.com/watch?" "v=" video_url)
      as [part ->]; [done..|].
    simpl. rewrite item_split_0. by eexists. }
  destruct (contains "youtube.com/shorts/" video_url) eqn:Hshorts.
  { destruct (second_part_total "youtube.com/" "shorts/" video_url)
      as [part ->]; [done..|].
    simpl. rewrite item_split_0. by eexists. }
  destruct (contains "youtu.be/" video_url) eqn:Hshort.
  { destruct (second_part_total "" "youtu.be/" video_url)
      as [part ->]; [done..|].
    simpl. rewrite item_split_0. by eexists. }
  by eexists.
Qed.

(** X15: the id that [_extract_video_id] takes from a URL of one of the
    three shapes holds no query: no ["&"] for a watch URL, no ["?"] for a
    shorts URL or a short link. A URL of none of the shapes is returned as
    it is. *)
Theorem extract_video_id_no_query (video_url video_id : string) :
  YouTubeScraper._extract_video_id video_url = Done video_id →
  if contains "youtube.com/watch?v=" video_url
  then contains "&" video_id = false
  else if contains "youtube.com/shorts/" video_url
          || contains "youtu.be/" video_url
       then contains "?" video_id = false
       else video_id = video_url.
Proof.
  unfold YouTubeScraper._extract_video_id.
  destruct (contains "youtube.com/watch?v=" video_url).
  { destruct (item (split "v=" video_url) 1) as [part|]; [|done]. simpl.
    by apply item_split_0_no_sep. }
  destruct (contains "youtube.com/shorts/" video_url).
  { destruct (item (split "shorts/" video_url) 1) as [part|]; [|done]. simpl.
    by apply item_split_0_no_sep. }
  destruct (contains "youtu.be/" video_url).
  { destruct (item (split "youtu.be/" video_url) 1) as [part|]; [|done]. simpl.
    by apply item_split_0_no_sep. }
  simpl. by intros [= <-].
Qed.

Lemma contains_false_cut (sep s : string) :
  contains sep s = false → cut sep s = None.
Proof. unfold contains. by destruct (cut sep s). Qed.

(** X16: the id put into a watch URL or into a short link comes back, when
    it holds none of the texts the function splits at. *)
Theorem extract_video_id_round_trip (video_id : string) :
  contains "v=" video_id = false →
  contains "&" video_id = false →
  contains "?" video_id = false →
  contains "youtu.be/" video_id = false →
  contains "youtube.com/" video_id = false →
  YouTubeScraper._extract_video_id
    ("https://www.youtube.com/watch?v=" +:+ video_id) = Done video_id
  ∧ YouTubeScraper._extract_video_id ("https://youtu.be/" +:+ video_id)
    = Done video_id.
Proof.
  intros Hv%contains_false_cut Hamp%contains_false_cut
    Hq%contains_false_cut Hbe%contains_false_cut Hcom.
  assert (Hwatch : contains "youtube.com/watch?v=" video_id = false).
  { destruct (contains "youtube.com/watch?v=" video_id) eqn:Hin; [|done].
    change "youtube.com/watch?v=" with ("youtube.com/" +:+ "watch?v=") in Hin.
    destruct (cut ("youtube.com/" +:+ "watch?v=") video_id) as [[x y]|] eqn:Hc;
      [|by unfold contains in Hin; rewrite Hc in Hin].
    apply cut_Some_app in Hc. rewrite append_assoc in Hc.
    rewrite Hc, contains_occurrence in Hcom. done. }
  assert (Hshorts : contains "youtube.com/shorts/" video_id = false).
  { destruct (contains "youtube.com/shorts/" video_id) eqn:Hin; [|done].
    change "youtube.com/shorts/" with ("youtube.com/" +:+ "shorts/") in Hin.
    destruct (cut ("youtube.com/" +:+ "shorts/") video_id) as [[x y]|] eqn:Hc;
      [|by unfold contains in Hin; rewrite Hc in Hin].
    apply cut_Some_app in Hc. rewrite append_assoc in Hc.
    rewrite Hc, contains_occurrence in Hcom. done. }
  apply contains_false_cut in Hwatch, Hshorts.
  unfold YouTubeScraper._extract_video_id. split.
  - assert (Hin : contains "youtube.com/watch?v="
                    ("https://www.youtube.com/watch?v=" +:+ video_id) = true)
      by (vm_compute; reflexivity).
    rewrite Hin.
    rewrite (item_split_1 "v=" _ "https://www.youtube.com/watch?" video_id);
      [|done|vm_compute; reflexivity].
    rewrite Hv. simpl. by rewrite item_split_0, Hamp.
  - unfold contains. rewrite !append_cons, append_nil.
    cbn. rewrite Hwatch, Hshorts. cbn. rewrite Hbe. cbn. by rewrite Hq.
Qed.

(** ** The cutoff of a scraper *)

Lemma cutoff_time_Done (hours now : Z) {A}
    (k : Z → outcome A) (r : A) :
  (delta ← lift (timedelta_hours hours);
   cutoff_time ← lift (datetime_sub now delta);
   k cutoff_time) = Done r →
  k (now - hours * microseconds_per_hour) = Done r.
Proof.
  unfold timedelta_hours, datetime_sub.
  case_decide; [|done]. cbn [lift mbind outcome_bind].
  case_decide; [|done]. by cbn [lift mbind outcome_bind].
Qed.

Lemma cutoff_time_not_index (hours now : Z) {A} (k : Z → outcome A) :
  (∀ cutoff_time, k cutoff_time ≠ Fails IndexError) →
  (delta ← lift (timedelta_hours hours);
   cutoff_time ← lift (datetime_sub now delta);
   k cutoff_time) ≠ Fails IndexError.
Proof.
  intros Hk. unfold timedelta_hours, datetime_sub.
  case_decide; [|done]. cbn [lift mbind outcome_bind].
  case_decide; [|done]. cbn [lift mbind outcome_bind]. apply Hk.
Qed.

(** ** The latest videos of a channel *)

Lemma youtube_scan_videos (cutoff_time : Z)
    (entries : list YouTubeScraper.Entry.t)
    (videos out : list YouTubeScraper.ChannelVideo.t)
    (P : YouTubeScraper.ChannelVideo.t → Prop) :
  (∀ entry published_time video_id,
     entry ∈ entries →
     contains "/shorts/" (YouTubeScraper.Entry.link entry) = false →
     datetime_utc (YouTubeScraper.Entry.published_parsed entry)
     = Done published_time →
     cutoff_time ≤ published_time →
     YouTubeScraper._extract_video_id (YouTubeScraper.Entry.link entry)
     = Done video_id →
     P {| YouTubeScraper.ChannelVideo.title :=
            YouTubeScraper.Entry.title entry;
          YouTubeScraper.ChannelVideo.url := YouTubeScraper.Entry.link entry;
          YouTubeScraper.ChannelVideo.video_id := video_id;
          YouTubeScraper.ChannelVideo.published_at := published_time;
          YouTubeScraper.ChannelVideo.description :=
            default "" (YouTubeScraper.Entry.summary entry);
          YouTubeScraper.ChannelVideo.transcript := None |}) →
  YouTubeScraper.scan cutoff_time entries videos = Done out →
  Forall P videos → Forall P out.
Proof.
  revert videos. induction entries as [|entry entries IH]; intros videos HP.
  - by intros [= <-].
  - assert (HP' : ∀ entry' published_time video_id,
      entry' ∈ entries →
      contains "/shorts/" (YouTubeScraper.Entry.link entry') = false →
      datetime_utc (YouTubeScraper.Entry.published_parsed entry')
      = Done published_time →
      cutoff_time ≤ published_time →
      YouTubeScraper._extract_video_id (YouTubeScraper.Entry.link entry')
      = Done video_id →
      P {| YouTubeScraper.ChannelVideo.title :=
             YouTubeScraper.Entry.title entry';
           YouTubeScraper.ChannelVideo.url :=
             YouTubeScraper.Entry.link entry';
           YouTubeScraper.ChannelVideo.video_id := video_id;
           YouTubeScraper.ChannelVideo.published_at := published_time;
           YouTubeScraper.ChannelVideo.description :=
             default "" (YouTubeScraper.Entry.summary entry');
           YouTubeScraper.ChannelVideo.transcript := None |}).
    { intros entry' t i Hin. apply HP. by apply list_elem_of_further. }
    cbn [YouTubeScraper.scan].
    destruct (contains "/shorts/" (YouTubeScraper.Entry.link entry)) eqn:Hs;
      [by apply IH|].
    destruct (datetime_utc _) as [published_time|e] eqn:Ht; [|done].
    cbn [mbind outcome_bind]. case_decide as Hle; [|by apply IH].
    destruct (YouTubeScraper._extract_video_id _) as [video_id|e] eqn:Hid;
      [|done].
    cbn [mbind outcome_bind]. intros Hscan Hvideos.
    apply (IH _ HP' Hscan). apply Forall_app. split; [done|].
    apply Forall_singleton. by apply (HP entry); [apply list_elem_of_here|..].
Qed.

Lemma youtube_scan_not_index (cutoff_time : Z)
    (entries : list YouTubeScraper.Entry.t)
    (videos : list YouTubeScraper.ChannelVideo.t) :
  YouTubeScraper.scan cutoff_time entries videos ≠ Fails IndexError.
Proof.
  revert videos. induction entries as [|entry entries IH]; intros videos;
    [done|].
  cbn [YouTubeScraper.scan].
  destruct (contains "/shorts/" _); [apply IH|].
  destruct (datetime_utc _) as [published_time|e] eqn:Ht.
  - cbn [mbind outcome_bind]. case_decide; [|apply IH].
    destruct (extract_video_id_total (YouTubeScraper.Entry.link entry))
      as [video_id ->].
    cbn [mbind outcome_bind]. apply IH.
  - cbn [mbind outcome_bind]. unfold datetime_utc in Ht.
    case_decide; by simplify_eq.
Qed.

(** X17: [get_latest_videos] never fails on an index, and every video it
    returns is not a short, was published at or after the cutoff, carries
    the id that [_extract_video_id] takes from its URL, and has no
    transcript yet. *)
Theorem get_latest_videos_returned (entries : list YouTubeScraper.Entry.t)
    (hours now : Z) :
  YouTubeScraper.get_latest_videos entries hours now ≠ Fails IndexError
  ∧ (∀ videos video,
     YouTubeScraper.get_latest_videos entries hours now = Done videos →
     video ∈ videos →
       contains "/shorts/" (YouTubeScraper.ChannelVideo.url video) = false
       ∧ now - hours * microseconds_per_hour
         ≤ YouTubeScraper.ChannelVideo.published_at video
       ∧ YouTubeScraper._extract_video_id
           (YouTubeScraper.ChannelVideo.url video)
         = Done (YouTubeScraper.ChannelVideo.video_id video)
       ∧ YouTubeScraper.ChannelVideo.transcript video = None).
Proof.
  unfold YouTubeScraper.get_latest_videos. split.
  - destruct entries as [|entry entries]; [done|].
    apply cutoff_time_not_index. intros c. apply youtube_scan_not_index.
  - intros videos video. revert video. destruct entries as [|entry entries].
    + intros video [= <-] Hv. by apply elem_of_nil in Hv.
    + intros video Hscan%cutoff_time_Done. revert video. apply Forall_forall.
      apply (youtube_scan_videos _ _ _ _ _ (λ e t i _ Hs Ht Hle Hid,
               conj Hs (conj Hle (conj Hid eq_refl))) Hscan).
      apply Forall_nil_2.
Qed.

(** ** The articles of the Anthropic feeds *)

(** What the loop over one feed keeps: the guids of the articles differ
    from one another, [seen_guids] holds exactly these guids, and every
    article is at or after the cutoff; and what it adds: the guid of every
    entry of the feed that is at or after the cutoff. *)
Lemma anthropic_scan_inv (cutoff_time : Z)
    (entries : list AnthropicScraper.Entry.t)
    (st st' : list AnthropicScraper.AnthropicArticle.t * gset string) :
  AnthropicScraper.scan cutoff_time entries st = Done st' →
  NoDup (AnthropicScraper.AnthropicArticle.guid <$> st.1) →
  (∀ g, g ∈ st.2 ↔ g ∈ AnthropicScraper.AnthropicArticle.guid <$> st.1) →
  Forall (λ a, cutoff_time ≤ AnthropicScraper.AnthropicArticle.published_at a)
    st.1 →
  NoDup (AnthropicScraper.AnthropicArticle.guid <$> st'.1)
  ∧ (∀ g, g ∈ st'.2 ↔ g ∈ AnthropicScraper.AnthropicArticle.guid <$> st'.1)
  ∧ Forall (λ a, cutoff_time ≤ AnthropicScraper.AnthropicArticle.published_at a)
      st'.1
  ∧ (∀ g, g ∈ st.2 → g ∈ st'.2)
  ∧ (∀ entry p t,
       entry ∈ entries →
       AnthropicScraper.Entry.published_parsed entry = Some p →
       datetime_utc p = Done t →
       cutoff_time ≤ t →
       default (default "" (AnthropicScraper.Entry.link entry))
         (AnthropicScraper.Entry.id entry) ∈ st'.2).
Proof.
  revert st. induction entries as [|entry entries IH]; intros st.
  - intros [= <-] Hnodup Hseen Hcut. repeat split; try done; try apply Hseen.
    intros e p t He. by apply elem_of_nil in He.
  - cbn [AnthropicScraper.scan].
    assert (Hskip : AnthropicScraper.scan cutoff_time entries st = Done st' →
      (∀ p t, AnthropicScraper.Entry.published_parsed entry = Some p →
              datetime_utc p = Done t → cutoff_time ≤ t →
              default (default "" (AnthropicScraper.Entry.link entry))
                (AnthropicScraper.Entry.id entry) ∈ st.2) →
      NoDup (AnthropicScraper.AnthropicArticle.guid <$> st.1) →
      (∀ g, g ∈ st.2 ↔ g ∈ AnthropicScraper.AnthropicArticle.guid <$> st.1) →
      Forall
        (λ a, cutoff_time ≤ AnthropicScraper.AnthropicArticle.published_at a)
        st.1 →
      NoDup (AnthropicScraper.AnthropicArticle.guid <$> st'.1)
      ∧ (∀ g, g ∈ st'.2 ↔
              g ∈ AnthropicScraper.AnthropicArticle.guid <$> st'.1)
      ∧ Forall
          (λ a, cutoff_time ≤ AnthropicScraper.AnthropicArticle.published_at a)
          st'.1
      ∧ (∀ g, g ∈ st.2 → g ∈ st'.2)
      ∧ (∀ entry' p t,
           entry' ∈ entry :: entries →
           AnthropicScraper.Entry.published_parsed entry' = Some p →
           datetime_utc p = Done t →
           cutoff_time ≤ t →
           default (default "" (AnthropicScraper.Entry.link entry'))
             (AnthropicScraper.Entry.id entry') ∈ st'.2)).
    { intros Hscan Hthis Hnodup Hseen Hcut.
      destruct (IH st Hscan Hnodup Hseen Hcut) as (H1 & H2 & H3 & H4 & H5).
      repeat split; try done; try apply H2.
      intros e p t [->|He]%elem_of_cons Hp Ht Hle; [|by eapply H5].
      apply H4. by eapply Hthis. }
    destruct (AnthropicScraper.Entry.published_parsed entry) as [p|] eqn:Hp;
      [|intros Hscan; by apply Hskip].
    destruct (datetime_utc p) as [t|e] eqn:Ht; [|done].
    cbn [mbind outcome_bind]. case_decide as Hle.
    2:{ intros Hscan. apply Hskip; [done|].
        intros p0 t0 [= <-] Ht0 Hle0. rewrite Ht in Ht0.
        by injection Ht0 as ->. }
    case_decide as Hin.
    { intros Hscan. apply Hskip; [done|]. by intros p0 t0 _ _ _. }
    intros Hscan Hnodup Hseen Hcut.
    destruct (IH _ Hscan) as (H1 & H2 & H3 & H4 & H5); cbn [fst snd].
    { rewrite fmap_app. apply NoDup_app. split; [done|]. split.
      - intros g Hg ->%list_elem_of_singleton. apply Hin. by apply Hseen.
      - apply NoDup_singleton. }
    { intros g. rewrite fmap_app, elem_of_app, elem_of_union,
        elem_of_singleton, Hseen. cbn. rewrite list_elem_of_singleton. tauto. }
    { apply Forall_app. split; [done|]. by apply Forall_singleton. }
    repeat split; try done; try apply H2.
    + intros g Hg. apply H4. cbn. apply elem_of_union. by right.
    + intros e p' t' [->|He]%elem_of_cons Hp' Ht' Hle'; [|by eapply H5].
      apply H4. cbn. apply elem_of_union. left. by apply elem_of_singleton.
Qed.

Lemma anthropic_scan_feeds_inv (cutoff_time : Z)
    (feeds : list (list AnthropicScraper.Entry.t))
    (st st' : list AnthropicScraper.AnthropicArticle.t * gset string) :
  AnthropicScraper.scan_feeds cutoff_time feeds st = Done st' →
  NoDup (AnthropicScraper.AnthropicArticle.guid <$> st.1) →
  (∀ g, g ∈ st.2 ↔ g ∈ AnthropicScraper.AnthropicArticle.guid <$> st.1) →
  Forall (λ a, cutoff_time ≤ AnthropicScraper.AnthropicArticle.published_at a)
    st.1 →
  NoDup (AnthropicScraper.AnthropicArticle.guid <$> st'.1)
  ∧ (∀ g, g ∈ st'.2 ↔ g ∈ AnthropicScraper.AnthropicArticle.guid <$> st'.1)
  ∧ Forall (λ a, cutoff_time ≤ AnthropicScraper.AnthropicArticle.published_at a)
      st'.1
  ∧ (∀ g, g ∈ st.2 → g ∈ st'.2)
  ∧ (∀ entries entry p t,
       entries ∈ feeds → entry ∈ entries →
       AnthropicScraper.Entry.published_parsed entry = Some p →
       datetime_utc p = Done t →
       cutoff_time ≤ t →
       default (default "" (AnthropicScraper.Entry.link entry))
         (AnthropicScraper.Entry.id entry) ∈ st'.2).
Proof.
  revert st. induction feeds as [|entries feeds IH]; intros st.
  - intros [= <-] Hnodup Hseen Hcut. repeat split; try done; try apply Hseen.
    intros es e p t Hes. by apply elem_of_nil in Hes.
  - cbn [AnthropicScraper.scan_feeds].
    destruct (AnthropicScraper.scan cutoff_time entries st) as [st1|e] eqn:Hscan;
      [|done].
    cbn [mbind outcome_bind]. intros Hfeeds Hnodup Hseen Hcut.
    destruct (anthropic_scan_inv _ _ _ _ Hscan Hnodup Hseen Hcut)
      as (H1 & H2 & H3 & H4 & H5).
    destruct (IH _ Hfeeds H1 H2 H3) as (G1 & G2 & G3 & G4 & G5).
    repeat split; try done; try apply G2.
    + intros g Hg. by apply G4, H4.
    + intros es e p t [->|Hes]%elem_of_cons He Hp Ht Hle.
      * apply G4. by eapply H5.
      * by eapply G5.
Qed.

(** X18: the articles that [get_articles] returns have guids that differ
    from one another, although the feeds repeat articles; each was
    published at or after the cutoff; and every entry of a feed that was
    published at or after the cutoff has its guid among them. *)
Theorem get_articles_distinct (feeds : list (list AnthropicScraper.Entry.t))
    (hours now : Z) (articles : list AnthropicScraper.AnthropicArticle.t) :
  AnthropicScraper.get_articles feeds hours now = Done articles →
  NoDup (AnthropicScraper.AnthropicArticle.guid <$> articles)
  ∧ Forall
      (λ a, now - hours * microseconds_per_hour
            ≤ AnthropicScraper.AnthropicArticle.published_at a) articles
  ∧ ∀ entries entry p t,
      entries ∈ feeds → entry ∈ entries →
      AnthropicScraper.Entry.published_parsed entry = Some p →
      datetime_utc p = Done t →
      now - hours * microseconds_per_hour ≤ t →
      default (default "" (AnthropicScraper.Entry.link entry))
        (AnthropicScraper.Entry.id entry)
      ∈ AnthropicScraper.AnthropicArticle.guid <$> articles.
Proof.
  unfold AnthropicScraper.get_articles. intros Hscan%cutoff_time_Done.
  destruct (AnthropicScraper.scan_feeds _ feeds ([], ∅)) as [st|e] eqn:Hfeeds;
    [|done].
  cbn [mbind outcome_bind] in Hscan. injection Hscan as <-.
  destruct (anthropic_scan_feeds_inv _ _ _ _ Hfeeds)
    as (H1 & H2 & H3 & _ & H5); cbn [fst snd].
  { apply NoDup_nil_2. }
  { intros g. rewrite fmap_nil. set_solver. }
  { apply Forall_nil_2. }
  repeat split; [done..|].
  intros es e p t Hes He Hp Ht Hle. apply H2. by eapply H5.
Qed.

Lemma bulk_create_anthropic_articles_distinct (articles : list ArticleDict.t)
    (s : Session) :
  NoDup (ArticleDict.guid <$> articles) →
  let new :=
    anthropic_of_dict <$>
      filter (λ a, ArticleDict.guid a
                   ∉ AnthropicArticle.guid <$> anthropic_articles s)
        articles in
  bulk_create_anthropic_articles articles s
  = Ok (length new, set_anthropic_articles (anthropic_articles s ++ new) s).
Proof.
  intros Hnodup. cbv zeta. unfold bulk_create_anthropic_articles.
  rewrite collect_new_filter.
  change (λ d, AnthropicArticle.guid (anthropic_of_dict d)
               ∉ AnthropicArticle.guid <$> anthropic_articles s)
    with (λ a, ArticleDict.guid a
               ∉ AnthropicArticle.guid <$> anthropic_articles s).
  remember (anthropic_of_dict <$>
              filter (λ a, ArticleDict.guid a
                           ∉ AnthropicArticle.guid <$> anthropic_articles s)
                articles) as new eqn:Hnew.
  assert (Hadd : add_all_commit AnthropicArticle.guid new (anthropic_articles s)
                 = Ok (anthropic_articles s ++ new)).
  { apply add_all_commit_distinct.
    - rewrite Hnew, <- list_fmap_compose.
      eapply sublist_NoDup; [exact Hnodup|].
      apply fmap_sublist, sublist_filter.
    - rewrite Hnew. intros r (v & -> & Hv)%list_elem_of_fmap.
      by apply list_elem_of_filter in Hv as [Hfree _]. }
  clear Hnew. destruct new as [|n new].
  - by rewrite app_nil_r, set_anthropic_articles_id.
  - by rewrite Hadd.
Qed.

(** X19: a batch made of the articles that [get_articles] returned, one
    dict per article under its guid, is always accepted by
    [bulk_create_anthropic_articles]: the storage layer cannot reject it
    for a repeated guid. *)
Theorem scraped_articles_are_accepted
    (feeds : list (list AnthropicScraper.Entry.t)) (hours now : Z)
    (scraped : list AnthropicScraper.AnthropicArticle.t)
    (articles : list ArticleDict.t) (s : Session) :
  AnthropicScraper.get_articles feeds hours now = Done scraped →
  ArticleDict.guid <$> articles
  = AnthropicScraper.AnthropicArticle.guid <$> scraped →
  ∃ n s', bulk_create_anthropic_articles articles s = Ok (n, s')
          ∧ ∀ a, a ∈ articles →
                 ArticleDict.guid a
                 ∈ AnthropicArticle.guid <$> anthropic_articles s'.
Proof.
  intros [Hnodup _]%get_articles_distinct Hguids. rewrite <- Hguids in Hnodup.
  rewrite (bulk_create_anthropic_articles_distinct articles s Hnodup).
  eexists _, _. split; [done|]. intros a Ha.
  cbn [anthropic_articles set_anthropic_articles].
  rewrite fmap_app, elem_of_app.
  destruct (decide (ArticleDict.guid a
                    ∈ AnthropicArticle.guid <$> anthropic_articles s))
    as [Hin|Hout]; [by left|right].
  rewrite <- list_fmap_compose. apply list_elem_of_fmap. exists a.
  split; [done|]. by apply list_elem_of_filter.
Qed.

(** * The agents *)

(** ** The email agent *)

(** X20: for articles that the summary lines can read (objects with the
    two attributes, dicts), the greeting of [generate_introduction] starts
    with ["Hey "] and the name of the user, whatever the language model
    answered and also when it failed. *)
Theorem greeting_starts_with_name {A} `{EmailAgent.Summarised A}
    (name current_date : string)
    (answer : option EmailAgent.EmailIntroduction.t)
    (ranked_articles : list A) :
  starts_with ("Hey " +:+ name)
    (EmailAgent.EmailIntroduction.greeting
       (EmailAgent.generate_introduction name current_date answer
          ranked_articles))
  = true.
Proof.
  assert (Hstandard : starts_with ("Hey " +:+ name)
            (EmailAgent.standard_greeting name current_date) = true).
  { unfold EmailAgent.standard_greeting.
    rewrite <- (append_assoc "Hey " name). apply prefix_app. }
  unfold EmailAgent.generate_introduction.
  destruct ranked_articles as [|a l]; [done|]. cbv zeta.
  destruct answer as [intro|]; [|done].
  by destruct (starts_with _ (EmailAgent.EmailIntroduction.greeting intro))
    eqn:Hp.
Qed.

(** X21: [create_email_digest_response] lists a prefix of the ranked
    articles, of at most [limit] items when the limit is not negative;
    when it lists none, the introduction says that no articles were ranked,
    whatever the language model answered. *)
Theorem create_email_digest_response_articles (name current_date : string)
    (answer : option EmailAgent.EmailIntroduction.t)
    (ranked_articles : list EmailAgent.RankedArticleDetail.t)
    (total_ranked limit : Z) :
  let response :=
    EmailAgent.create_email_digest_response name current_date answer
      ranked_articles total_ranked limit in
  EmailAgent.EmailDigestResponse.articles response `prefix_of` ranked_articles
  ∧ (0 ≤ limit →
     length (EmailAgent.EmailDigestResponse.articles response)
     = (Z.to_nat limit `min` length ranked_articles)%nat)
  ∧ (EmailAgent.EmailDigestResponse.articles response = [] →
     EmailAgent.EmailDigestResponse.introduction response
     = {| EmailAgent.EmailIntroduction.greeting :=
            EmailAgent.standard_greeting name current_date;
          EmailAgent.EmailIntroduction.introduction :=
            "No articles were ranked today." |}).
Proof.
  cbv zeta. unfold EmailAgent.create_email_digest_response.
  cbn [EmailAgent.EmailDigestResponse.articles
       EmailAgent.EmailDigestResponse.introduction].
  split; [|split].
  - unfold slice_to. case_decide; apply prefix_take.
  - intros Hlimit. unfold slice_to. rewrite decide_True by done.
    apply length_take.
  - by intros ->.
Qed.

Lemma to_markdown_foldl (articles : list EmailAgent.RankedArticleDetail.t)
    (markdown : string) :
  foldl (λ markdown article, markdown +:+ EmailAgent.section article)
    markdown articles
  = markdown
    +:+ foldr (λ article rest, EmailAgent.section article +:+ rest) ""
          articles.
Proof.
  revert markdown. induction articles as [|a l IH]; intros markdown; simpl.
  - clear. induction markdown as [|c m IH]; [done|].
    rewrite append_cons. by f_equal.
  - by rewrite IH, append_assoc.
Qed.

Lemma sections_hold (articles : list EmailAgent.RankedArticleDetail.t)
    (article : EmailAgent.RankedArticleDetail.t) :
  article ∈ articles →
  ∃ x y,
    foldr (λ article rest, EmailAgent.section article +:+ rest) "" articles
    = x +:+ EmailAgent.section article +:+ y.
Proof.
  induction articles as [|a l IH]; [by intros ?%elem_of_nil|].
  intros [->|Hin]%elem_of_cons; cbn [foldr].
  - by exists "", (foldr (λ article rest, EmailAgent.section article +:+ rest)
                     "" l).
  - destruct (IH Hin) as (x & y & ->).
    exists (EmailAgent.section a +:+ x), y. by rewrite append_assoc.
Qed.

(** X22: the markdown of a response holds the section of every article it
    lists: the title as a heading, the summary and the link. *)
Theorem to_markdown_holds_every_article
    (self : EmailAgent.EmailDigestResponse.t)
    (article : EmailAgent.RankedArticleDetail.t) :
  article ∈ EmailAgent.EmailDigestResponse.articles self →
  contains (EmailAgent.section article) (EmailAgent.to_markdown self) = true.
Proof.
  intros (x & y & Heq)%sections_hold.
  unfold EmailAgent.to_markdown. cbv zeta. rewrite to_markdown_foldl, Heq.
  rewrite <- (append_assoc _ x). apply contains_occurrence.
Qed.

(** ** The curator agent *)

Lemma insert_by_rank_Permutation (x : CuratorAgent.RankedArticle.t)
    (l : list CuratorAgent.RankedArticle.t) :
  CuratorAgent.insert_by_rank x l ≡ₚ x :: l.
Proof.
  induction l as [|y l IH]; simpl; [done|].
  case_decide; [done|]. rewrite IH. apply Permutation_swap.
Qed.

Lemma sort_by_rank_Permutation (l : list CuratorAgent.RankedArticle.t) :
  CuratorAgent.sort_by_rank l ≡ₚ l.
Proof.
  unfold CuratorAgent.sort_by_rank. induction l as [|x l IH]; simpl; [done|].
  by rewrite insert_by_rank_Permutation, IH.
Qed.

Lemma insert_by_rank_sorted (x : CuratorAgent.RankedArticle.t)
    (l : list CuratorAgent.RankedArticle.t) :
  StronglySorted CuratorAgent.by_rank l →
  StronglySorted CuratorAgent.by_rank (CuratorAgent.insert_by_rank x l).
Proof.
  induction 1 as [|y l Hsorted IH Hall]; simpl.
  - repeat constructor.
  - case_decide as Hle.
    + constructor; [by constructor|]. constructor; [done|].
      eapply Forall_impl; [exact Hall|]. unfold CuratorAgent.by_rank.
      intros z Hz. lia.
    + constructor; [done|]. rewrite insert_by_rank_Permutation.
      constructor; [|done]. unfold CuratorAgent.by_rank. lia.
Qed.

Lemma sort_by_rank_sorted (l : list CuratorAgent.RankedArticle.t) :
  StronglySorted CuratorAgent.by_rank (CuratorAgent.sort_by_rank l).
Proof.
  unfold CuratorAgent.sort_by_rank. induction l as [|x l IH]; simpl.
  - constructor.
  - by apply insert_by_rank_sorted.
Qed.

(** The articles of one rank keep their order. *)
Lemma insert_by_rank_stable (r : Z) (x : CuratorAgent.RankedArticle.t)
    (l : list CuratorAgent.RankedArticle.t) :
  StronglySorted CuratorAgent.by_rank l →
  filter (λ a, CuratorAgent.RankedArticle.rank a = r)
    (CuratorAgent.insert_by_rank x l)
  = filter (λ a, CuratorAgent.RankedArticle.rank a = r) (x :: l).
Proof.
  induction 1 as [|y l Hsorted IH Hall]; simpl; [done|].
  case_decide as Hle; [done|].
  rewrite (filter_cons _ y), IH, !(filter_cons _ x), (filter_cons _ y).
  destruct (decide (CuratorAgent.RankedArticle.rank x = r)) as [Hx|Hx];
    [|done].
  destruct (decide (CuratorAgent.RankedArticle.rank y = r)) as [Hy|Hy];
    [lia|done].
Qed.

Lemma sort_by_rank_stable (r : Z) (l : list CuratorAgent.RankedArticle.t) :
  filter (λ a, CuratorAgent.RankedArticle.rank a = r)
    (CuratorAgent.sort_by_rank l)
  = filter (λ a, CuratorAgent.RankedArticle.rank a = r) l.
Proof.
  induction l as [|x l IH]; [done|].
  change (CuratorAgent.sort_by_rank (x :: l))
    with (CuratorAgent.insert_by_rank x (CuratorAgent.sort_by_rank l)).
  rewrite insert_by_rank_stable by apply sort_by_rank_sorted.
  by rewrite !filter_cons, IH.
Qed.

(** X23: [rank_digests] returns articles in the order of their ranks, each
    with a score from 0 to 10 and a rank of at least 1; it returns the
    articles of the answer, those of one rank in the order of the answer,
    when there are digests and every article of the answer passes the
    validation, and nothing otherwise. *)
Theorem rank_digests_sorted {D}
    (result : option (list CuratorAgent.RankedArticle.t)) (digests : list D) :
  StronglySorted CuratorAgent.by_rank (CuratorAgent.rank_digests result digests)
  ∧ Forall CuratorAgent.valid (CuratorAgent.rank_digests result digests)
  ∧ match result with
    | Some articles =>
        if decide (digests ≠ [] ∧ Forall CuratorAgent.valid articles)
        then CuratorAgent.rank_digests result digests ≡ₚ articles
             ∧ ∀ r, filter (λ a, CuratorAgent.RankedArticle.rank a = r)
                      (CuratorAgent.rank_digests result digests)
                    = filter (λ a, CuratorAgent.RankedArticle.rank a = r)
                        articles
        else CuratorAgent.rank_digests result digests = []
    | None => CuratorAgent.rank_digests result digests = []
    end.
Proof.
  unfold CuratorAgent.rank_digests.
  destruct digests as [|d digests].
  { repeat split; try constructor. destruct result; [|done].
    rewrite decide_False; [done|]. by intros [? _]. }
  destruct result as [articles|]; [|by repeat constructor].
  destruct (decide (Forall CuratorAgent.valid articles)) as [Hvalid|Hinvalid].
  - rewrite decide_True by done. repeat split.
    + apply sort_by_rank_sorted.
    + by rewrite sort_by_rank_Permutation.
    + apply sort_by_rank_Permutation.
    + intros r. apply sort_by_rank_stable.
  - rewrite decide_False by tauto. by repeat constructor.
Qed.

(** ** The scrapers and the agents on the fixtures *)

Lemma extract_video_id_no_query_witness :
  YouTubeScraper._extract_video_id
    "https://www.youtube.com/watch?v=abc123&t=10s" = Done "abc123"
  ∧ (if contains "youtube.com/watch?v="
          "https://www.youtube.com/watch?v=abc123&t=10s"
     then contains "&" "abc123" = false
     else if contains "youtube.com/shorts/"
               "https://www.youtube.com/watch?v=abc123&t=10s"
             || contains "youtu.be/"
                  "https://www.youtube.com/watch?v=abc123&t=10s"
          then contains "?" "abc123" = false
          else "abc123" = "https://www.youtube.com/watch?v=abc123&t=10s").
Proof.
  assert (Hid : YouTubeScraper._extract_video_id
                  "https://www.youtube.com/watch?v=abc123&t=10s"
                = Done "abc123") by (vm_compute; reflexivity).
  split; [exact Hid|].
  exact (extract_video_id_no_query
           "https://www.youtube.com/watch?v=abc123&t=10s" "abc123" Hid).
Defined.

Lemma extract_video_id_round_trip_witness :
  contains "v=" "dQw4w9WgXcQ" = false
  ∧ contains "&" "dQw4w9WgXcQ" = false
  ∧ contains "?" "dQw4w9WgXcQ" = false
  ∧ contains "youtu.be/" "dQw4w9WgXcQ" = false
  ∧ contains "youtube.com/" "dQw4w9WgXcQ" = false
  ∧ YouTubeScraper._extract_video_id
      ("https://www.youtube.com/watch?v=" +:+ "dQw4w9WgXcQ")
    = Done "dQw4w9WgXcQ"
  ∧ YouTubeScraper._extract_video_id ("https://youtu.be/" +:+ "dQw4w9WgXcQ")
    = Done "dQw4w9WgXcQ".
Proof.
  do 5 (split; [reflexivity|]).
  apply (extract_video_id_round_trip "dQw4w9WgXcQ"); reflexivity.
Defined.

Lemma channel_feed_fixture_videos :
  YouTubeScraper.get_latest_videos channel_feed_fixture 24 clock_2026
  = Done
      [ {| YouTubeScraper.ChannelVideo.title := "a video";
           YouTubeScraper.ChannelVideo.url :=
             "https://www.youtube.com/watch?v=abc123&t=10s";
           YouTubeScraper.ChannelVideo.video_id := "abc123";
           YouTubeScraper.ChannelVideo.published_at :=
             clock_2026 - 27200 * 1000000;
           YouTubeScraper.ChannelVideo.description := "summary";
           YouTubeScraper.ChannelVideo.transcript := None |} ].
Proof. vm_compute. reflexivity. Qed.

Lemma get_latest_videos_returned_witness :
  YouTubeScraper.get_latest_videos channel_feed_fixture 24 clock_2026
  ≠ Fails IndexError
  ∧ YouTubeScraper.get_latest_videos channel_feed_fixture 24 clock_2026
    = Done
        [ {| YouTubeScraper.ChannelVideo.title := "a video";
             YouTubeScraper.ChannelVideo.url :=
               "https://www.youtube.com/watch?v=abc123&t=10s";
             YouTubeScraper.ChannelVideo.video_id := "abc123";
             YouTubeScraper.ChannelVideo.published_at :=
               clock_2026 - 27200 * 1000000;
             YouTubeScraper.ChannelVideo.description := "summary";
             YouTubeScraper.ChannelVideo.transcript := None |} ]
  ∧ contains "/shorts/" "https://www.youtube.com/watch?v=abc123&t=10s" = false
  ∧ clock_2026 - 24 * microseconds_per_hour ≤ clock_2026 - 27200 * 1000000
  ∧ YouTubeScraper._extract_video_id
      "https://www.youtube.com/watch?v=abc123&t=10s" = Done "abc123".
Proof.
  destruct (get_latest_videos_returned channel_feed_fixture 24 clock_2026)
    as [Hindex Hvideos].
  split; [exact Hindex|]. split; [exact channel_feed_fixture_videos|].
  destruct (Hvideos _ _ channel_feed_fixture_videos (list_elem_of_here _ _))
    as (Hshort & Hcut & Hid & _).
  split; [exact Hshort|]. split; [exact Hcut|exact Hid].
Defined.

Lemma feeds_fixture_articles :
  AnthropicScraper.get_articles feeds_fixture 24 clock_2026
  = Done scraped_fixture.
Proof. vm_compute. reflexivity. Qed.

Lemma get_articles_distinct_witness :
  AnthropicScraper.get_articles feeds_fixture 24 clock_2026
  = Done scraped_fixture
  ∧ NoDup (AnthropicScraper.AnthropicArticle.guid <$> scraped_fixture)
  ∧ Forall
      (λ a, clock_2026 - 24 * microseconds_per_hour
            ≤ AnthropicScraper.AnthropicArticle.published_at a)
      scraped_fixture
  ∧ ∀ entries entry p t,
      entries ∈ feeds_fixture → entry ∈ entries →
      AnthropicScraper.Entry.published_parsed entry = Some p →
      datetime_utc p = Done t →
      clock_2026 - 24 * microseconds_per_hour ≤ t →
      default (default "" (AnthropicScraper.Entry.link entry))
        (AnthropicScraper.Entry.id entry)
      ∈ AnthropicScraper.AnthropicArticle.guid <$> scraped_fixture.
Proof.
  split; [exact feeds_fixture_articles|].
  exact (get_articles_distinct feeds_fixture 24 clock_2026 scraped_fixture
           feeds_fixture_articles).
Defined.

Lemma scraped_articles_are_accepted_witness :
  AnthropicScraper.get_articles feeds_fixture 24 clock_2026
  = Done scraped_fixture
  ∧ ArticleDict.guid <$>
      [ article_dict_fixture "g1"; article_dict_fixture "https://a/2" ]
    = AnthropicScraper.AnthropicArticle.guid <$> scraped_fixture
  ∧ ∃ n s',
      bulk_create_anthropic_articles
        [ article_dict_fixture "g1"; article_dict_fixture "https://a/2" ]
        readiness_fixture = Ok (n, s')
      ∧ ∀ a,
          a ∈ [ article_dict_fixture "g1"; article_dict_fixture "https://a/2" ] →
          ArticleDict.guid a
          ∈ AnthropicArticle.guid <$> anthropic_articles s'.
Proof.
  split; [exact feeds_fixture_articles|]. split; [reflexivity|].
  exact (scraped_articles_are_accepted feeds_fixture 24 clock_2026
           scraped_fixture
           [ article_dict_fixture "g1"; article_dict_fixture "https://a/2" ]
           readiness_fixture feeds_fixture_articles eq_refl).
Defined.

Lemma to_markdown_holds_every_article_witness :
  detail_fixture "second" 2
  ∈ EmailAgent.EmailDigestResponse.articles response_fixture
  ∧ contains (EmailAgent.section (detail_fixture "second" 2))
      (EmailAgent.to_markdown response_fixture) = true.
Proof.
  assert (Hin : detail_fixture "second" 2
                ∈ EmailAgent.EmailDigestResponse.articles response_fixture)
    by (apply list_elem_of_further, list_elem_of_here).
  split; [exact Hin|].
  exact (to_markdown_holds_every_article response_fixture
           (detail_fixture "second" 2) Hin).
Defined.

Lemma bulk_create_openai_articles_distinct (articles : list ArticleDict.t)
    (s : Session) :
  NoDup (ArticleDict.guid <$> articles) →
  let new :=
    openai_of_dict <$>
      filter (λ a, ArticleDict.guid a
                   ∉ OpenAIArticle.guid <$> openai_articles s)
        articles in
  bulk_create_openai_articles articles s
  = Ok (length new, set_openai_articles (openai_articles s ++ new) s).
Proof.
  intros Hnodup. cbv zeta. unfold bulk_create_openai_articles.
  rewrite collect_new_filter.
  change (λ d, OpenAIArticle.guid (openai_of_dict d)
               ∉ OpenAIArticle.guid <$> openai_articles s)
    with (λ a, ArticleDict.guid a
               ∉ OpenAIArticle.guid <$> openai_articles s).
  remember (openai_of_dict <$>
              filter (λ a, ArticleDict.guid a
                           ∉ OpenAIArticle.guid <$> openai_articles s)
                articles) as new eqn:Hnew.
  assert (Hadd : add_all_commit OpenAIArticle.guid new (openai_articles s)
                 = Ok (openai_articles s ++ new)).
  { apply add_all_commit_distinct.
    - rewrite Hnew, <- list_fmap_compose.
      eapply sublist_NoDup; [exact Hnodup|].
      apply fmap_sublist, sublist_filter.
    - rewrite Hnew. intros r (v & -> & Hv)%list_elem_of_fmap.
      by apply list_elem_of_filter in Hv as [Hfree _]. }
  clear Hnew. destruct new as [|n new].
  - destruct s. by rewrite app_nil_r.
  - by rewrite Hadd.
Qed.

(** X10: a batch whose keys differ from one another is registered in one
    call, for the three bulk methods: the result is the number of items
    whose key was free, their rows are stored after the rows that were
    there, in the order of the batch, and the rows that were there stay as
    they were. *)
Theorem bulk_create_counts_new_rows (videos : list VideoDict.t)
    (articles : list ArticleDict.t) (s : Session) :
  NoDup (VideoDict.video_id <$> videos) →
  NoDup (ArticleDict.guid <$> articles) →
  (let new :=
     video_of_dict <$>
       filter (λ v, VideoDict.video_id v
                    ∉ YouTubeVideo.video_id <$> youtube_videos s) videos in
   bulk_create_youtube_videos videos s
   = Ok (length new, set_youtube_videos (youtube_videos s ++ new) s))
  ∧ (let new :=
       openai_of_dict <$>
         filter (λ a, ArticleDict.guid a
                      ∉ OpenAIArticle.guid <$> openai_articles s) articles in
     bulk_create_openai_articles articles s
     = Ok (length new, set_openai_articles (openai_articles s ++ new) s))
  ∧ (let new :=
       anthropic_of_dict <$>
         filter (λ a, ArticleDict.guid a
                      ∉ AnthropicArticle.guid <$> anthropic_articles s)
           articles in
     bulk_create_anthropic_articles articles s
     = Ok (length new,
           set_anthropic_articles (anthropic_articles s ++ new) s)).
Proof.
  intros Hvideos Harticles. split; [|split].
  - by apply bulk_create_youtube_videos_distinct.
  - by apply bulk_create_openai_articles_distinct.
  - by apply bulk_create_anthropic_articles_distinct.
Qed.

Lemma bulk_create_counts_new_rows_witness :
  NoDup (VideoDict.video_id <$> batch_fixture)
  ∧ NoDup
      (ArticleDict.guid <$>
         [ article_dict_fixture "a1"; article_dict_fixture "n1" ])
  ∧ bulk_create_youtube_videos batch_fixture readiness_fixture
    = Ok (2%nat,
          set_youtube_videos
            (youtube_videos readiness_fixture
             ++ [ video_of_dict (video_dict_fixture "n1");
                  video_of_dict (video_dict_fixture "n2") ]) readiness_fixture)
  ∧ bulk_create_openai_articles
      [ article_dict_fixture "a1"; article_dict_fixture "n1" ]
      readiness_fixture
    = Ok (1%nat,
          set_openai_articles
            (openai_articles readiness_fixture
             ++ [ openai_of_dict (article_dict_fixture "n1") ])
            readiness_fixture)
  ∧ bulk_create_anthropic_articles
      [ article_dict_fixture "a1"; article_dict_fixture "n1" ]
      readiness_fixture
    = Ok (2%nat,
          set_anthropic_articles
            (anthropic_articles readiness_fixture
             ++ [ anthropic_of_dict (article_dict_fixture "a1");
                  anthropic_of_dict (article_dict_fixture "n1") ])
            readiness_fixture).
Proof.
  assert (Harticles : NoDup
            (ArticleDict.guid <$>
               [ article_dict_fixture "a1"; article_dict_fixture "n1" ]))
    by by apply (bool_decide_unpack _).
  split; [exact batch_fixture_distinct|]. split; [exact Harticles|].
  exact (bulk_create_counts_new_rows batch_fixture
           [ article_dict_fixture "a1"; article_dict_fixture "n1" ]
           readiness_fixture batch_fixture_distinct Harticles).
Defined.
